(** * KeyHunt Smart Coordinator v3.5.0: the keyspace block coordinator

    A shallow embedding of the coordinating core of
    [keyhunt_smart_coordinator_v3.5.0.py]: the pool range decoder
    ([PoolScraper]), the partitioner ([BlockManager]), the exclusion ledger
    ([ScanDatabase]), the pattern filter and the block selection, search,
    completion and collision handlers of [KeyHuntSmartGUI].

    Python integers are unbounded and are modelled by [Z]; Python [str]
    values are modelled by lists of characters with code points below 256.
    The cap that recent interpreters put on the number of decimal digits of
    an integer they read or print is not modelled.  Widget updates and log
    lines are presentation only and are left out, but not the exceptions
    that computing their texts can raise; what a handler asks of its
    environment (terminating the worker, starting a search thread,
    scheduling a main-loop callback) is recorded in an effect log carried by
    the state.

    The window's attributes are shared, without locks, by the main loop,
    the search threads and the scraper.  A handler of the main loop, and a
    turn of a thread between two points where it waits for its worker, is
    modelled as one step on the shared state; the steps of different
    threads are composed in the order in which a schedule runs them. *)

From Stdlib Require Import ZArith List Ascii String Bool Lia.
From Stdlib Require Import HexadecimalString.
From Stdlib Require HexadecimalFacts HexadecimalPos HexadecimalN.
From stdpp Require Import base strings gmap.
Import ListNotations.

Local Open Scope Z_scope.

(** ** Python values and builtins *)

Module Py.

Definition pystr := list ascii.

Definition str (s : string) : pystr := list_ascii_of_string s.

(** The exceptions the modelled code can meet. *)
Inductive exn :=
| ValueError
| ZeroDivisionError
| OverflowError
| NameError
| AttributeError
| OSError
| OperationalError (* [sqlite3.OperationalError] *).

(** A call either returns a value or raises. *)
Inductive outcome (A : Type) :=
| Returned (a : A)
| Raised (e : exn).
Arguments Returned {A} a.
Arguments Raised {A} e.

Definition bind {A B} (m : outcome A) (k : A -> outcome B) : outcome B :=
  match m with
  | Returned a => k a
  | Raised e => Raised e
  end.

Definition code (c : ascii) : Z := Z.of_nat (nat_of_ascii c).

Definition between (lo hi : Z) (c : ascii) : bool :=
  (lo <=? code c) && (code c <=? hi).

(** [str.isspace], which is also the class [\s] of [re] on [str]
    patterns, below code point 256. *)
Definition isspace (c : ascii) : bool :=
  between 9 13 c || between 28 32 c || (code c =? 133) || (code c =? 160).

(** The blanks that [int(text, base)] skips around a number: as
    [isspace] but without the separators 28..31. *)
Definition int_blank (c : ascii) : bool :=
  between 9 13 c || (code c =? 32) || (code c =? 133) || (code c =? 160).

(** [\d] of [re], and the digits of [int(text)], below code point 256. *)
Definition isdigit (c : ascii) : bool := between 48 57 c.

Fixpoint dropwhile (p : ascii -> bool) (s : pystr) : pystr :=
  match s with
  | [] => []
  | c :: r => if p c then dropwhile p r else s
  end.

Fixpoint takewhile (p : ascii -> bool) (s : pystr) : pystr :=
  match s with
  | [] => []
  | c :: r => if p c then c :: takewhile p r else []
  end.

Definition strip_with (p : ascii -> bool) (s : pystr) : pystr :=
  rev (dropwhile p (rev (dropwhile p s))).

(** [s.strip()]. *)
Definition strip (s : pystr) : pystr := strip_with isspace s.

Fixpoint startswith (p s : pystr) : bool :=
  match p, s with
  | [], _ => true
  | _ :: _, [] => false
  | a :: p', b :: s' => Ascii.eqb a b && startswith p' s'
  end.

(** [needle in hay] on strings. *)
Fixpoint contains (needle hay : pystr) : bool :=
  startswith needle hay ||
  match hay with
  | [] => false
  | _ :: r => contains needle r
  end.

(** Value of a digit in base 16, as [int] reads it. *)
Definition hex_digit_value (c : ascii) : option Z :=
  if between 48 57 c then Some (code c - 48)
  else if between 65 70 c then Some (code c - 55)
  else if between 97 102 c then Some (code c - 87)
  else None.

(** The digit run of [int(text, 16)]: hexadecimal digits, single
    underscores allowed between two digits only.  [acc] is the value read
    so far, [prev_us] tells whether the previous character was an
    underscore. *)
Fixpoint hex_digits (acc : Z) (prev_us : bool) (s : pystr) : option Z :=
  match s with
  | [] => if prev_us then None else Some acc
  | c :: r =>
      if Ascii.eqb c "_"%char then
        if prev_us then None else hex_digits acc true r
      else
        match hex_digit_value c with
        | Some d => hex_digits (16 * acc + d) false r
        | None => None
        end
  end.

(** [int(text, 16)]: blanks around, an optional sign, an optional [0x] or
    [0X] prefix (which may be followed by one underscore), then at least
    one digit.  Anything else raises [ValueError]. *)
Definition int16 (text : pystr) : outcome Z :=
  let body := strip_with int_blank text in
  let '(negative, unsigned) :=
    match body with
    | c :: r =>
        if Ascii.eqb c "-"%char then (true, r)
        else if Ascii.eqb c "+"%char then (false, r)
        else (false, body)
    | [] => (false, body)
    end in
  let digits :=
    match unsigned with
    | z :: x :: r =>
        if Ascii.eqb z "0"%char &&
           (Ascii.eqb x "x"%char || Ascii.eqb x "X"%char)
        then match r with
             | u :: r' => if Ascii.eqb u "_"%char then r' else r
             | [] => r
             end
        else unsigned
    | _ => unsigned
    end in
  match digits with
  | [] => Raised ValueError
  | c :: _ =>
      if Ascii.eqb c "_"%char then Raised ValueError
      else match hex_digits 0 false digits with
           | Some v => Returned (if negative then - v else v)
           | None => Raised ValueError
           end
  end.

(** [int(text)] on a text made of decimal digits only, the one shape the
    coordinator passes: the empty text raises [ValueError].  (The cap that
    recent interpreters put on the number of digits is not modelled.) *)
Definition int10_digits (text : pystr) : outcome Z :=
  match text with
  | [] => Raised ValueError
  | _ => Returned (fold_left (fun acc c => 10 * acc + (code c - 48)) text 0)
  end.

(** Whether [float(text)] raises, for a text made of decimal digits and
    dots only: it does unless the text has a digit and at most one dot. *)
Definition float_rejects (text : pystr) : bool :=
  negb (existsb isdigit text) ||
  (1 <? Z.of_nat (List.length (List.filter (Ascii.eqb "."%char) text))).

(** What [a / b] on integers raises, if anything.  The quotient is rounded
    to the nearest double; it overflows from [2^1024 - 2^970] upwards. *)
Definition truediv_raises (a b : Z) : option exn :=
  if b =? 0 then Some ZeroDivisionError
  else if (2 ^ 1024 - 2 ^ 970) * Z.abs b <=? Z.abs a then Some OverflowError
  else None.

(** Whether [n / x] raises for an integer [n] and a float [x] other than
    zero: [n] is first rounded to the nearest double, which exists below
    [2^1024 - 2^970] only. *)
Definition float_of_int_raises (n : Z) : bool :=
  2 ^ 1024 - 2 ^ 970 <=? Z.abs n.

Definition upper_char (c : ascii) : ascii :=
  if between 97 122 c then ascii_of_nat (nat_of_ascii c - 32) else c.

(** [hex(n)[2:]]: for a negative [n] the slice cuts the sign and the
    zero of the ["-0x"] prefix and keeps its ["x"]. *)
Definition hex_tail (n : Z) : pystr :=
  let digits (m : Z) :=
    str (NilZero.string_of_uint (N.to_hex_uint (Z.to_N m))) in
  if n <? 0 then "x"%char :: digits (- n) else digits n.

(** [hex(n)[2:].upper()], the text under which the ledger stores [n]. *)
Definition hex_text (n : Z) : pystr := map upper_char (hex_tail n).

(** [f"{n:X}"]: upper-case hexadecimal digits, after a minus sign for a
    negative [n]. *)
Definition format_X (n : Z) : pystr :=
  let digits (m : Z) :=
    map upper_char (str (NilZero.string_of_uint (N.to_hex_uint (Z.to_N m)))) in
  if n <? 0 then "-"%char :: digits (- n) else digits n.

(** [s.split(sep)] for a separator of one character. *)
Fixpoint split (sep : ascii) (s : pystr) : list pystr :=
  match s with
  | [] => [[]]
  | c :: r =>
      if Ascii.eqb c sep then [] :: split sep r
      else match split sep r with
           | word :: words => (c :: word) :: words
           | [] => [[c]]
           end
  end.

(** The loop of [s.split()]: [word] holds the characters of the current
    word, last first. *)
Fixpoint split_whitespace_loop (word : pystr) (s : pystr) : list pystr :=
  match s with
  | [] =>
      match word with
      | [] => []
      | _ => [rev word]
      end
  | c :: r =>
      if isspace c then
        match word with
        | [] => split_whitespace_loop [] r
        | _ => rev word :: split_whitespace_loop [] r
        end
      else split_whitespace_loop (c :: word) r
  end.

(** [s.split()]: the words between runs of whitespace. *)
Definition split_whitespace (s : pystr) : list pystr :=
  split_whitespace_loop [] s.

End Py.

Export Py (pystr, str, outcome, Returned, Raised).

(** ** BlockManager *)

Module BlockManager.

Record t := mk {
  range_start : Z;
  range_end : Z;
  block_size : Z;
  total_blocks : Z
}.

(** [BlockManager.__init__].  [//] is floor division, as [Z.div]; a zero
    block size raises. *)
Definition init (range_start range_end : Z) (block_size : option Z)
  : outcome t :=
  let size :=
    match block_size with
    | None => 0x1000000000
    | Some b => b
    end in
  if size =? 0 then Raised Py.ZeroDivisionError
  else Returned (mk range_start range_end size
                    ((range_end - range_start) / size + 1)).

(** [BlockManager.get_block]: no test on the index. *)
Definition get_block (bm : t) (block_index : Z) : Z * Z :=
  let block_start := range_start bm + block_index * block_size bm in
  let block_end := Z.min (block_start + block_size bm - 1) (range_end bm) in
  (block_start, block_end).

(** [BlockManager.get_block_from_key]. *)
Definition get_block_from_key (bm : t) (key_value : Z) : option Z :=
  if (key_value <? range_start bm) || (range_end bm <? key_value) then None
  else Some ((key_value - range_start bm) / block_size bm).

End BlockManager.

(** ** PoolScraper: the range decoder *)

Module PoolScraper.

Import Py.

Definition hex_alphabet : pystr := str "0123456789ABCDEF".

(** A loop that appends one result per element and stops at the first
    exception. *)
Fixpoint for_each {A B} (l : list A) (body : A -> outcome B)
  : outcome (list B) :=
  match l with
  | [] => Returned []
  | a :: r =>
      bind (body a) (fun b => bind (for_each r body) (fun bs => Returned (b :: bs)))
  end.

(** The two texts handed to [int(_, 16)] in [_decode_range_id]. *)
Definition range_start_text (hex_prefix : pystr) (x : ascii) (hex_suffix : pystr)
  : pystr := hex_prefix ++ [x] ++ hex_suffix ++ str "3000000000".

Definition range_end_text (hex_prefix : pystr) (x : ascii) (hex_suffix : pystr)
  : pystr := hex_prefix ++ [x] ++ hex_suffix ++ str "3FFFFFFFFF".

(** [PoolScraper._decode_range_id]; [range_id[0:2]] is [firstn 2] and
    [range_id[3:]] is [skipn 3]. *)
Definition _decode_range_id (range_id : pystr) : outcome (list (Z * Z)) :=
  let hex_prefix := firstn 2 range_id in
  let hex_suffix := skipn 3 range_id in
  for_each hex_alphabet (fun x =>
    bind (int16 (range_start_text hex_prefix x hex_suffix)) (fun block_start =>
    bind (int16 (range_end_text hex_prefix x hex_suffix)) (fun block_end =>
    Returned (block_start, block_end)))).

(** The two texts handed to [int(_, 16)] in [_decode_challenge]. *)
Definition challenge_start_text (challenge_prefix : pystr) (x1 x2 : ascii)
  : pystr := challenge_prefix ++ [x1] ++ [x2] ++ str "0003000000000".

Definition challenge_end_text (challenge_prefix : pystr) (x1 x2 : ascii)
  : pystr := challenge_prefix ++ [x1] ++ [x2] ++ str "0003FFFFFFFFF".

(** [PoolScraper._decode_challenge]: the nested loops append to one list. *)
Definition _decode_challenge (challenge_prefix : pystr)
  : outcome (list (Z * Z)) :=
  bind
    (for_each hex_alphabet (fun x1 =>
       for_each hex_alphabet (fun x2 =>
         bind (int16 (challenge_start_text challenge_prefix x1 x2))
           (fun block_start =>
         bind (int16 (challenge_end_text challenge_prefix x1 x2))
           (fun block_end =>
         Returned (block_start, block_end))))))
    (fun rows => Returned (concat rows)).

(** The character class [[0-9A-F]] of the two patterns of
    [scrape_scanned_ranges]. *)
Definition is_code_digit (c : ascii) : bool :=
  between 48 57 c || between 65 70 c.

(** A full match of [[0-9A-F]{2}X[0-9A-F]{4,5}]: a compact range code. *)
Definition is_range_id (s : pystr) : bool :=
  match s with
  | p1 :: p2 :: x :: suffix =>
      is_code_digit p1 && is_code_digit p2 && Ascii.eqb x "X"%char &&
      forallb is_code_digit suffix &&
      ((List.length suffix =? 4)%nat || (List.length suffix =? 5)%nat)
  | _ => false
  end.

(** The group captured by the challenge pattern, a check mark followed
    by [([0-9A-F]{2})XXXXX]: a challenge prefix. *)
Definition is_challenge_prefix (s : pystr) : bool :=
  match s with
  | [p1; p2] => is_code_digit p1 && is_code_digit p2
  | _ => false
  end.

(** The decoding loops of [scrape_scanned_ranges] over the codes and the
    challenge prefixes found in the page, in the order the two sets are
    iterated; any exception makes the scrape return the empty list. *)
Definition expand_codes (unique_ranges unique_challenges : list pystr)
  : list (Z * Z) :=
  match
    bind (for_each unique_ranges _decode_range_id) (fun a =>
    bind (for_each unique_challenges _decode_challenge) (fun b =>
    Returned (concat a ++ concat b)))
  with
  | Returned scanned_blocks => scanned_blocks
  | Raised _ => []
  end.

End PoolScraper.

(** ** ScanDatabase: the exclusion ledger *)

Module ScanDatabase.

Import Py.

(** The rows of [my_scanned], in the order of their rowids, which is the
    order in which a scan of the table visits them: the primary key
    [block_start] (upper-case hexadecimal text), then [block_end] and
    [keys_checked].  The primary key keeps the starts of the rows
    distinct. *)
Definition my_rows := list (pystr * (pystr * Z)).

Definition has_start (block_start_hex : pystr) (row : pystr * (pystr * Z))
  : bool := bool_decide (fst row = block_start_hex).

(** The row with a given start. *)
#[global] Instance my_rows_lookup : Lookup pystr (pystr * Z) my_rows :=
  fun block_start_hex rows => snd <$> List.find (has_start block_start_hex) rows.

(** [DELETE FROM my_scanned WHERE block_start = ?]. *)
#[global] Instance my_rows_delete : Delete pystr my_rows :=
  fun block_start_hex rows =>
    List.filter (fun row => negb (has_start block_start_hex row)) rows.

(** [INSERT OR REPLACE INTO my_scanned]: a row with the same start is
    deleted, and the new row gets the rowid after the largest one: it
    comes last. *)
#[global] Instance my_rows_insert : Insert pystr (pystr * Z) my_rows :=
  fun block_start_hex row rows =>
    List.filter (fun row => negb (has_start block_start_hex row)) rows
    ++ [(block_start_hex, row)].

#[global] Instance my_rows_empty : Empty my_rows := [].

#[global] Instance my_rows_singleton : SingletonM pystr (pystr * Z) my_rows :=
  fun block_start_hex row => [(block_start_hex, row)].

(** The two tables.  [pool_scanned] is keyed by its primary key
    [block_start] (upper-case hexadecimal text) and a row keeps
    [block_end]; no query depends on the order of its rows.  The timestamp
    columns, filled from the wall clock, are left out. *)
Record t := mk {
  pool_scanned : gmap pystr pystr;
  my_scanned : my_rows
}.

Definition empty : t := mk ∅ ∅.

Inductive source := Pool | Me.

(** [ScanDatabase.add_pool_blocks]: [INSERT OR REPLACE] per block, counting
    the starts that were new and those already present. *)
Definition add_pool_blocks (db : t) (blocks : list (Z * Z)) : t * (Z * Z) :=
  fold_left
    (fun '(db, (added_count, duplicate_count)) '(block_start, block_end) =>
       let block_start_hex := hex_text block_start in
       let block_end_hex := hex_text block_end in
       let exists_ := bool_decide (is_Some (pool_scanned db !! block_start_hex)) in
       (mk (<[block_start_hex := block_end_hex]> (pool_scanned db)) (my_scanned db),
        if exists_ then (added_count, duplicate_count + 1)
        else (added_count + 1, duplicate_count)))
    blocks (db, (0, 0)).

(** [ScanDatabase.add_my_block].  The column [keys_checked] is an SQLite
    [INTEGER]: binding a number outside the signed 64-bit range raises
    [OverflowError]. *)
Definition add_my_block (db : t) (block_start block_end keys_checked : Z)
  : outcome t :=
  if (keys_checked <? - 2 ^ 63) || (2 ^ 63 - 1 <? keys_checked)
  then Raised OverflowError
  else Returned
         (mk (pool_scanned db)
             (<[hex_text block_start := (hex_text block_end, keys_checked)]>
                (my_scanned db))).

(** [ScanDatabase.is_block_scanned]: a row with the same start and the
    same end, in the pool table first. *)
Definition is_block_scanned (db : t) (block_start block_end : Z)
  : bool * option source :=
  let block_start_hex := hex_text block_start in
  let block_end_hex := hex_text block_end in
  if bool_decide (pool_scanned db !! block_start_hex = Some block_end_hex)
  then (true, Some Pool)
  else if bool_decide (fst <$> my_scanned db !! block_start_hex = Some block_end_hex)
  then (true, Some Me)
  else (false, None).

(** [SELECT SUM(keys_checked) FROM my_scanned].  SQLite adds the counts
    in the order in which it visits the rows and fails with "integer
    overflow" once a partial sum has left the signed 64-bit range, whatever
    follows; [sqlite3] raises that as [OperationalError]. *)
Fixpoint sum_keys_checked (sum : Z) (rows : my_rows) : outcome Z :=
  match rows with
  | [] => Returned sum
  | (_, (_, keys_checked)) :: rest =>
      let sum := sum + keys_checked in
      if (sum <? - 2 ^ 63) || (2 ^ 63 - 1 <? sum) then Raised OperationalError
      else sum_keys_checked sum rest
  end.

Record stats := mk_stats {
  pool_blocks : Z;
  my_blocks : Z;
  total_blocks : Z;
  total_keys_by_me : Z
}.

(** [ScanDatabase.get_stats].  The sum over no row is [NULL], which
    [or 0] turns into 0. *)
Definition get_stats (db : t) : outcome stats :=
  let pool_count := Z.of_nat (size (pool_scanned db)) in
  let my_count := Z.of_nat (List.length (my_scanned db)) in
  bind (sum_keys_checked 0 (my_scanned db)) (fun total_keys =>
  Returned (mk_stats pool_count my_count (pool_count + my_count) total_keys)).

End ScanDatabase.

(** ** KeyHuntSmartGUI: the coordinator *)

Module KeyHuntSmartGUI.

Import Py.

(** The text entries and check boxes the coordinator reads. *)
Record widgets := mk_widgets {
  range_start : pystr;
  range_end : pystr;
  block_size : pystr;
  keyhunt_path : pystr;
  gpu_id : pystr;
  target_entry : pystr;
  exclude_iter3 : bool;
  exclude_iter4 : bool;
  exclude_alphanum : bool
}.

(** The content of the state file, as [save_current_state] writes it
    (without its timestamp and puzzle number). *)
Record saved_state := mk_saved {
  saved_block_index : Z;
  saved_keys_checked : Z;
  saved_range_start : pystr;
  saved_range_end : pystr
}.

(** Methods that are handed to the main loop or to a thread. *)
Inductive callback :=
| cb_find_next_block
| cb_on_block_completed
| cb_handle_block_collision.

(** What a handler asks of its environment. *)
Inductive effect :=
| Terminate (pid : nat)              (* [process.terminate()] *)
| Popen (cmd : list pystr) (pid : nat) (* [subprocess.Popen(cmd, ...)] *)
| SearchThread                       (* a thread running [run_block_search] *)
| IdleAdd (cb : callback)            (* [GLib.idle_add(cb)] *)
| TimeoutAdd (ms : Z) (cb : callback) (* [GLib.timeout_add(ms, cb)] *).

(** The attributes of the window object that the coordinator logic reads or
    writes, the state file, and the log of effects (oldest first).
    [retry_count] is [None] as long as the attribute does not exist. *)
Record gui := mk {
  entries : widgets;
  scan_db : ScanDatabase.t;
  state_file : option saved_state;
  block_mgr : option BlockManager.t;
  process : option nat;
  is_running : bool;
  is_paused : bool;
  keys_checked : Z;
  session_keys : Z;
  matches_found : Z;
  current_block : option (Z * Z);
  current_block_index : Z;
  retry_count : option Z;
  effects : list effect
}.

(** Attribute assignment. *)
Definition set_entries (v : widgets) (st : gui) : gui :=
  mk v (scan_db st) (state_file st) (block_mgr st) (process st)
     (is_running st) (is_paused st) (keys_checked st) (session_keys st)
     (matches_found st) (current_block st) (current_block_index st)
     (retry_count st) (effects st).

Definition set_scan_db (v : ScanDatabase.t) (st : gui) : gui :=
  mk (entries st) v (state_file st) (block_mgr st) (process st)
     (is_running st) (is_paused st) (keys_checked st) (session_keys st)
     (matches_found st) (current_block st) (current_block_index st)
     (retry_count st) (effects st).

Definition set_state_file (v : option saved_state) (st : gui) : gui :=
  mk (entries st) (scan_db st) v (block_mgr st) (process st) (is_running st)
     (is_paused st) (keys_checked st) (session_keys st) (matches_found st)
     (current_block st) (current_block_index st) (retry_count st) (effects st).

Definition set_block_mgr (v : option BlockManager.t) (st : gui) : gui :=
  mk (entries st) (scan_db st) (state_file st) v (process st) (is_running st)
     (is_paused st) (keys_checked st) (session_keys st) (matches_found st)
     (current_block st) (current_block_index st) (retry_count st) (effects st).

Definition set_process (v : option nat) (st : gui) : gui :=
  mk (entries st) (scan_db st) (state_file st) (block_mgr st) v
     (is_running st) (is_paused st) (keys_checked st) (session_keys st)
     (matches_found st) (current_block st) (current_block_index st)
     (retry_count st) (effects st).

Definition set_is_running (v : bool) (st : gui) : gui :=
  mk (entries st) (scan_db st) (state_file st) (block_mgr st) (process st) v
     (is_paused st) (keys_checked st) (session_keys st) (matches_found st)
     (current_block st) (current_block_index st) (retry_count st) (effects st).

Definition set_is_paused (v : bool) (st : gui) : gui :=
  mk (entries st) (scan_db st) (state_file st) (block_mgr st) (process st)
     (is_running st) v (keys_checked st) (session_keys st) (matches_found st)
     (current_block st) (current_block_index st) (retry_count st) (effects st).

Definition set_keys_checked (v : Z) (st : gui) : gui :=
  mk (entries st) (scan_db st) (state_file st) (block_mgr st) (process st)
     (is_running st) (is_paused st) v (session_keys st) (matches_found st)
     (current_block st) (current_block_index st) (retry_count st) (effects st).

Definition set_session_keys (v : Z) (st : gui) : gui :=
  mk (entries st) (scan_db st) (state_file st) (block_mgr st) (process st)
     (is_running st) (is_paused st) (keys_checked st) v (matches_found st)
     (current_block st) (current_block_index st) (retry_count st) (effects st).

Definition set_matches_found (v : Z) (st : gui) : gui :=
  mk (entries st) (scan_db st) (state_file st) (block_mgr st) (process st)
     (is_running st) (is_paused st) (keys_checked st) (session_keys st) v
     (current_block st) (current_block_index st) (retry_count st) (effects st).

Definition set_current_block (v : option (Z * Z)) (st : gui) : gui :=
  mk (entries st) (scan_db st) (state_file st) (block_mgr st) (process st)
     (is_running st) (is_paused st) (keys_checked st) (session_keys st)
     (matches_found st) v (current_block_index st) (retry_count st)
     (effects st).

Definition set_current_block_index (v : Z) (st : gui) : gui :=
  mk (entries st) (scan_db st) (state_file st) (block_mgr st) (process st)
     (is_running st) (is_paused st) (keys_checked st) (session_keys st)
     (matches_found st) (current_block st) v (retry_count st) (effects st).

Definition set_retry_count (v : option Z) (st : gui) : gui :=
  mk (entries st) (scan_db st) (state_file st) (block_mgr st) (process st)
     (is_running st) (is_paused st) (keys_checked st) (session_keys st)
     (matches_found st) (current_block st) (current_block_index st) v
     (effects st).

Definition set_effects (v : list effect) (st : gui) : gui :=
  mk (entries st) (scan_db st) (state_file st) (block_mgr st) (process st)
     (is_running st) (is_paused st) (keys_checked st) (session_keys st)
     (matches_found st) (current_block st) (current_block_index st)
     (retry_count st) v.

(** *** Handlers as state transformers that may raise *)

(** A handler runs on the window object: it returns the object as it left
    it, together with its result or the exception that ended it. *)
Definition action (A : Type) : Type := gui -> gui * outcome A.

Definition ret {A} (a : A) : action A := fun st => (st, Returned a).

Definition raise {A} (e : exn) : action A := fun st => (st, Raised e).

Definition abind {A B} (m : action A) (k : A -> action B) : action B :=
  fun st =>
    match m st with
    | (st', Returned a) => k a st'
    | (st', Raised e) => (st', Raised e)
    end.

Definition get : action gui := fun st => (st, Returned st).

Definition modify (f : gui -> gui) : action unit := fun st => (f st, Returned tt).

Definition lift {A} (o : outcome A) : action A := fun st => (st, o).

Declare Scope action_scope.
Delimit Scope action_scope with act.
Notation "x <- m ;; k" := (abind m (fun x => k))
  (at level 100, m at next level, right associativity) : action_scope.
Notation "m ;; k" := (abind m (fun _ => k))
  (at level 100, right associativity) : action_scope.
Local Open Scope action_scope.

Definition add_effect (e : effect) (st : gui) : gui :=
  set_effects (effects st ++ [e]) st.

Definition emit (e : effect) : action unit := modify (add_effect e).

(** [if self.process: self.process.terminate()]. *)
Definition terminate_process : action unit :=
  st <- get ;;
  match process st with
  | Some pid => emit (Terminate pid)
  | None => ret tt
  end.

(** [time.sleep(seconds)] in a method of the window.  The file has no
    top-level [import time]; its one [import time] is local to
    [on_window_close].  The global name [time] is therefore unbound and
    evaluating it raises [NameError]. *)
Definition time_sleep (seconds : Z) : action unit := raise NameError.

(** *** Pattern filter *)

(** The loop of [has_repeated_chars].  [prev_char] starts as the empty
    string, which no character equals: [None]. *)
Fixpoint repeated_chars_loop (min_repeats count : Z) (prev_char : option ascii)
  (hex_string : pystr) : bool :=
  match hex_string with
  | [] => false
  | char :: rest =>
      if bool_decide (Some char = prev_char) then
        let count := count + 1 in
        if (min_repeats <=? count) && negb (Ascii.eqb char "0") then true
        else repeated_chars_loop min_repeats count prev_char rest
      else repeated_chars_loop min_repeats 1 (Some char) rest
  end.

(** [has_repeated_chars]. *)
Definition has_repeated_chars (hex_string : pystr) (min_repeats : Z) : bool :=
  repeated_chars_loop min_repeats 1 None hex_string.

(** [is_all_alpha_or_numeric]. *)
Definition is_all_alpha_or_numeric (hex_string : pystr) : bool :=
  let has_alpha :=
    existsb (fun c => existsb (Ascii.eqb c) (str "ABCDEFabcdef")) hex_string in
  let has_numeric :=
    existsb (fun c => existsb (Ascii.eqb c) (str "0123456789")) hex_string in
  xorb has_alpha has_numeric.

(** [should_skip_block_by_pattern]. *)
Definition should_skip_block_by_pattern (w : widgets) (block_start block_end : Z)
  : bool * option pystr :=
  let start_hex := hex_text block_start in
  let end_hex := hex_text block_end in
  if exclude_iter3 w &&
     (has_repeated_chars start_hex 3 || has_repeated_chars end_hex 3)
  then (true, Some (str "repeated-3"))
  else if exclude_iter4 w &&
          (has_repeated_chars start_hex 4 || has_repeated_chars end_hex 4)
  then (true, Some (str "repeated-4"))
  else if exclude_alphanum w &&
          (is_all_alpha_or_numeric start_hex || is_all_alpha_or_numeric end_hex)
  then (true, Some (str "alphanum-only"))
  else (false, None).

(** *** State file *)

(** [save_current_state]; the write is taken to succeed. *)
Definition save_current_state (st : gui) : gui :=
  set_state_file
    (Some (mk_saved (current_block_index st) (keys_checked st)
                    (range_start (entries st)) (range_end (entries st))))
    st.

(** [load_previous_state]. *)
Definition load_previous_state (st : gui) : gui :=
  match state_file st with
  | Some state =>
      let w := entries st in
      set_entries
        (mk_widgets (saved_range_start state) (saved_range_end state)
                    (block_size w) (keyhunt_path w) (gpu_id w) (target_entry w)
                    (exclude_iter3 w) (exclude_iter4 w) (exclude_alphanum w))
        (set_keys_checked (saved_keys_checked state)
           (set_current_block_index (saved_block_index state) st))
  | None => st
  end.

(** The attributes as [__init__] leaves them, before
    [load_previous_state]. *)
Definition fresh (w : widgets) (db : ScanDatabase.t) (file : option saved_state)
  : gui :=
  mk w db file None None false false 0 0 0 None 0 None [].

(** *** Block selection *)

Definition checks_per_batch : nat := 100.

(** The [while] loop of [find_next_block].  [more] is the number of blocks
    that may still be passed over after the next one before the loop hands
    control back: [checks_done >= checks_per_batch] holds right after the
    increment exactly when [more] is 0. *)
Fixpoint find_next_block_loop (bm : BlockManager.t) (more : nat) (st : gui)
  : gui :=
  if current_block_index st <? BlockManager.total_blocks bm then
    let block := BlockManager.get_block bm (current_block_index st) in
    let pass_over :=
      let st := set_current_block_index (current_block_index st + 1) st in
      match more with
      | O => add_effect (TimeoutAdd 10 cb_find_next_block) st
      | S more' => find_next_block_loop bm more' st
      end in
    if fst (ScanDatabase.is_block_scanned (scan_db st) (fst block) (snd block))
    then pass_over
    else if fst (should_skip_block_by_pattern (entries st) (fst block) (snd block))
    then pass_over
    else
      add_effect SearchThread
        (set_keys_checked 0 (set_current_block (Some block) st))
  else
    set_is_running false (set_current_block None st).

(** [find_next_block]. *)
Definition find_next_block : action unit :=
  st <- get ;;
  match block_mgr st with
  | None => raise AttributeError
  | Some bm => modify (find_next_block_loop bm (Nat.pred checks_per_batch))
  end.

(** *** Worker command *)

(** Where [build_keyhunt_command] makes the worker start. *)
Definition actual_start (st : gui) (block_start block_end : Z) : Z :=
  if 0 <? keys_checked st then
    let resumed := block_start + keys_checked st in
    if block_end <? resumed then block_end else resumed
  else block_start.

(** [build_keyhunt_command].  Its last log line shows
    [keys_to_search / 1e12]: the division raises [OverflowError] when the
    number of keys has no nearest double, and no command is returned. *)
Definition build_keyhunt_command (st : gui) (block_start block_end : Z)
  : outcome (list pystr) :=
  let w := entries st in
  let actual_start := actual_start st block_start block_end in
  let cmd :=
    [keyhunt_path w; str "-t"; str "0"; str "-g"; str "--gpui"; gpu_id w;
     str "--gpux"; str "256,256"; str "-m"; str "address"; str "--coin";
     str "BTC"; str "--range";
     hex_tail actual_start ++ str ":" ++ hex_tail block_end;
     str "-o"; str "Found.txt"; target_entry w] in
  let keys_to_search := block_end - actual_start + 1 in
  if float_of_int_raises keys_to_search then Raised OverflowError
  else Returned cmd.

(** *** Stop and pause *)

(** [on_stop]. *)
Definition on_stop : action unit :=
  modify (set_is_running false) ;;
  modify (set_is_paused false) ;;
  terminate_process ;;
  modify (set_process None) ;;
  modify save_current_state.

(** [on_pause]. *)
Definition on_pause : action unit :=
  st <- get ;;
  if is_running st && negb (is_paused st) then
    modify (set_is_paused true) ;;
    modify (fun st => set_keys_checked (keys_checked st + session_keys st) st) ;;
    terminate_process ;;
    modify save_current_state
  else
    modify (set_is_paused false) ;;
    emit SearchThread.

(** *** Start *)

(** [on_start].  A text that [int(_, 16)] rejects, or a zero block size,
    ends the handler in its [except] clause with nothing changed; so does
    an overflow of the time estimate [block_size / estimated_speed], after
    the partitioner has been stored. *)
Definition on_start : action unit :=
  st <- get ;;
  if is_running st then ret tt
  else
    let w := entries st in
    match
      Py.bind (int16 (range_start w)) (fun range_start =>
      Py.bind (int16 (range_end w)) (fun range_end =>
      Py.bind (int16 (block_size w)) (fun block_size =>
      Py.bind (BlockManager.init range_start range_end (Some block_size))
        (fun bm => Returned (bm, block_size)))))
    with
    | Raised _ => ret tt
    | Returned (bm, block_size) =>
        modify (set_block_mgr (Some bm)) ;;
        match truediv_raises block_size 226000000 with
        | Some _ => ret tt
        | None =>
            modify (set_is_running true) ;;
            find_next_block ;;
            st <- get ;;
            match current_block st with
            | None => modify (set_is_running false)
            | Some _ => ret tt
            end
        end
    end.

(** *** Reading the worker's output *)

(** [re.search(pattern, line)] for a pattern that can only match in one
    way at a given start: the first start, from the left, where it does. *)
Fixpoint search {A} (match_at : pystr -> option A) (line : pystr) : option A :=
  match match_at line with
  | Some g => Some g
  | None =>
      match line with
      | [] => None
      | _ :: rest => search match_at rest
      end
  end.

(** [T:\s*([\d,]+)] at the start of [s]: the captured group. *)
Definition keys_at (s : pystr) : option pystr :=
  if startswith (str "T:") s then
    match takewhile (fun c => isdigit c || Ascii.eqb c ",")
                    (dropwhile isspace (skipn 2 s)) with
    | [] => None
    | g => Some g
    end
  else None.

(** [([\d.]+)\s*Mk/s] at the start of [s]: the captured group. *)
Definition speed_at (s : pystr) : option pystr :=
  match takewhile (fun c => isdigit c || Ascii.eqb c ".") s with
  | [] => None
  | g =>
      if startswith (str "Mk/s") (dropwhile isspace (skipn (List.length g) s))
      then Some g
      else None
  end.

(** What one run of the worker process shows to [run_block_search]: the
    process [Popen] returns (or the exception it raises), the lines
    [readline] yields before the end of the stream, and what
    [process.wait(timeout=5)] does after the loop. *)
Inductive wait_result :=
| Exited (returncode : Z)
| TimeoutExpired.

Record worker_run := mk_run {
  launch : outcome nat;
  output : list pystr;
  wait : wait_result
}.

(** The part of the loop body that handles a [T:] match. *)
Definition on_keys_match (group : pystr) : action unit :=
  let keys_str := List.filter (fun c => negb (Ascii.eqb c ",")) group in
  n <- lift (int10_digits keys_str) ;;
  modify (set_session_keys n) ;;
  st <- get ;;
  let total_keys := keys_checked st + session_keys st in
  match current_block st with
  | Some (block_start, block_end) =>
      let keys_in_block := block_end - block_start + 1 in
      (* progress = min(1.0, total_keys / keys_in_block) *)
      match truediv_raises total_keys keys_in_block with
      | Some e => raise e
      | None =>
          (* AUTO-STOP *)
          if keys_in_block <=? total_keys then
            modify (set_is_running false) ;;
            terminate_process
          else ret tt
      end
  | None => ret tt
  end.

(** The [for line in iter(readline, '')] loop of [run_block_search]; it
    returns [lines_read] and [keyhunt_error].  An empty raw line is the
    sentinel that ends the iteration. *)
Fixpoint read_lines (lines : list pystr) (lines_read : Z) (keyhunt_error : bool)
  : action (Z * bool) :=
  match lines with
  | [] => ret (lines_read, keyhunt_error)
  | [] :: _ => ret (lines_read, keyhunt_error)
  | raw :: rest =>
      st <- get ;;
      if negb (is_running st) || is_paused st then
        ret (lines_read, keyhunt_error)
      else
        match strip raw with
        | [] => read_lines rest lines_read keyhunt_error
        | line =>
            let lines_read := lines_read + 1 in
            if contains (str "Wrong args") line || contains (str "ERROR") line
               || contains (str "Error:") line
            then read_lines rest lines_read true
            else if contains (str "PubAddress:") line || contains (str "Priv") line
            then
              modify (fun st => set_matches_found (matches_found st + 1) st) ;;
              modify (set_is_running false) ;;
              terminate_process ;;
              read_lines rest lines_read keyhunt_error
            else
              match search speed_at line with
              | Some g => if float_rejects g then raise ValueError else ret tt
              | None => ret tt
              end ;;
              match search keys_at line with
              | Some g => on_keys_match g
              | None => ret tt
              end ;;
              read_lines rest lines_read keyhunt_error
        end
  end.

(** How a run of [run_block_search] ends. *)
Inductive ending :=
| NoBlock                  (* no current block: returns at once *)
| CompletionQueued         (* [on_block_completed] handed to the main loop *)
| RetryStarted             (* a new search thread started for the same block *)
| Stopped                  (* "Block NOT completed": the session stops *)
| Excepted (e : exn)       (* the [except Exception] clause ran *)
| Died (e : exn)           (* an exception raised before the [try] block
                              ended the thread *).

(** The [try] block of [run_block_search] up to the end of its loop: the
    launch of the worker and the reading of its output.  The thread waits
    for each line; it leaves the loop when the output ends, which it does
    when the worker has exited. *)
Definition search_reading (cmd : list pystr) (run : worker_run)
  : action (Z * bool) :=
  pid <- lift (launch run) ;;
  modify (set_process (Some pid)) ;;
  emit (Popen cmd pid) ;;
  read_lines (output run) 0 false.

(** The rest of the [try] block, from "Wait for process to actually
    exit" on.  It reads [self.process] anew: the exit code is that of the
    process this attribute holds by then, as [process.wait(timeout=5)]
    gives it in [waited], or [-1] when the attribute is [None]. *)
Definition search_epilogue (counters : Z * bool) (waited : wait_result)
  : action ending :=
  let '(lines_read, keyhunt_error) := counters in
  st <- get ;;
  let exit_code :=
    match process st, waited with
    | Some _, Exited returncode => returncode
    | Some _, TimeoutExpired => -1
    | None, _ => -1
    end in
  if negb (is_paused st) && negb keyhunt_error &&
     ((exit_code =? 0) || (exit_code =? -15)) && (10 <=? lines_read)
  then
    emit (IdleAdd cb_on_block_completed) ;;
    ret CompletionQueued
  else
    let startup_failure := (exit_code =? -1) && (lines_read =? 0) in
    let stop_session : action ending :=
      (* Real failure or max retries *)
      modify (set_retry_count (Some 0)) ;;
      modify (set_is_running false) ;;
      ret Stopped in
    if startup_failure then
      (match retry_count st with
       | None => modify (set_retry_count (Some 0))
       | Some _ => ret tt
       end) ;;
      st <- get ;;
      attempts <- (match retry_count st with
                   | Some n => ret n
                   | None => raise AttributeError
                   end) ;;
      if attempts <? 3 then
        modify (set_retry_count (Some (attempts + 1))) ;;
        time_sleep 3 ;;
        (* Retry the same block *)
        emit SearchThread ;;
        ret RetryStarted
      else stop_session
    else stop_session.

(** The [try] block of [run_block_search]. *)
Definition search_try (cmd : list pystr) (run : worker_run) : action ending :=
  counters <- search_reading cmd run ;;
  search_epilogue counters (wait run).

(** The [except Exception] clause of [run_block_search]. *)
Definition except_clause (r : gui * outcome ending) : gui * ending :=
  match r with
  | (st', Returned e) => (st', e)
  | (st', Raised e) => (set_is_running false st', Excepted e)
  end.

(** [run_block_search], run in one turn.  The command is built before the
    [try] block: an exception raised there ends the thread and leaves
    [is_running] and [process] as they are. *)
Definition run_block_search (run : worker_run) (st : gui) : gui * ending :=
  match current_block st with
  | None => (st, NoBlock)
  | Some (block_start, block_end) =>
      let st := set_session_keys 0 st in
      match build_keyhunt_command st block_start block_end with
      | Raised e => (st, Died e)
      | Returned cmd => except_clause (search_try cmd run st)
      end
  end.

(** The last turn of a search thread whose worker has ended its output
    while other handlers were running: the thread comes back with the
    counters of its loop and goes through the rest of the [try] block on
    the attributes as they are by then. *)
Definition run_block_search_epilogue (counters : Z * bool)
  (waited : wait_result) (st : gui) : gui * ending :=
  except_clause (search_epilogue counters waited st).

(** *** Completion and collision *)

(** [update_smart_status]: the labels it fills are presentation; it
    raises what [get_stats] raises. *)
Definition update_smart_status : action unit :=
  st <- get ;;
  stats <- lift (ScanDatabase.get_stats (scan_db st)) ;;
  ret tt.

(** [on_block_completed]. *)
Definition on_block_completed : action unit :=
  modify (set_retry_count (Some 0)) ;;
  st <- get ;;
  match current_block st with
  | Some (block_start, block_end) =>
      let total_keys_checked := keys_checked st + session_keys st in
      db <- lift (ScanDatabase.add_my_block (scan_db st) block_start block_end
                    total_keys_checked) ;;
      modify (set_scan_db db) ;;
      update_smart_status ;;
      (* Move to next block *)
      modify (fun st => set_current_block_index (current_block_index st + 1) st) ;;
      modify (set_keys_checked 0) ;;
      find_next_block ;;
      st <- get ;;
      match current_block st with
      | Some _ =>
          terminate_process ;;
          modify (set_process None) ;;
          time_sleep 2 ;;
          emit SearchThread
      | None => on_stop
      end
  | None => ret tt
  end.

(** [handle_block_collision]. *)
Definition handle_block_collision : action unit :=
  terminate_process ;;
  modify (set_process None) ;;
  modify (fun st => set_current_block_index (current_block_index st + 1) st) ;;
  modify (set_keys_checked 0) ;;
  find_next_block ;;
  st <- get ;;
  match current_block st with
  | Some _ => emit SearchThread
  | None => on_stop
  end.

(** [scrape_pool], given what [scrape_scanned_ranges] returned.  An
    exception raised in its [try] block ends it there: the [except] clause
    only logs. *)
Definition scrape_pool (scanned_blocks : list (Z * Z)) (st : gui) : gui :=
  match scanned_blocks with
  | [] => st
  | _ =>
      let collision_detected :=
        match current_block st with
        | Some (current_start, current_end) =>
            is_running st &&
            existsb (fun '(block_start, block_end) =>
                       (block_start =? current_start) && (block_end =? current_end))
                    scanned_blocks
        | None => false
        end in
      let st :=
        set_scan_db (fst (ScanDatabase.add_pool_blocks (scan_db st) scanned_blocks))
                    st in
      match update_smart_status st with
      | (st, Returned _) =>
          if collision_detected
          then add_effect (IdleAdd cb_handle_block_collision) st
          else st
      | (st, Raised _) => st
      end
  end.

(** *** The main loop *)

Definition run_callback (cb : callback) (st : gui) : gui :=
  fst (match cb with
       | cb_find_next_block => find_next_block
       | cb_on_block_completed => on_block_completed
       | cb_handle_block_collision => handle_block_collision
       end st).

(** The callbacks that a handler queued with [GLib.idle_add], given the
    object before and after it. *)
Definition queued (before after : gui) : list callback :=
  flat_map (fun e => match e with IdleAdd cb => [cb] | _ => [] end)
           (skipn (List.length (effects before)) (effects after)).

(** A handler followed by the idle callbacks it queued, each run once by
    the main loop. *)
Definition then_idle (handler : gui -> gui) (st : gui) : gui :=
  let st' := handler st in
  fold_left (fun s cb => run_callback cb s) (queued st st') st'.

(** A handler followed by the runs of [find_next_block] that its timer
    brings about: [find_next_block] sets a timer for itself when it hands
    control back after a batch, and the main loop runs it once more when
    the timer fires.  [rounds] bounds the number of timers served. *)
Fixpoint find_next_block_rounds (rounds : nat) (st : gui) : gui :=
  let st' := fst (find_next_block st) in
  match rounds with
  | O => st'
  | S rounds' =>
      if existsb (fun e => match e with
                           | TimeoutAdd _ cb_find_next_block => true
                           | _ => false
                           end)
                 (skipn (List.length (effects st)) (effects st'))
      then find_next_block_rounds rounds' st'
      else st'
  end.

(** *** Editing the ledger from the block list *)

(** The statement [DELETE FROM my_scanned WHERE block_start = ?] of
    [on_rescan_block] and [on_delete_block], bound to
    [f"{block_start:X}"]. *)
Definition delete_my_scanned (block_start : Z) (db : ScanDatabase.t)
  : ScanDatabase.t :=
  ScanDatabase.mk (ScanDatabase.pool_scanned db)
    (delete (format_X block_start) (ScanDatabase.my_scanned db)).

(** The end of both handlers: when the block is the current one,
    [clear_state] removes the state file and the progress is reset. *)
Definition forget_progress (block_start block_end : Z) : action unit :=
  st <- get ;;
  match current_block st with
  | Some (current_start, current_end) =>
      if (block_start =? current_start) && (block_end =? current_end) then
        modify (set_state_file None) ;;
        modify (set_keys_checked 0)
      else ret tt
  | None => ret tt
  end.

(** [on_rescan_block], on the two texts that the block list keeps in its
    hidden columns.  The window has no [manual_start_entry]: the range goes
    into the entries of the configuration. *)
Definition on_rescan_block (block_start_hex block_end_hex : pystr)
  : action unit :=
  block_start <- lift (int16 block_start_hex) ;;
  block_end <- lift (int16 block_end_hex) ;;
  modify (fun st =>
            let w := entries st in
            set_entries
              (mk_widgets (str "0x" ++ format_X block_start)
                          (str "0x" ++ format_X block_end)
                          (block_size w) (keyhunt_path w) (gpu_id w)
                          (target_entry w) (exclude_iter3 w) (exclude_iter4 w)
                          (exclude_alphanum w))
              st) ;;
  modify (fun st => set_scan_db (delete_my_scanned block_start (scan_db st)) st) ;;
  forget_progress block_start block_end.

(** [on_delete_block], given the answer to its confirmation dialog. *)
Definition on_delete_block (confirmed : bool)
  (block_start_hex block_end_hex : pystr) : action unit :=
  block_start <- lift (int16 block_start_hex) ;;
  block_end <- lift (int16 block_end_hex) ;;
  if confirmed then
    modify (fun st => set_scan_db (delete_my_scanned block_start (scan_db st)) st) ;;
    forget_progress block_start block_end
  else ret tt.

(** *** Ranges entered by hand *)

(** One turn of the loop of [parse_manual_ranges]: the pair the line
    adds to the result, if any. *)
Definition parse_manual_line (line : pystr) : option (Z * Z) :=
  let line := strip line in
  match line with
  | [] => None
  | _ =>
      if startswith (str "#") line then None
      else
        let parts :=
          if contains (str ":") line then Some (split ":" line)
          else if contains (str "-") line then Some (split "-" line)
          else if contains (str " ") line then Some (split_whitespace line)
          else None in
        match parts with
        | Some [first; second] =>
            match int16 (strip first) with
            | Returned start =>
                match int16 (strip second) with
                | Returned end_ =>
                    if end_ <? start then None else Some (start, end_)
                | Raised _ => None
                end
            | Raised _ => None
            end
        | _ => None
        end
  end.

(** [parse_manual_ranges]. *)
Definition parse_manual_ranges (text : pystr) : list (Z * Z) :=
  flat_map (fun line => match parse_manual_line line with
                        | Some range => [range]
                        | None => []
                        end)
           (split "010" (strip text)).

(** [on_add_manual_pool_ranges], given the text of the input view. *)
Definition on_add_manual_pool_ranges (text : pystr) : action unit :=
  match strip text with
  | [] => ret tt
  | _ =>
      match parse_manual_ranges text with
      | [] => ret tt
      | ranges =>
          modify (fun st =>
                    set_scan_db
                      (fst (ScanDatabase.add_pool_blocks (scan_db st) ranges)) st) ;;
          update_smart_status
      end
  end.

(** The loop of [on_add_manual_my_ranges]. *)
Fixpoint add_my_ranges (ranges : list (Z * Z)) : action unit :=
  match ranges with
  | [] => ret tt
  | (start, end_) :: rest =>
      st <- get ;;
      db <- lift (ScanDatabase.add_my_block (scan_db st) start end_ 0) ;;
      modify (set_scan_db db) ;;
      add_my_ranges rest
  end.

(** [on_add_manual_my_ranges], given the text of the input view. *)
Definition on_add_manual_my_ranges (text : pystr) : action unit :=
  match strip text with
  | [] => ret tt
  | _ =>
      match parse_manual_ranges text with
      | [] => ret tt
      | ranges =>
          add_my_ranges ranges ;;
          update_smart_status
      end
  end.

End KeyHuntSmartGUI.

(** ** Specification-side notions *)

(** Ceiling of [n / d], for a positive [d]. *)
Definition ceil_div (n d : Z) : Z := - ((- n) / d).

(** The number a text of hexadecimal digits denotes. *)
Definition hex_value (s : pystr) : Z :=
  fold_left (fun acc c => 16 * acc + default 0 (Py.hex_digit_value c)) s 0.

(** Whether [int(_, 16)] takes the character as a digit. *)
Definition is_hex (c : ascii) : bool :=
  match Py.hex_digit_value c with
  | Some _ => true
  | None => false
  end.

(** The blocks a compact range code stands for: one per inserted digit. *)
Definition range_blocks (hex_prefix hex_suffix : pystr) : list (Z * Z) :=
  map (fun x => (hex_value (PoolScraper.range_start_text hex_prefix x hex_suffix),
                 hex_value (PoolScraper.range_end_text hex_prefix x hex_suffix)))
      PoolScraper.hex_alphabet.

(** The blocks a challenge marker stands for: one per inserted pair. *)
Definition challenge_blocks (challenge_prefix : pystr) : list (Z * Z) :=
  concat
    (map (fun x1 =>
            map (fun x2 =>
                   (hex_value (PoolScraper.challenge_start_text challenge_prefix x1 x2),
                    hex_value (PoolScraper.challenge_end_text challenge_prefix x1 x2)))
                PoolScraper.hex_alphabet)
         PoolScraper.hex_alphabet).

(** Value of one hexadecimal digit, 0 for any other character. *)
Definition digit (c : ascii) : Z := default 0 (Py.hex_digit_value c).

(** [s] contains a run of [n] (hence of [n] or more) identical consecutive
    characters other than ["0"]. *)
Definition contains_run (n : nat) (s : pystr) : Prop :=
  exists c pre post, c <> "0"%char /\ s = pre ++ repeat c n ++ post.

(** [s] begins with [n] copies of [c]. *)
Definition starts_run (c : ascii) (n : nat) (s : pystr) : Prop :=
  exists post, s = repeat c n ++ post.

(** A handler that relates every state to the state it leaves. *)
Definition keeps (R : KeyHuntSmartGUI.gui -> KeyHuntSmartGUI.gui -> Prop)
  {A} (m : KeyHuntSmartGUI.action A) : Prop :=
  forall st, R st (fst (m st)).

Definition is_terminate (e : KeyHuntSmartGUI.effect) : bool :=
  match e with
  | KeyHuntSmartGUI.Terminate _ => true
  | _ => false
  end.

(** What reading the worker's output leaves alone: everything but
    [is_running], [session_keys] and [matches_found]; the only effects added
    are requests to terminate the worker. *)
Definition read_frame (st st' : KeyHuntSmartGUI.gui) : Prop :=
  KeyHuntSmartGUI.entries st' = KeyHuntSmartGUI.entries st /\
  KeyHuntSmartGUI.scan_db st' = KeyHuntSmartGUI.scan_db st /\
  KeyHuntSmartGUI.state_file st' = KeyHuntSmartGUI.state_file st /\
  KeyHuntSmartGUI.block_mgr st' = KeyHuntSmartGUI.block_mgr st /\
  KeyHuntSmartGUI.process st' = KeyHuntSmartGUI.process st /\
  KeyHuntSmartGUI.is_paused st' = KeyHuntSmartGUI.is_paused st /\
  KeyHuntSmartGUI.keys_checked st' = KeyHuntSmartGUI.keys_checked st /\
  KeyHuntSmartGUI.current_block st' = KeyHuntSmartGUI.current_block st /\
  KeyHuntSmartGUI.current_block_index st' =
    KeyHuntSmartGUI.current_block_index st /\
  KeyHuntSmartGUI.retry_count st' = KeyHuntSmartGUI.retry_count st /\
  exists l,
    KeyHuntSmartGUI.effects st' = KeyHuntSmartGUI.effects st ++ l /\
    forallb is_terminate l = true.

(** The exit code [run_block_search] computes after its loop, when the
    process handle is still set. *)
Definition exit_code_of (w : KeyHuntSmartGUI.wait_result) : Z :=
  match w with
  | KeyHuntSmartGUI.Exited returncode => returncode
  | KeyHuntSmartGUI.TimeoutExpired => -1
  end.

(** The test that guards [GLib.idle_add(self.on_block_completed)]. *)
Definition completion_gate (is_paused : bool) (w : KeyHuntSmartGUI.wait_result)
  (lines_read : Z) (keyhunt_error : bool) : bool :=
  negb is_paused && negb keyhunt_error &&
  ((exit_code_of w =? 0) || (exit_code_of w =? -15)) && (10 <=? lines_read).

(** The test [startup_failure] of [run_block_search]. *)
Definition startup_failure (w : KeyHuntSmartGUI.wait_result) (lines_read : Z)
  : bool :=
  (exit_code_of w =? -1) && (lines_read =? 0).

(** The ways through the [try] block of [run_block_search]: the state it
    leaves and its result. *)
Inductive search_case (cmd : list pystr) (run : KeyHuntSmartGUI.worker_run)
  (st : KeyHuntSmartGUI.gui)
  : KeyHuntSmartGUI.gui -> outcome KeyHuntSmartGUI.ending -> Prop :=
| launch_failed e :
    KeyHuntSmartGUI.launch run = Raised e ->
    search_case cmd run st st (Raised e)
| reading_failed pid st2 e :
    KeyHuntSmartGUI.launch run = Returned pid ->
    KeyHuntSmartGUI.read_lines (KeyHuntSmartGUI.output run) 0 false
      (KeyHuntSmartGUI.add_effect (KeyHuntSmartGUI.Popen cmd pid)
         (KeyHuntSmartGUI.set_process (Some pid) st)) = (st2, Raised e) ->
    search_case cmd run st st2 (Raised e)
| completion_queued pid st2 lines_read keyhunt_error :
    KeyHuntSmartGUI.launch run = Returned pid ->
    KeyHuntSmartGUI.read_lines (KeyHuntSmartGUI.output run) 0 false
      (KeyHuntSmartGUI.add_effect (KeyHuntSmartGUI.Popen cmd pid)
         (KeyHuntSmartGUI.set_process (Some pid) st))
      = (st2, Returned (lines_read, keyhunt_error)) ->
    completion_gate (KeyHuntSmartGUI.is_paused st2) (KeyHuntSmartGUI.wait run)
      lines_read keyhunt_error = true ->
    search_case cmd run st
      (KeyHuntSmartGUI.add_effect
         (KeyHuntSmartGUI.IdleAdd KeyHuntSmartGUI.cb_on_block_completed) st2)
      (Returned KeyHuntSmartGUI.CompletionQueued)
| retry_raised pid st2 lines_read keyhunt_error st3 n :
    KeyHuntSmartGUI.launch run = Returned pid ->
    KeyHuntSmartGUI.read_lines (KeyHuntSmartGUI.output run) 0 false
      (KeyHuntSmartGUI.add_effect (KeyHuntSmartGUI.Popen cmd pid)
         (KeyHuntSmartGUI.set_process (Some pid) st))
      = (st2, Returned (lines_read, keyhunt_error)) ->
    completion_gate (KeyHuntSmartGUI.is_paused st2) (KeyHuntSmartGUI.wait run)
      lines_read keyhunt_error = false ->
    startup_failure (KeyHuntSmartGUI.wait run) lines_read = true ->
    st3 = st2 \/ st3 = KeyHuntSmartGUI.set_retry_count (Some 0) st2 ->
    KeyHuntSmartGUI.retry_count st3 = Some n ->
    n < 3 ->
    search_case cmd run st
      (KeyHuntSmartGUI.set_retry_count (Some (n + 1)) st3)
      (Raised Py.NameError)
| retries_used_up pid st2 lines_read keyhunt_error n :
    KeyHuntSmartGUI.launch run = Returned pid ->
    KeyHuntSmartGUI.read_lines (KeyHuntSmartGUI.output run) 0 false
      (KeyHuntSmartGUI.add_effect (KeyHuntSmartGUI.Popen cmd pid)
         (KeyHuntSmartGUI.set_process (Some pid) st))
      = (st2, Returned (lines_read, keyhunt_error)) ->
    completion_gate (KeyHuntSmartGUI.is_paused st2) (KeyHuntSmartGUI.wait run)
      lines_read keyhunt_error = false ->
    startup_failure (KeyHuntSmartGUI.wait run) lines_read = true ->
    KeyHuntSmartGUI.retry_count st2 = Some n ->
    3 <= n ->
    search_case cmd run st
      (KeyHuntSmartGUI.set_is_running false
         (KeyHuntSmartGUI.set_retry_count (Some 0) st2))
      (Returned KeyHuntSmartGUI.Stopped)
| not_completed pid st2 lines_read keyhunt_error :
    KeyHuntSmartGUI.launch run = Returned pid ->
    KeyHuntSmartGUI.read_lines (KeyHuntSmartGUI.output run) 0 false
      (KeyHuntSmartGUI.add_effect (KeyHuntSmartGUI.Popen cmd pid)
         (KeyHuntSmartGUI.set_process (Some pid) st))
      = (st2, Returned (lines_read, keyhunt_error)) ->
    completion_gate (KeyHuntSmartGUI.is_paused st2) (KeyHuntSmartGUI.wait run)
      lines_read keyhunt_error = false ->
    startup_failure (KeyHuntSmartGUI.wait run) lines_read = false ->
    search_case cmd run st
      (KeyHuntSmartGUI.set_is_running false
         (KeyHuntSmartGUI.set_retry_count (Some 0) st2))
      (Returned KeyHuntSmartGUI.Stopped).

(** The callbacks queued with [GLib.idle_add] among some effects. *)
Definition idle_callbacks (l : list KeyHuntSmartGUI.effect)
  : list KeyHuntSmartGUI.callback :=
  flat_map (fun e => match e with
                     | KeyHuntSmartGUI.IdleAdd cb => [cb]
                     | _ => []
                     end) l.

(** A handler leaves the ledger as it found it. *)
Definition same_ledger (st st' : KeyHuntSmartGUI.gui) : Prop :=
  KeyHuntSmartGUI.scan_db st' = KeyHuntSmartGUI.scan_db st.

(** The two tests under which [find_next_block] passes over a block. *)
Definition passes_over (st : KeyHuntSmartGUI.gui) (block : Z * Z) : bool :=
  fst (ScanDatabase.is_block_scanned (KeyHuntSmartGUI.scan_db st)
         (fst block) (snd block)) ||
  fst (KeyHuntSmartGUI.should_skip_block_by_pattern (KeyHuntSmartGUI.entries st)
         (fst block) (snd block)).

(** The three ways out of the loop of [find_next_block]: a block is
    selected, the loop hands control back after a batch, or the index has
    run past the last block. *)
Inductive selection_case (bm : BlockManager.t) (st : KeyHuntSmartGUI.gui)
  : KeyHuntSmartGUI.gui -> Prop :=
| block_selected i :
    KeyHuntSmartGUI.current_block_index st <= i ->
    i < BlockManager.total_blocks bm ->
    (forall j, KeyHuntSmartGUI.current_block_index st <= j < i ->
               passes_over st (BlockManager.get_block bm j) = true) ->
    passes_over st (BlockManager.get_block bm i) = false ->
    selection_case bm st
      (KeyHuntSmartGUI.add_effect KeyHuntSmartGUI.SearchThread
         (KeyHuntSmartGUI.set_keys_checked 0
            (KeyHuntSmartGUI.set_current_block (Some (BlockManager.get_block bm i))
               (KeyHuntSmartGUI.set_current_block_index i st))))
| selection_yielded i :
    KeyHuntSmartGUI.current_block_index st < i ->
    i <= BlockManager.total_blocks bm ->
    (forall j, KeyHuntSmartGUI.current_block_index st <= j < i ->
               passes_over st (BlockManager.get_block bm j) = true) ->
    selection_case bm st
      (KeyHuntSmartGUI.add_effect
         (KeyHuntSmartGUI.TimeoutAdd 10 KeyHuntSmartGUI.cb_find_next_block)
         (KeyHuntSmartGUI.set_current_block_index i st))
| blocks_exhausted i :
    KeyHuntSmartGUI.current_block_index st <= i ->
    BlockManager.total_blocks bm <= i ->
    (forall j, KeyHuntSmartGUI.current_block_index st <= j < i ->
               passes_over st (BlockManager.get_block bm j) = true) ->
    selection_case bm st
      (KeyHuntSmartGUI.set_is_running false
         (KeyHuntSmartGUI.set_current_block None
            (KeyHuntSmartGUI.set_current_block_index i st))).

(** The cumulative counts the worker reports in a run: the numbers after
    the [T:] markers of its output lines. *)
Definition reported_counts (run : KeyHuntSmartGUI.worker_run) : list Z :=
  flat_map
    (fun raw =>
       match KeyHuntSmartGUI.search KeyHuntSmartGUI.keys_at (Py.strip raw) with
       | Some g =>
           match Py.int10_digits
                   (List.filter (fun c => negb (Ascii.eqb c ",")) g) with
           | Returned n => [n]
           | Raised _ => []
           end
       | None => []
       end)
    (KeyHuntSmartGUI.output run).

(** ** Sample inputs *)

(** The entries for the master range [0x400..0x4FF] cut into blocks of
    [0x40] keys, no pattern exclusion ticked. *)
Definition sample_entries : KeyHuntSmartGUI.widgets :=
  KeyHuntSmartGUI.mk_widgets (str "400") (str "4FF") (str "40")
    (str "./KeyHunt") (str "0") (str "1PWo3JeB9jrGwfHDNpdGK54CRas7fsVzXU")
    false false false.

Definition sample_partition : BlockManager.t :=
  BlockManager.mk 0x400 0x4FF 0x40 4.

(** The coordinator searching block 0 of that partition, with process 7 as
    its worker and an empty ledger. *)
Definition searching_block_0 : KeyHuntSmartGUI.gui :=
  KeyHuntSmartGUI.mk sample_entries ScanDatabase.empty None
    (Some sample_partition) (Some 7%nat) true false 0 0 0
    (Some (0x400, 0x43F)) 0 None [].

(** A worker that prints ten progress lines, each reporting 32 keys
    checked, and then exits with code 0. *)
Definition run_reporting_32_keys : KeyHuntSmartGUI.worker_run :=
  KeyHuntSmartGUI.mk_run (Returned 8%nat)
    (repeat (str "[00:00:01] [GPU: 226.00 Mk/s] [T: 32]") 10)
    (KeyHuntSmartGUI.Exited 0).

(** A worker that prints ten progress lines, the last reporting all 64
    keys of the block, and is then terminated ([-15]). *)
Definition run_reporting_64_keys : KeyHuntSmartGUI.worker_run :=
  KeyHuntSmartGUI.mk_run (Returned 8%nat)
    (repeat (str "[00:00:01] [GPU: 226.00 Mk/s] [T: 32]") 9 ++
     [str "[00:00:02] [GPU: 226.00 Mk/s] [T: 64]"])
    (KeyHuntSmartGUI.Exited (-15)).

(** A worker that prints nothing and exits at once with code 1. *)
Definition silent_exit_1 : KeyHuntSmartGUI.worker_run :=
  KeyHuntSmartGUI.mk_run (Returned 9%nat) [] (KeyHuntSmartGUI.Exited 1).

(** A worker whose output ends at once and which has not exited when the
    five seconds of [wait] are over: exit code [-1] and no line read, a
    startup failure to the coordinator. *)
Definition silent_no_exit : KeyHuntSmartGUI.worker_run :=
  KeyHuntSmartGUI.mk_run (Returned 9%nat) [] KeyHuntSmartGUI.TimeoutExpired.

(** A state file written in the middle of block 2, with 16 keys of it
    already checked. *)
Definition saved_mid_block_2 : KeyHuntSmartGUI.saved_state :=
  KeyHuntSmartGUI.mk_saved 2 16 (str "400") (str "4FF").

(** The coordinator as a new session finds it after
    [load_previous_state]. *)
Definition restarted_session : KeyHuntSmartGUI.gui :=
  KeyHuntSmartGUI.load_previous_state
    (KeyHuntSmartGUI.fresh sample_entries ScanDatabase.empty
       (Some saved_mid_block_2)).

(** The coordinator searching block 2 ([0x480..0x4BF]) of the sample
    partition. *)
Definition searching_block_2 : KeyHuntSmartGUI.gui :=
  KeyHuntSmartGUI.set_current_block_index 2
    (KeyHuntSmartGUI.set_current_block (Some (0x480, 0x4BF)) searching_block_0).

(** The preset of puzzle 71 with the default block size, and the pattern
    exclusion "repeated-3" ticked while the search is under way. *)
Definition puzzle_71_entries : KeyHuntSmartGUI.widgets :=
  KeyHuntSmartGUI.mk_widgets
    (str "400000000000000000") (str "7FFFFFFFFFFFFFFFFF") (str "1000000000")
    (str "./KeyHunt") (str "0") (str "1PWo3JeB9jrGwfHDNpdGK54CRas7fsVzXU")
    true false false.

Definition puzzle_71_partition : BlockManager.t :=
  BlockManager.mk 0x400000000000000000 0x7FFFFFFFFFFFFFFFFF 0x1000000000
    (2 ^ 34).

(** The coordinator searching block 3 of that partition,
    [0x400000003000000000..0x400000003FFFFFFFFF], with process 7 as its
    worker and an empty ledger. *)
Definition searching_block_3_of_puzzle_71 : KeyHuntSmartGUI.gui :=
  KeyHuntSmartGUI.mk puzzle_71_entries ScanDatabase.empty None
    (Some puzzle_71_partition) (Some 7%nat) true false 0 0 0
    (Some (0x400000003000000000, 0x400000003FFFFFFFFF)) 3 None [].

(** A master range of four times [2^36] keys cut into blocks of three
    times [2^36] keys: two blocks, the second clipped at the end of the
    range. *)
Definition partition_in_larger_blocks : BlockManager.t :=
  BlockManager.mk 0x400000000000000000 0x400000003FFFFFFFFF 0x3000000000 2.

(** The last part of C10 as it is worded: a block of a partition (start at
    or below end, block size 1 or more) that coincides with a block decoded
    from a compact range code belongs to a partition in blocks of [2^36]
    keys. *)
Definition coincides_only_in_default_partitions : Prop :=
  forall (range_id : pystr) (blocks : list (Z * Z)) (s e size : Z)
         (bm : BlockManager.t) (i : Z),
    PoolScraper.is_range_id range_id = true ->
    PoolScraper._decode_range_id range_id = Returned blocks ->
    s <= e -> 1 <= size ->
    BlockManager.init s e (Some size) = Returned bm ->
    0 <= i < BlockManager.total_blocks bm ->
    In (BlockManager.get_block bm i) blocks ->
    BlockManager.block_size bm = 0x1000000000.

(** A worker that prints ten progress lines and has not exited when the
    five seconds of [wait] are over: it goes on searching, nobody reads
    it. *)
Definition unattended_worker : KeyHuntSmartGUI.worker_run :=
  KeyHuntSmartGUI.mk_run (Returned 8%nat)
    (repeat (str "[00:00:01] [GPU: 226.00 Mk/s] [T: 32]") 10)
    KeyHuntSmartGUI.TimeoutExpired.

(** The workers launched according to an effect log: the argument after
    [--range] of each command, with the process it got. *)
Definition launched (l : list KeyHuntSmartGUI.effect) : list (pystr * nat) :=
  flat_map (fun e => match e with
                     | KeyHuntSmartGUI.Popen cmd pid => [(nth 13 cmd [], pid)]
                     | _ => []
                     end) l.

(** The text of a number given by its hexadecimal digits, in upper
    case. *)
Definition uint_text (d : Hexadecimal.uint) : pystr :=
  map Py.upper_char (str (NilEmpty.string_of_uint d)).

(** The rows of the pool table after a list of blocks was written over
    them, one [INSERT OR REPLACE] per block. *)
Definition rows_written (blocks : list (Z * Z)) (rows : gmap pystr pystr)
  : gmap pystr pystr :=
  fold_left (fun m b => <[Py.hex_text (fst b) := Py.hex_text (snd b)]> m)
            blocks rows.

(** A ledger whose only record is the local search of block 2 of the
    sample partition, and one that also holds a pool claim on block 3. *)
Definition ledger_with_block_2 : ScanDatabase.t :=
  ScanDatabase.mk ∅ {[ str "480" := (str "4BF", 64) ]}.

Definition ledger_with_blocks_2_and_3 : ScanDatabase.t :=
  ScanDatabase.mk {[ str "4C0" := str "4FF" ]} {[ str "480" := (str "4BF", 64) ]}.

(** The sum of the key counts of the rows of [my_scanned]. *)
Definition keys_on_record (rows : ScanDatabase.my_rows) : Z :=
  fold_right (fun row total => snd (snd row) + total) 0 rows.

(** A ledger with two local records of [2^62] keys each, on two blocks of
    [2^62] keys. *)
Definition ledger_with_two_large_counts : ScanDatabase.t :=
  ScanDatabase.mk ∅
    [(str "0", (str "3FFFFFFFFFFFFFFF", 2 ^ 62));
     (str "4000000000000000", (str "7FFFFFFFFFFFFFFF", 2 ^ 62))].

(** * Properties *)

Example int16_samples :
  Py.int16 (str "400") = Returned 1024 /\
  Py.int16 (str " 0X_4_0 ") = Returned 64 /\
  Py.int16 (str "-0x1") = Returned (-1) /\
  Py.int16 (str "+0x10") = Returned 16 /\
  Py.int16 (str "0x") = Raised Py.ValueError /\
  Py.int16 (str "4__0") = Raised Py.ValueError /\
  Py.int16 (str "4_") = Raised Py.ValueError /\
  Py.int16 (str "_4") = Raised Py.ValueError /\
  Py.int16 (str "0x__1") = Raised Py.ValueError /\
  Py.int16 (str "- 4") = Raised Py.ValueError /\
  Py.int16 (str "00x4") = Raised Py.ValueError /\
  Py.int16 (str "") = Raised Py.ValueError.
Proof. repeat split; reflexivity. Qed.

Example hex_text_samples :
  Py.hex_text 255 = str "FF" /\ Py.hex_text 0 = str "0" /\
  Py.hex_text (-255) = str "XFF" /\ Py.hex_text 0x4BF = str "4BF".
Proof. repeat split; reflexivity. Qed.

Lemma ceil_div_spec n d : 0 < d -> (ceil_div n d - 1) * d < n <= ceil_div n d * d.
Proof.
  intros Hd. unfold ceil_div.
  pose proof (Z.div_mod (- n) d ltac:(lia)) as E.
  pose proof (Z.mod_pos_bound (- n) d Hd) as B.
  nia.
Qed.

Lemma ceil_unique n d c : 0 < d -> (c - 1) * d < n <= c * d -> c = ceil_div n d.
Proof.
  intros Hd Hc. pose proof (ceil_div_spec n d Hd) as Hs. nia.
Qed.

Section Partition.

Variables master_start master_end size : Z.
Hypothesis range_ok : master_start <= master_end.
Hypothesis size_ok : 1 <= size.

Let bm := BlockManager.mk master_start master_end size
            ((master_end - master_start) / size + 1).
Let blk := BlockManager.get_block bm.
Let n := BlockManager.total_blocks bm.

Lemma init_returns :
  BlockManager.init master_start master_end (Some size) = Returned bm.
Proof.
  unfold BlockManager.init. destruct (Z.eqb_spec size 0); [lia | reflexivity].
Qed.

Lemma count_bounds :
  (n - 1) * size <= master_end - master_start < n * size.
Proof.
  subst n bm. cbn.
  pose proof (Z.div_mod (master_end - master_start) size ltac:(lia)) as E.
  pose proof (Z.mod_pos_bound (master_end - master_start) size ltac:(lia)) as B.
  nia.
Qed.

Lemma block_start_eq i : fst (blk i) = master_start + i * size.
Proof. reflexivity. Qed.

Lemma block_end_inner i :
  0 <= i < n - 1 -> snd (blk i) = master_start + i * size + size - 1.
Proof.
  intros Hi. pose proof count_bounds as B. subst blk. cbn.
  apply Z.min_l.
  assert ((i + 1) * size <= (n - 1) * size)
    by (apply Z.mul_le_mono_nonneg_r; lia).
  lia.
Qed.

Lemma block_end_last : snd (blk (n - 1)) = master_end.
Proof.
  pose proof count_bounds as B. unfold blk, n, bm in *. cbn in *.
  apply Z.min_r. lia.
Qed.

Lemma block_end_cases i :
  0 <= i < n ->
  snd (blk i) = master_end /\ i = n - 1 \/
  snd (blk i) = master_start + i * size + size - 1 /\ i < n - 1.
Proof.
  intros Hi. destruct (Z.eq_dec i (n - 1)) as [-> | Hne].
  - left. split; [apply block_end_last | reflexivity].
  - right. split; [apply block_end_inner; lia | lia].
Qed.

End Partition.

(** C3.  For a master range with [master_start <= master_end] and a block
    size of at least 1, the partitioner is built without error, its block
    count is the ceiling of [(master_end - master_start + 1) / block_size],
    and the blocks [get_block 0 .. get_block (total_blocks - 1)] start at the
    range start, end at the range end, are non-empty, follow each other
    without gap (each starts one past the end of its predecessor), are
    disjoint and in increasing order, cover exactly the keys of the master
    range, and hold at most [block_size] keys, exactly [block_size] for all
    but the last. *)
Theorem partition_reconstructs_master_range
  (master_start master_end size : Z) :
  master_start <= master_end ->
  1 <= size ->
  exists bm,
    BlockManager.init master_start master_end (Some size) = Returned bm /\
    let n := BlockManager.total_blocks bm in
    let blk := BlockManager.get_block bm in
    n = ceil_div (master_end - master_start + 1) size /\
    (n - 1) * size < master_end - master_start + 1 <= n * size /\
    fst (blk 0) = master_start /\
    snd (blk (n - 1)) = master_end /\
    (forall i, 0 <= i < n ->
       fst (blk i) <= snd (blk i) /\ snd (blk i) - fst (blk i) + 1 <= size) /\
    (forall i, 0 <= i < n - 1 ->
       snd (blk i) - fst (blk i) + 1 = size /\
       fst (blk (i + 1)) = snd (blk i) + 1) /\
    (forall i j, 0 <= i < j -> j < n -> snd (blk i) < fst (blk j)) /\
    (forall k, master_start <= k <= master_end <->
               exists i, 0 <= i < n /\ fst (blk i) <= k <= snd (blk i)).
Proof.
  intros Hr Hs.
  eexists. split; [apply init_returns; assumption |].
  set (bm := BlockManager.mk _ _ _ _).
  pose proof (count_bounds master_start master_end size Hs) as B.
  pose proof (block_end_cases master_start master_end size Hs) as C.
  pose proof (block_end_inner master_start master_end size Hs) as I.
  pose proof (block_end_last master_start master_end size Hs) as L.
  fold bm in B, C, I, L. cbv zeta.
  set (n := BlockManager.total_blocks bm) in *.
  assert (Hn : 1 <= n).
  { subst n bm. cbn. pose proof (Z.div_pos (master_end - master_start) size).
    lia. }
  assert (S : forall i, fst (BlockManager.get_block bm i)
                        = master_start + i * size) by reflexivity.
  clearbody n. clearbody bm.
  split; [apply ceil_unique; lia |].
  split; [lia |].
  split; [rewrite S; lia |].
  split; [exact L |].
  split.
  { intros i Hi. rewrite S. destruct (C i Hi) as [[-> ->] | [-> Hlt]].
    - lia.
    - assert ((i + 1) * size <= (n - 1) * size)
        by (apply Z.mul_le_mono_nonneg_r; lia).
      lia. }
  split.
  { intros i Hi. rewrite !S, (I i Hi). lia. }
  split.
  { intros i j Hij Hj. rewrite S.
    assert (Hi : 0 <= i < n - 1) by lia. rewrite (I i Hi).
    assert ((i + 1) * size <= j * size)
      by (apply Z.mul_le_mono_nonneg_r; lia).
    lia. }
  intros k. split.
  - intros Hk. exists ((k - master_start) / size).
    pose proof (Z.div_mod (k - master_start) size ltac:(lia)) as E.
    pose proof (Z.mod_pos_bound (k - master_start) size ltac:(lia)) as M.
    set (q := (k - master_start) / size) in *.
    assert (Hq0 : 0 <= q) by (apply Z.div_pos; lia).
    assert (Hq : q < n).
    { destruct (Z.lt_ge_cases q n) as [|Hge]; [assumption |].
      assert (n * size <= q * size)
        by (apply Z.mul_le_mono_nonneg_r; lia).
      lia. }
    split; [lia |]. rewrite S.
    destruct (C q (conj Hq0 Hq)) as [[-> _] | [-> _]]; lia.
  - intros (i & Hi & Hk). rewrite S in Hk.
    assert (0 <= i * size) by (apply Z.mul_nonneg_nonneg; lia).
    destruct (C i Hi) as [[E _] | [E Hlt]]; rewrite E in Hk; [lia |].
    assert ((i + 1) * size <= (n - 1) * size)
      by (apply Z.mul_le_mono_nonneg_r; lia).
    lia.
Qed.

Lemma partition_reconstructs_master_range_witness :
  exists bm,
    BlockManager.init 0x400 0x4FF (Some 0x40) = Returned bm /\
    let n := BlockManager.total_blocks bm in
    let blk := BlockManager.get_block bm in
    n = ceil_div (0x4FF - 0x400 + 1) 0x40 /\
    (n - 1) * 0x40 < 0x4FF - 0x400 + 1 <= n * 0x40 /\
    fst (blk 0) = 0x400 /\
    snd (blk (n - 1)) = 0x4FF /\
    (forall i, 0 <= i < n ->
       fst (blk i) <= snd (blk i) /\ snd (blk i) - fst (blk i) + 1 <= 0x40) /\
    (forall i, 0 <= i < n - 1 ->
       snd (blk i) - fst (blk i) + 1 = 0x40 /\
       fst (blk (i + 1)) = snd (blk i) + 1) /\
    (forall i j, 0 <= i < j -> j < n -> snd (blk i) < fst (blk j)) /\
    (forall k, 0x400 <= k <= 0x4FF <->
               exists i, 0 <= i < n /\ fst (blk i) <= k <= snd (blk i)).
Proof.
  apply (partition_reconstructs_master_range 0x400 0x4FF 0x40); lia.
Defined.

Example partition_of_0x400_0x4FF :
  exists bm,
    BlockManager.init 0x400 0x4FF (Some 0x40) = Returned bm /\
    BlockManager.total_blocks bm = 4 /\
    map (BlockManager.get_block bm) [0; 1; 2; 3] =
      [(0x400, 0x43F); (0x440, 0x47F); (0x480, 0x4BF); (0x4C0, 0x4FF)].
Proof. eexists. repeat split. Qed.


(** ** Reading texts of hexadecimal digits *)

Section HexTexts.

Import Py.

Lemma hex_char_plain c :
  is_hex c = true ->
  int_blank c = false /\ Ascii.eqb c "-" = false /\ Ascii.eqb c "+" = false /\
  Ascii.eqb c "_" = false /\ Ascii.eqb c "x" = false /\ Ascii.eqb c "X" = false.
Proof.
  destruct c as [[] [] [] [] [] [] [] []]; intros H;
    solve [discriminate H | repeat split; reflexivity].
Qed.

Lemma code_digit_is_hex c : PoolScraper.is_code_digit c = true -> is_hex c = true.
Proof.
  destruct c as [[] [] [] [] [] [] [] []]; intros H;
    solve [discriminate H | reflexivity].
Qed.

Lemma dropwhile_head p c r : p c = false -> dropwhile p (c :: r) = c :: r.
Proof. intros H. cbn. now rewrite H. Qed.

Lemma strip_hex s : forallb is_hex s = true -> strip_with int_blank s = s.
Proof.
  intros H. unfold strip_with.
  assert (D : forall t, forallb is_hex t = true -> dropwhile int_blank t = t).
  { intros [|c r] Ht; [reflexivity |]. cbn in Ht.
    apply andb_true_iff in Ht as [Hc _].
    apply dropwhile_head, (hex_char_plain c Hc). }
  rewrite (D s H), D, rev_involutive; [reflexivity |].
  rewrite forallb_forall in *. intros c Hc. apply H, in_rev, Hc.
Qed.

Lemma hex_digits_fold s : forall acc,
  forallb is_hex s = true ->
  hex_digits acc false s =
    Some (fold_left (fun a c => 16 * a + default 0 (hex_digit_value c)) s acc).
Proof.
  induction s as [|c r IH]; intros acc H; [reflexivity |].
  cbn in H. apply andb_true_iff in H as [Hc Hr].
  cbn [hex_digits fold_left].
  destruct (hex_char_plain c Hc) as (_ & _ & _ & -> & _).
  unfold is_hex in Hc. destruct (hex_digit_value c) as [d|]; [| discriminate].
  cbn. apply IH, Hr.
Qed.

(** On a non-empty text of hexadecimal digits [int(_, 16)] returns, and
    returns the number the digits denote. *)
Lemma int16_hex s :
  s <> [] -> forallb is_hex s = true -> int16 s = Returned (hex_value s).
Proof.
  intros Hne H. unfold int16. rewrite (strip_hex s H).
  destruct s as [|c r]; [contradiction |].
  pose proof H as H'. cbn in H'. apply andb_true_iff in H' as [Hc Hr].
  destruct (hex_char_plain c Hc) as (_ & -> & -> & Hus & _).
  match goal with
  | |- context [hex_digits 0 false ?d] => assert (E : d = c :: r)
  end.
  { destruct r as [|x r0]; [reflexivity |].
    cbn in Hr. apply andb_true_iff in Hr as [Hx _].
    destruct (hex_char_plain x Hx) as (_ & _ & _ & _ & -> & ->).
    now rewrite andb_false_r. }
  rewrite E, Hus.
  now rewrite (hex_digits_fold (c :: r) 0 H).
Qed.

Lemma fold_hex_shift s : forall acc,
  fold_left (fun a c => 16 * a + default 0 (hex_digit_value c)) s acc =
  acc * 16 ^ Z.of_nat (List.length s) + hex_value s.
Proof.
  unfold hex_value.
  induction s as [|c r IH]; intros acc.
  - cbn. lia.
  - cbn [fold_left List.length]. rewrite IH, (IH (16 * 0 + _)).
    rewrite Nat2Z.inj_succ, Z.pow_succ_r by lia. ring.
Qed.

Lemma hex_value_app a b :
  hex_value (a ++ b) = hex_value a * 16 ^ Z.of_nat (List.length b) + hex_value b.
Proof.
  unfold hex_value at 1. rewrite fold_left_app.
  apply fold_hex_shift.
Qed.

End HexTexts.

(** ** The range decoder *)

Section Decoder.

Import Py PoolScraper.

Lemma for_each_map {A B} (l : list A) (body : A -> outcome B) (g : A -> B) :
  (forall a, In a l -> body a = Returned (g a)) ->
  for_each l body = Returned (map g l).
Proof.
  induction l as [|a r IH]; intros H; [reflexivity |].
  cbn. rewrite (H a (or_introl eq_refl)). cbn.
  rewrite IH by (intros b Hb; apply H; right; exact Hb).
  reflexivity.
Qed.

Lemma alphabet_is_hex x : In x hex_alphabet -> is_hex x = true.
Proof.
  revert x. apply forallb_forall. reflexivity.
Qed.

Lemma code_digits_are_hex s :
  forallb is_code_digit s = true -> forallb is_hex s = true.
Proof.
  rewrite !forallb_forall. intros H c Hc. apply code_digit_is_hex, H, Hc.
Qed.

Lemma range_id_shape range_id :
  is_range_id range_id = true ->
  exists p1 p2 suffix,
    range_id = p1 :: p2 :: "X"%char :: suffix /\
    forallb is_hex [p1; p2] = true /\
    forallb is_hex suffix = true /\
    (List.length suffix = 4%nat \/ List.length suffix = 5%nat).
Proof.
  destruct range_id as [|p1 [|p2 [|x suffix]]]; try discriminate.
  cbn [is_range_id]. rewrite !andb_true_iff, orb_true_iff.
  intros ((((H1 & H2) & Hx) & Hs) & Hl).
  apply Ascii.eqb_eq in Hx. subst x.
  exists p1, p2, suffix. split; [reflexivity |].
  split; [cbn; now rewrite !code_digit_is_hex |].
  split; [now apply code_digits_are_hex |].
  destruct Hl as [Hl | Hl]; apply Nat.eqb_eq in Hl; auto.
Qed.

Lemma decode_range_id_returns range_id :
  is_range_id range_id = true ->
  _decode_range_id range_id =
    Returned (range_blocks (firstn 2 range_id) (skipn 3 range_id)).
Proof.
  intros H. destruct (range_id_shape _ H) as (p1 & p2 & suffix & -> & Hp & Hs & _).
  unfold _decode_range_id, range_blocks.
  change (skipn 3 (p1 :: p2 :: "X"%char :: suffix)) with suffix.
  change (firstn 2 (p1 :: p2 :: "X"%char :: suffix)) with [p1; p2].
  apply for_each_map. intros x Hx. apply alphabet_is_hex in Hx.
  unfold range_start_text, range_end_text.
  rewrite !int16_hex; first [reflexivity | discriminate | idtac].
  all: rewrite !forallb_app, Hp, Hs; cbn; now rewrite Hx.
Qed.

Lemma decode_challenge_returns challenge_prefix :
  is_challenge_prefix challenge_prefix = true ->
  _decode_challenge challenge_prefix =
    Returned (challenge_blocks challenge_prefix).
Proof.
  intros H.
  destruct challenge_prefix as [|p1 [|p2 [|]]]; try discriminate.
  cbn [is_challenge_prefix] in H. apply andb_true_iff in H as [H1 H2].
  apply code_digit_is_hex in H1, H2.
  unfold _decode_challenge, challenge_blocks.
  erewrite for_each_map; [reflexivity |].
  intros x1 Hx1. apply alphabet_is_hex in Hx1.
  apply for_each_map. intros x2 Hx2. apply alphabet_is_hex in Hx2.
  unfold challenge_start_text, challenge_end_text.
  rewrite !int16_hex; first [reflexivity | discriminate | idtac].
  all: cbn; now rewrite H1, H2, Hx1, Hx2.
Qed.

End Decoder.

Section DecodedValues.

Import Py PoolScraper.

Lemma range_texts_split p x s :
  range_start_text p x s = (p ++ [x] ++ s) ++ str "3000000000" /\
  range_end_text p x s = (p ++ [x] ++ s) ++ str "3FFFFFFFFF".
Proof.
  unfold range_start_text, range_end_text. now rewrite <- !app_assoc.
Qed.

Lemma challenge_texts_split p x1 x2 :
  challenge_start_text p x1 x2 = (p ++ [x1; x2] ++ str "000") ++ str "3000000000" /\
  challenge_end_text p x1 x2 = (p ++ [x1; x2] ++ str "000") ++ str "3FFFFFFFFF".
Proof.
  unfold challenge_start_text, challenge_end_text. now rewrite <- !app_assoc.
Qed.

Lemma range_values p x s :
  hex_value (range_start_text p x s) =
    hex_value (p ++ [x] ++ s) * 16 ^ 10 + 0x3000000000 /\
  hex_value (range_end_text p x s) =
    hex_value (p ++ [x] ++ s) * 16 ^ 10 + 0x3FFFFFFFFF.
Proof.
  destruct (range_texts_split p x s) as [-> ->].
  rewrite !hex_value_app. split; reflexivity.
Qed.

Lemma challenge_values p x1 x2 :
  hex_value (challenge_start_text p x1 x2) =
    hex_value (p ++ [x1; x2] ++ str "000") * 16 ^ 10 + 0x3000000000 /\
  hex_value (challenge_end_text p x1 x2) =
    hex_value (p ++ [x1; x2] ++ str "000") * 16 ^ 10 + 0x3FFFFFFFFF.
Proof.
  destruct (challenge_texts_split p x1 x2) as [-> ->].
  rewrite !hex_value_app. split; reflexivity.
Qed.

Lemma inserted_digit_value p x s :
  hex_value (p ++ [x] ++ s) =
    (hex_value p * 16 + digit x) * 16 ^ Z.of_nat (List.length s) + hex_value s.
Proof.
  rewrite !hex_value_app.
  change (hex_value [x]) with (16 * 0 + digit x).
  rewrite length_app, Nat2Z.inj_add.
  rewrite Z.pow_add_r by lia.
  change (16 ^ Z.of_nat (List.length [x])) with 16. ring.
Qed.

Lemma inserted_pair_value p x1 x2 :
  hex_value (p ++ [x1; x2] ++ str "000") =
    ((hex_value p * 16 + digit x1) * 16 + digit x2) * 16 ^ 3.
Proof.
  rewrite !hex_value_app.
  change (hex_value [x1; x2]) with (16 * (16 * 0 + digit x1) + digit x2).
  change (hex_value (str "000")) with 0.
  change (Z.of_nat (List.length ([x1; x2] ++ str "000"))) with 5.
  change (Z.of_nat (List.length (str "000"))) with 3.
  ring.
Qed.

Lemma alphabet_digit_range x : In x hex_alphabet -> 0 <= digit x <= 15.
Proof.
  cbn. intros H.
  repeat (destruct H as [<- | H]; [vm_compute; split; discriminate |]).
  contradiction.
Qed.

Lemma alphabet_digit_inj x y :
  In x hex_alphabet -> In y hex_alphabet -> digit x = digit y -> x = y.
Proof.
  cbn. intros Hx Hy.
  repeat (destruct Hx as [<- | Hx]; [
    repeat (destruct Hy as [<- | Hy];
            [first [reflexivity | intros E; discriminate E] |]);
    contradiction |]).
  contradiction.
Qed.

End DecodedValues.

Section DecodedCounts.

Import Py PoolScraper.

Lemma range_blocks_length p s : List.length (range_blocks p s) = 16%nat.
Proof. reflexivity. Qed.

Lemma challenge_blocks_length p : List.length (challenge_blocks p) = 256%nat.
Proof. reflexivity. Qed.

Lemma range_blocks_distinct p s : List.NoDup (map fst (range_blocks p s)).
Proof.
  unfold range_blocks. rewrite map_map. cbn [fst].
  apply NoDup_map_NoDup_ForallPairs.
  - intros x y Hx Hy E.
    destruct (range_values p x s) as [Ex _].
    destruct (range_values p y s) as [Ey _].
    rewrite Ex, Ey, !inserted_digit_value in E.
    apply (alphabet_digit_inj x y Hx Hy).
    assert (K : 0 < 16 ^ Z.of_nat (List.length s)) by (apply Z.pow_pos_nonneg; lia).
    nia.
  - apply NoDup_ListNoDup, (bool_decide_unpack _). vm_compute. exact I.
Qed.

Lemma challenge_starts p :
  map fst (challenge_blocks p) =
  map (fun xy => hex_value (challenge_start_text p (fst xy) (snd xy)))
      (list_prod hex_alphabet hex_alphabet).
Proof. reflexivity. Qed.

Lemma challenge_blocks_distinct p : List.NoDup (map fst (challenge_blocks p)).
Proof.
  rewrite challenge_starts.
  apply NoDup_map_NoDup_ForallPairs.
  - intros [x1 x2] [y1 y2] Hx Hy E. cbn [fst snd] in E.
    apply in_prod_iff in Hx as [Hx1 Hx2]. apply in_prod_iff in Hy as [Hy1 Hy2].
    destruct (challenge_values p x1 x2) as [Ex _].
    destruct (challenge_values p y1 y2) as [Ey _].
    rewrite Ex, Ey, !inserted_pair_value in E.
    pose proof (alphabet_digit_range x1 Hx1).
    pose proof (alphabet_digit_range x2 Hx2).
    pose proof (alphabet_digit_range y1 Hy1).
    pose proof (alphabet_digit_range y2 Hy2).
    change (16 ^ 3) with 4096 in E. change (16 ^ 10) with 1099511627776 in E.
    assert (digit x1 = digit y1 /\ digit x2 = digit y2) as [E1 E2] by lia.
    f_equal; now apply alphabet_digit_inj.
  - apply NoDup_ListNoDup, (bool_decide_unpack _). vm_compute. exact I.
Qed.

End DecodedCounts.

(** C5.  Decoding a compact range code (two digits of [0-9A-F], [X], four
    or five digits of [0-9A-F]) returns exactly 16 blocks, the blocks
    obtained by inserting each of the digits [0..F] in turn between prefix and
    suffix, with pairwise distinct starts; decoding a challenge prefix (two
    digits of [0-9A-F]) returns exactly 256 blocks, one per pair of inserted
    digits, again with pairwise distinct starts. *)
Theorem decoding_yields_16_and_256_blocks (range_id challenge_prefix : pystr) :
  PoolScraper.is_range_id range_id = true ->
  PoolScraper.is_challenge_prefix challenge_prefix = true ->
  (exists blocks,
     PoolScraper._decode_range_id range_id = Returned blocks /\
     List.length blocks = 16%nat /\
     blocks = range_blocks (firstn 2 range_id) (skipn 3 range_id) /\
     List.NoDup (map fst blocks)) /\
  (exists blocks,
     PoolScraper._decode_challenge challenge_prefix = Returned blocks /\
     List.length blocks = 256%nat /\
     blocks = challenge_blocks challenge_prefix /\
     List.NoDup (map fst blocks)).
Proof.
  intros Hr Hc. split; eexists.
  - split; [apply decode_range_id_returns, Hr |].
    split; [apply range_blocks_length |].
    split; [reflexivity | apply range_blocks_distinct].
  - split; [apply decode_challenge_returns, Hc |].
    split; [apply challenge_blocks_length |].
    split; [reflexivity | apply challenge_blocks_distinct].
Qed.

Lemma decoding_yields_16_and_256_blocks_witness :
  (exists blocks,
     PoolScraper._decode_range_id (str "41XA26C0") = Returned blocks /\
     List.length blocks = 16%nat /\
     blocks = range_blocks (firstn 2 (str "41XA26C0")) (skipn 3 (str "41XA26C0")) /\
     List.NoDup (map fst blocks)) /\
  (exists blocks,
     PoolScraper._decode_challenge (str "7F") = Returned blocks /\
     List.length blocks = 256%nat /\
     blocks = challenge_blocks (str "7F") /\
     List.NoDup (map fst blocks)).
Proof.
  apply (decoding_yields_16_and_256_blocks (str "41XA26C0") (str "7F"));
    reflexivity.
Defined.

Section DecodedGeometry.

Import Py PoolScraper.

Lemma range_blocks_geometry p s :
  Forall (fun b => fst b <= snd b /\ snd b - fst b + 1 = 0x1000000000)
         (range_blocks p s).
Proof.
  apply List.Forall_forall. intros b Hb. apply in_map_iff in Hb as (x & <- & _).
  cbn [fst snd]. destruct (range_values p x s) as [-> ->]. lia.
Qed.

Lemma challenge_blocks_geometry p :
  Forall (fun b => fst b <= snd b /\ snd b - fst b + 1 = 0x1000000000)
         (challenge_blocks p).
Proof.
  apply List.Forall_forall. intros b Hb.
  apply in_concat in Hb as (row & Hrow & Hb).
  apply in_map_iff in Hrow as (x1 & <- & _).
  apply in_map_iff in Hb as (x2 & <- & _).
  cbn [fst snd]. destruct (challenge_values p x1 x2) as [-> ->]. lia.
Qed.

Lemma coinciding_block_size s e size i :
  s <= e -> 1 <= size ->
  let bm := BlockManager.mk s e size ((e - s) / size + 1) in
  0 <= i < BlockManager.total_blocks bm ->
  snd (BlockManager.get_block bm i) - fst (BlockManager.get_block bm i) + 1
    = 0x1000000000 ->
  0x1000000000 <= size /\
  (i < BlockManager.total_blocks bm - 1 -> size = 0x1000000000).
Proof.
  intros Hr Hs bm Hi Hlen.
  pose proof (count_bounds s e size Hs) as B.
  pose proof (block_end_cases s e size Hs i Hi) as C.
  fold bm in B, C.
  assert (S : fst (BlockManager.get_block bm i) = s + i * size) by reflexivity.
  rewrite S in Hlen.
  destruct C as [[E1 E2] | [E1 E2]]; rewrite E1 in Hlen.
  - split; [| lia]. rewrite E2 in *. lia.
  - split; [lia | intros _; lia].
Qed.

End DecodedGeometry.

(** C10.  Every block decoded from a compact range code or from a
    challenge prefix has [start <= end] and holds exactly [0x1000000000]
    ([2^36]) keys, which is the block size the partitioner takes when none is
    given.  A block of a partition that coincides with such a block therefore
    holds [2^36] keys: the partition's block size is at least [2^36], and is
    exactly [2^36] unless the coinciding block is the partition's last
    one. *)
Theorem decoded_blocks_have_default_block_size
  (range_id challenge_prefix : pystr) :
  PoolScraper.is_range_id range_id = true ->
  PoolScraper.is_challenge_prefix challenge_prefix = true ->
  (exists blocks,
     PoolScraper._decode_range_id range_id = Returned blocks /\
     Forall (fun b => fst b <= snd b /\ snd b - fst b + 1 = 0x1000000000)
            blocks) /\
  (exists blocks,
     PoolScraper._decode_challenge challenge_prefix = Returned blocks /\
     Forall (fun b => fst b <= snd b /\ snd b - fst b + 1 = 0x1000000000)
            blocks) /\
  0x1000000000 = 2 ^ 36 /\
  (forall s e,
     exists bm, BlockManager.init s e None = Returned bm /\
                BlockManager.block_size bm = 0x1000000000) /\
  (forall s e size bm i,
     s <= e -> 1 <= size ->
     BlockManager.init s e (Some size) = Returned bm ->
     0 <= i < BlockManager.total_blocks bm ->
     snd (BlockManager.get_block bm i) - fst (BlockManager.get_block bm i) + 1
       = 0x1000000000 ->
     0x1000000000 <= size /\
     (i < BlockManager.total_blocks bm - 1 -> size = 0x1000000000)).
Proof.
  intros Hr Hc.
  split; [eexists; split;
          [apply decode_range_id_returns, Hr | apply range_blocks_geometry] |].
  split; [eexists; split;
          [apply decode_challenge_returns, Hc | apply challenge_blocks_geometry] |].
  split; [reflexivity |].
  split; [intros s e; eexists; split; reflexivity |].
  intros s e size bm i Hse Hs Hinit Hi Hlen.
  rewrite init_returns in Hinit by assumption.
  injection Hinit as <-.
  now apply coinciding_block_size.
Qed.

Lemma decoded_blocks_have_default_block_size_witness :
  (exists blocks,
     PoolScraper._decode_range_id (str "50XA1EC") = Returned blocks /\
     Forall (fun b => fst b <= snd b /\ snd b - fst b + 1 = 0x1000000000)
            blocks) /\
  (exists blocks,
     PoolScraper._decode_challenge (str "7F") = Returned blocks /\
     Forall (fun b => fst b <= snd b /\ snd b - fst b + 1 = 0x1000000000)
            blocks).
Proof.
  pose proof (decoded_blocks_have_default_block_size (str "50XA1EC") (str "7F")
                eq_refl eq_refl) as (H1 & H2 & _).
  split; assumption.
Defined.

(** The partition of [0x400000000000000000..0x400000003FFFFFFFFF] in
    blocks of [0x3000000000] keys has two blocks; the second is clipped at
    the end of the range, holds [2^36] keys and is the first block decoded
    from "40X00000".  A decoded claim thus coincides with a block of a
    partition whose block size is not [2^36]. *)
Lemma decoded_block_in_a_partition_of_larger_blocks :
  BlockManager.init 0x400000000000000000 0x400000003FFFFFFFFF (Some 0x3000000000)
    = Returned partition_in_larger_blocks /\
  BlockManager.total_blocks partition_in_larger_blocks = 2 /\
  BlockManager.block_size partition_in_larger_blocks = 0x3000000000 /\
  BlockManager.get_block partition_in_larger_blocks 1
    = (0x400000003000000000, 0x400000003FFFFFFFFF) /\
  PoolScraper.is_range_id (str "40X00000") = true /\
  Py.bind (PoolScraper._decode_range_id (str "40X00000"))
    (fun blocks => Returned (nth 0 blocks (0, 0)))
    = Returned (BlockManager.get_block partition_in_larger_blocks 1) /\
  ~ coincides_only_in_default_partitions.
Proof.
  do 6 (split; [reflexivity |]).
  intros H.
  destruct (PoolScraper._decode_range_id (str "40X00000")) as [blocks |] eqn:E;
    [| discriminate E].
  assert (Hin : In (BlockManager.get_block partition_in_larger_blocks 1) blocks).
  { vm_compute in E. injection E as <-. left. reflexivity. }
  specialize (H (str "40X00000") blocks
                0x400000000000000000 0x400000003FFFFFFFFF 0x3000000000
                partition_in_larger_blocks 1
                eq_refl E ltac:(lia) ltac:(lia) eq_refl
                ltac:(cbn; lia) Hin).
  discriminate H.
Qed.


(** ** The repeated-run predicate *)

Section RepeatedRun.

Import KeyHuntSmartGUI.

Lemma starts_run_cons c d n r :
  starts_run c (S n) (d :: r) <-> d = c /\ starts_run c n r.
Proof.
  unfold starts_run. cbn. split.
  - intros (post & E). injection E as -> ->. eauto.
  - intros (-> & post & ->). eauto.
Qed.

Lemma starts_run_le c m n r : (m <= n)%nat -> starts_run c n r -> starts_run c m r.
Proof.
  intros Hle (post & ->). exists (repeat c (n - m) ++ post).
  rewrite app_assoc, <- repeat_app. do 2 f_equal. lia.
Qed.

Lemma contains_run_nil n : ~ contains_run (S n) [].
Proof.
  intros (c & pre & post & _ & E). destruct pre; discriminate E.
Qed.

Lemma contains_run_cons n d r :
  contains_run (S n) (d :: r) <->
  (d <> "0"%char /\ starts_run d n r) \/ contains_run (S n) r.
Proof.
  split.
  - intros (c & pre & post & Hc & E). destruct pre as [|a pre].
    + cbn in E. injection E as -> ->. left. split; [assumption |]. now exists post.
    + cbn in E. injection E as -> ->. right. now exists c, pre, post.
  - intros [(Hd & post & ->) | (c & pre & post & Hc & ->)].
    + now exists d, [], post.
    + now exists c, (d :: pre), post.
Qed.

Lemma repeated_chars_loop_spec (N : Z) (rest : pystr) :
  2 <= N ->
  forall c k,
    1 <= k -> k < N \/ c = "0"%char ->
    repeated_chars_loop N k (Some c) rest = true <->
    (c <> "0"%char /\ starts_run c (Z.to_nat (N - k)) rest) \/
    contains_run (Z.to_nat N) rest.
Proof.
  intros HN.
  assert (EN : Z.to_nat N = S (Z.to_nat (N - 1))) by lia.
  induction rest as [|d r IH]; intros c k Hk Hc.
  - cbn. split; [discriminate |]. intros [(Hne & post & E) | H].
    + assert (Z.to_nat (N - k) = S (Z.to_nat (N - k - 1))) as Ek
        by (destruct Hc; [lia | contradiction]).
      rewrite Ek in E. discriminate E.
    + rewrite EN in H. now apply contains_run_nil in H.
  - cbn [repeated_chars_loop]. rewrite EN, contains_run_cons, <- EN.
    case_bool_decide as Hd.
    + injection Hd as ->.
      destruct (N <=? k + 1) eqn:Hcount; cbn [andb].
      * destruct (Ascii.eqb_spec c "0") as [-> | Hne]; cbn [negb].
        -- rewrite IH by (auto; lia).
           split; intros [[? _] | H]; try contradiction; auto.
           destruct H as [[? _] | H]; [contradiction | auto].
        -- apply Z.leb_le in Hcount.
           assert (k + 1 = N) by (destruct Hc; [lia | contradiction]).
           split; [intros _ | reflexivity].
           left. split; [assumption |].
           replace (Z.to_nat (N - k)) with 1%nat by lia. now exists r.
      * apply Z.leb_gt in Hcount.
        rewrite IH by (auto; lia).
        replace (Z.to_nat (N - k)) with (S (Z.to_nat (N - (k + 1)))) by lia.
        rewrite starts_run_cons.
        split.
        -- intros [[Hne H] | H]; auto.
        -- intros [[Hne [_ H]] | [[Hne H] | H]]; auto.
           left. split; [assumption |].
           apply (starts_run_le _ _ (Z.to_nat (N - 1))); [lia | assumption].
    + rewrite IH by (auto; lia).
      split; [intros H; right; exact H |].
      intros [[Hne H] | H]; [| exact H].
      assert (Z.to_nat (N - k) = S (Z.to_nat (N - k - 1))) as Ek
        by (destruct Hc; [lia | contradiction]).
      rewrite Ek in H. apply starts_run_cons in H as [-> _].
      now contradiction Hd.
Qed.

Lemma has_repeated_chars_spec (s : pystr) (N : Z) :
  2 <= N ->
  has_repeated_chars s N = true <-> contains_run (Z.to_nat N) s.
Proof.
  intros HN. unfold has_repeated_chars.
  assert (EN : Z.to_nat N = S (Z.to_nat (N - 1))) by lia.
  destruct s as [|d r].
  - cbn. split; [discriminate |]. rewrite EN. intros H.
    now apply contains_run_nil in H.
  - cbn [repeated_chars_loop]. case_bool_decide as Hd; [discriminate Hd |].
    rewrite repeated_chars_loop_spec by (auto; lia).
    now rewrite EN at 2; rewrite contains_run_cons, <- EN.
Qed.

End RepeatedRun.

Lemma zero_runs_never_flagged (n : nat) (N : Z) :
  2 <= N -> KeyHuntSmartGUI.has_repeated_chars (repeat "0"%char n) N = false.
Proof.
  intros HN. apply not_true_is_false. intros H.
  apply has_repeated_chars_spec in H as (c & pre & post & Hc & E); [| assumption].
  apply Hc, (repeat_spec n "0"%char c). rewrite E.
  apply in_or_app. right. apply in_or_app. left.
  replace (Z.to_nat N) with (S (Z.to_nat (N - 1))) by lia. now left.
Qed.

(** C9, as the code has it.  For a threshold [N] of at least 2 (the
    coordinator passes 3 and 4), [has_repeated_chars] returns true exactly
    when the string contains a run of [N] or more identical consecutive
    characters other than ["0"]; a string of zeros is never flagged; with
    threshold 3 it flags "7111111" and flags neither "7000000" nor
    "7101010". *)
Theorem repeated_run_flags_nonzero_runs (s : pystr) (N : Z) :
  2 <= N ->
  (KeyHuntSmartGUI.has_repeated_chars s N = true <->
   contains_run (Z.to_nat N) s) /\
  (forall n, KeyHuntSmartGUI.has_repeated_chars (repeat "0"%char n) N = false) /\
  KeyHuntSmartGUI.has_repeated_chars (str "7111111") 3 = true /\
  KeyHuntSmartGUI.has_repeated_chars (str "7000000") 3 = false /\
  KeyHuntSmartGUI.has_repeated_chars (str "7101010") 3 = false.
Proof.
  intros HN.
  split; [now apply has_repeated_chars_spec |].
  split; [intros n; now apply zero_runs_never_flagged |].
  repeat split.
Qed.

Lemma repeated_run_flags_nonzero_runs_witness :
  (KeyHuntSmartGUI.has_repeated_chars (str "4A7222B") 3 = true <->
   contains_run (Z.to_nat 3) (str "4A7222B")) /\
  (forall n, KeyHuntSmartGUI.has_repeated_chars (repeat "0"%char n) 3 = false) /\
  KeyHuntSmartGUI.has_repeated_chars (str "7111111") 3 = true /\
  KeyHuntSmartGUI.has_repeated_chars (str "7000000") 3 = false /\
  KeyHuntSmartGUI.has_repeated_chars (str "7101010") 3 = false.
Proof.
  apply (repeated_run_flags_nonzero_runs (str "4A7222B") 3). lia.
Defined.

(** With threshold 1 the predicate misses a run of one character: "7"
    contains a run of 1 or more identical characters other than ["0"], and is
    not flagged. *)
Lemma repeated_run_threshold_1_misses :
  contains_run 1 (str "7") /\
  KeyHuntSmartGUI.has_repeated_chars (str "7") 1 = false.
Proof.
  split; [| reflexivity].
  exists "7"%char, [], []. split; [discriminate | reflexivity].
Qed.

(** ** Indices beyond the partition *)

(** [get_block] at the first index past the partition of [0x400..0x4FF]
    into blocks of [0x40] keys returns a pair of integers. *)
Lemma get_block_past_the_end_returns_a_pair :
  exists bm,
    BlockManager.init 0x400 0x4FF (Some 0x40) = Returned bm /\
    BlockManager.total_blocks bm <= 4 /\
    BlockManager.get_block bm 4 = (0x500, 0x4FF).
Proof. eexists. repeat split. discriminate. Qed.

Lemma find_next_block_eq st bm :
  KeyHuntSmartGUI.block_mgr st = Some bm ->
  KeyHuntSmartGUI.find_next_block st =
    (KeyHuntSmartGUI.find_next_block_loop bm
       (Nat.pred KeyHuntSmartGUI.checks_per_batch) st,
     Returned tt).
Proof.
  intros H. unfold KeyHuntSmartGUI.find_next_block, KeyHuntSmartGUI.abind,
    KeyHuntSmartGUI.get.
  cbv beta iota. rewrite H. reflexivity.
Qed.

Lemma find_next_block_exhausted bm more st :
  BlockManager.total_blocks bm <= KeyHuntSmartGUI.current_block_index st ->
  KeyHuntSmartGUI.find_next_block_loop bm more st =
    KeyHuntSmartGUI.set_is_running false
      (KeyHuntSmartGUI.set_current_block None st).
Proof.
  intros H. destruct more; cbn [KeyHuntSmartGUI.find_next_block_loop];
    destruct (Z.ltb_spec (KeyHuntSmartGUI.current_block_index st)
                         (BlockManager.total_blocks bm)); (lia || reflexivity).
Qed.

(** C7, as the code has it.  For a partition built from
    [master_start <= master_end] and a block size of at least 1, [get_block]
    at an index [i >= total_blocks] raises nothing: it returns the pair
    [(master_start + i * block_size, master_end)], whose start lies beyond
    its end.  That all blocks are used up is found by the caller:
    [find_next_block] compares the index with [total_blocks] before it
    calls [get_block], and at an index [>= total_blocks] it clears
    [current_block] and [is_running] and returns normally. *)
Theorem get_block_beyond_partition_is_unchecked
  (master_start master_end size i : Z) :
  master_start <= master_end ->
  1 <= size ->
  exists bm,
    BlockManager.init master_start master_end (Some size) = Returned bm /\
    (BlockManager.total_blocks bm <= i ->
     BlockManager.get_block bm i = (master_start + i * size, master_end) /\
     master_end < master_start + i * size /\
     forall st,
       KeyHuntSmartGUI.block_mgr st = Some bm ->
       KeyHuntSmartGUI.current_block_index st = i ->
       KeyHuntSmartGUI.find_next_block st =
         (KeyHuntSmartGUI.set_is_running false
            (KeyHuntSmartGUI.set_current_block None st),
          Returned tt)).
Proof.
  intros Hr Hs. eexists. split; [apply init_returns; assumption |].
  set (bm := BlockManager.mk _ _ _ _). intros Hi.
  pose proof (count_bounds master_start master_end size Hs) as B.
  fold bm in B.
  assert (L : master_end < master_start + i * size).
  { assert (BlockManager.total_blocks bm * size <= i * size)
      by (apply Z.mul_le_mono_nonneg_r; lia).
    lia. }
  split; [| split; [exact L |]].
  - unfold BlockManager.get_block. cbn [BlockManager.range_start
      BlockManager.range_end BlockManager.block_size bm].
    f_equal. apply Z.min_r. lia.
  - intros st Hbm Hidx.
    rewrite (find_next_block_eq st bm Hbm).
    rewrite find_next_block_exhausted by lia. reflexivity.
Qed.

Lemma get_block_beyond_partition_is_unchecked_witness :
  exists bm,
    BlockManager.init 0x400 0x4FF (Some 0x40) = Returned bm /\
    (BlockManager.total_blocks bm <= 7 ->
     BlockManager.get_block bm 7 = (0x400 + 7 * 0x40, 0x4FF) /\
     0x4FF < 0x400 + 7 * 0x40 /\
     forall st,
       KeyHuntSmartGUI.block_mgr st = Some bm ->
       KeyHuntSmartGUI.current_block_index st = 7 ->
       KeyHuntSmartGUI.find_next_block st =
         (KeyHuntSmartGUI.set_is_running false
            (KeyHuntSmartGUI.set_current_block None st),
          Returned tt)).
Proof.
  apply (get_block_beyond_partition_is_unchecked 0x400 0x4FF 0x40 7); lia.
Defined.

(** ** Length of the decoded boundaries *)

Lemma boundary_text_length range_id x :
  PoolScraper.is_range_id range_id = true ->
  let hex_prefix := firstn 2 range_id in
  let hex_suffix := skipn 3 range_id in
  List.length (PoolScraper.range_start_text hex_prefix x hex_suffix) =
    (13 + List.length hex_suffix)%nat /\
  List.length (PoolScraper.range_end_text hex_prefix x hex_suffix) =
    (13 + List.length hex_suffix)%nat /\
  (List.length hex_suffix = 4%nat \/ List.length hex_suffix = 5%nat).
Proof.
  intros H. destruct (range_id_shape _ H) as (p1 & p2 & suffix & -> & _ & _ & Hl).
  change (skipn 3 (p1 :: p2 :: "X"%char :: suffix)) with suffix.
  change (firstn 2 (p1 :: p2 :: "X"%char :: suffix)) with [p1; p2].
  cbv zeta. unfold PoolScraper.range_start_text, PoolScraper.range_end_text.
  rewrite !length_app. cbn [List.length str list_ascii_of_string].
  repeat split; lia.
Qed.

(** C6 at the code "50XA1EC", the four-digit example of the decoder's own
    documentation: the 16 boundary pairs are formed by inserting a digit
    and appending the tails [3000000000] and [3FFFFFFFFF], and every
    boundary, as the text handed to [int] and as the ledger renders the
    integer, is 17 hexadecimal digits long, not 18. *)
Theorem four_digit_suffix_gives_17_digit_boundaries :
  PoolScraper.is_range_id (str "50XA1EC") = true /\
  exists blocks,
    PoolScraper._decode_range_id (str "50XA1EC") = Returned blocks /\
    blocks = range_blocks (str "50") (str "A1EC") /\
    firstn 2 blocks =
      [(0x500A1EC3000000000, 0x500A1EC3FFFFFFFFF);
       (0x501A1EC3000000000, 0x501A1EC3FFFFFFFFF)] /\
    Forall (fun x =>
              List.length (PoolScraper.range_start_text (str "50") x (str "A1EC"))
                = 17%nat /\
              List.length (PoolScraper.range_end_text (str "50") x (str "A1EC"))
                = 17%nat)
           PoolScraper.hex_alphabet /\
    Forall (fun b => List.length (Py.hex_text (fst b)) = 17%nat /\
                     List.length (Py.hex_text (snd b)) = 17%nat)
           blocks.
Proof.
  split; [reflexivity |].
  eexists. split; [vm_compute; reflexivity |].
  split; [vm_compute; reflexivity |].
  split; [reflexivity |].
  split; repeat constructor.
Qed.

(** A five-digit suffix does give 18 digits. *)
Example five_digit_suffix_gives_18_digit_boundaries :
  Forall (fun x =>
            List.length (PoolScraper.range_start_text (str "41") x (str "A26C0"))
              = 18%nat)
         PoolScraper.hex_alphabet.
Proof. repeat constructor. Qed.


(** ** Reasoning about handlers *)

Section Keeping.

Import KeyHuntSmartGUI.

Variable R : gui -> gui -> Prop.
Hypothesis R_refl : forall st, R st st.
Hypothesis R_trans : forall a b c, R a b -> R b c -> R a c.

Lemma keeps_ret {A} (a : A) : keeps R (ret a).
Proof. intros st. apply R_refl. Qed.

Lemma keeps_raise {A} e : keeps R (@raise A e).
Proof. intros st. apply R_refl. Qed.

Lemma keeps_lift {A} (o : outcome A) : keeps R (lift o).
Proof. intros st. apply R_refl. Qed.

Lemma keeps_get : keeps R get.
Proof. intros st. apply R_refl. Qed.

Lemma keeps_modify f : (forall st, R st (f st)) -> keeps R (modify f).
Proof. intros H st. apply H. Qed.

Lemma keeps_bind {A B} (m : action A) (k : A -> action B) :
  keeps R m -> (forall a, keeps R (k a)) -> keeps R (abind m k).
Proof.
  intros Hm Hk st. unfold abind. specialize (Hm st).
  destruct (m st) as [st' [a | e]]; cbn [fst] in *; [| exact Hm].
  eapply R_trans; [exact Hm | apply Hk].
Qed.

End Keeping.

Section ReadFrame.

Import KeyHuntSmartGUI.

Lemma read_frame_refl st : read_frame st st.
Proof.
  repeat split. exists []. now rewrite app_nil_r.
Qed.

Lemma read_frame_trans a b c : read_frame a b -> read_frame b c -> read_frame a c.
Proof.
  unfold read_frame.
  intros (A1 & A2 & A3 & A4 & A5 & A6 & A7 & A8 & A9 & A10 & l1 & E1 & F1)
         (B1 & B2 & B3 & B4 & B5 & B6 & B7 & B8 & B9 & B10 & l2 & E2 & F2).
  repeat split; try congruence.
  exists (l1 ++ l2). rewrite E2, E1, <- app_assoc, forallb_app, F1, F2. now split.
Qed.

Lemma read_frame_terminate : keeps read_frame terminate_process.
Proof.
  intros st. unfold terminate_process, abind, get, emit, modify.
  destruct (process st) as [pid |] eqn:E; cbn; [| apply read_frame_refl].
  repeat split. now exists [Terminate pid].
Qed.

Lemma read_frame_on_keys_match g : keeps read_frame (on_keys_match g).
Proof.
  unfold on_keys_match.
  repeat first
    [ apply keeps_ret; exact read_frame_refl
    | apply keeps_raise; exact read_frame_refl
    | apply keeps_lift; exact read_frame_refl
    | apply keeps_get; exact read_frame_refl
    | apply read_frame_terminate
    | apply keeps_modify; intros ?; repeat split; exists []; now rewrite app_nil_r
    | apply keeps_bind; [exact read_frame_trans | | intros ?]
    | match goal with
      | |- keeps _ (match ?x with _ => _ end) => destruct x
      end ].
Qed.

Lemma read_frame_read_lines lines :
  forall lines_read keyhunt_error,
    keeps read_frame (read_lines lines lines_read keyhunt_error).
Proof.
  induction lines as [|raw rest IH]; intros lines_read keyhunt_error.
  - apply keeps_ret, read_frame_refl.
  - cbn [read_lines]. destruct raw as [|c raw'].
    + apply keeps_ret, read_frame_refl.
    + repeat first
        [ apply IH
        | apply keeps_ret; exact read_frame_refl
        | apply keeps_raise; exact read_frame_refl
        | apply keeps_get; exact read_frame_refl
        | apply read_frame_terminate
        | apply read_frame_on_keys_match
        | apply keeps_modify; intros ?; repeat split; exists [];
          now rewrite app_nil_r
        | apply keeps_bind; [exact read_frame_trans | | intros ?]
        | match goal with
          | |- keeps _ (match ?x with _ => _ end) => destruct x
          end ].
Qed.

End ReadFrame.

(** ** One run of the block search *)

Section SearchRun.

Import KeyHuntSmartGUI.

Lemma search_try_cases cmd run st :
  search_case cmd run st (fst (search_try cmd run st)) (snd (search_try cmd run st)).
Proof.
  unfold search_try, search_reading, search_epilogue.
  cbv beta iota zeta delta [abind lift modify emit get ret raise time_sleep].
  destruct (launch run) as [pid | e] eqn:El.
  2:{ now apply launch_failed. }
  set (st0 := add_effect (Popen cmd pid) (set_process (Some pid) st)).
  pose proof (read_frame_read_lines (output run) 0 false st0) as F.
  destruct (read_lines (output run) 0 false st0)
    as [st2 [[lines_read keyhunt_error] | e]] eqn:Er.
  2:{ now apply (reading_failed _ _ _ pid). }
  cbn [fst] in F. destruct F as (_ & _ & _ & _ & Hp & _).
  rewrite Hp. cbn [process set_process add_effect set_effects st0].
  change (match wait run with Exited returncode => returncode | TimeoutExpired => -1 end)
    with (exit_code_of (wait run)).
  fold (completion_gate (is_paused st2) (wait run) lines_read keyhunt_error).
  fold (startup_failure (wait run) lines_read).
  destruct (completion_gate (is_paused st2) (wait run) lines_read keyhunt_error) eqn:G.
  { now apply (completion_queued _ _ _ pid st2 lines_read keyhunt_error). }
  destruct (startup_failure (wait run) lines_read) eqn:S.
  2:{ now apply (not_completed _ _ _ pid st2 lines_read keyhunt_error). }
  destruct (retry_count st2) as [n |] eqn:En.
  - cbv beta iota. rewrite En. destruct (Z.ltb_spec n 3).
    + apply (retry_raised _ _ _ pid st2 lines_read keyhunt_error st2 n); auto.
    + now apply (retries_used_up _ _ _ pid st2 lines_read keyhunt_error n).
  - cbn.
    apply (retry_raised _ _ _ pid st2 lines_read keyhunt_error
             (set_retry_count (Some 0) st2) 0); auto. lia.
Qed.

Lemma terminates_queue_nothing l :
  forallb is_terminate l = true ->
  idle_callbacks l = [] /\ ~ In SearchThread l.
Proof.
  induction l as [|e l IH]; [intros _; split; [reflexivity | intros []] |].
  cbn [forallb]. rewrite andb_true_iff. intros [He Hl].
  destruct (IH Hl) as [IH1 IH2].
  destruct e; try discriminate He. split; [exact IH1 |].
  intros [E | H]; [discriminate E | exact (IH2 H)].
Qed.

Lemma idle_callbacks_app l1 l2 :
  idle_callbacks (l1 ++ l2) = idle_callbacks l1 ++ idle_callbacks l2.
Proof. unfold idle_callbacks. apply flat_map_app. Qed.

Lemma queued_of_appended before after l :
  effects after = effects before ++ l ->
  queued before after = idle_callbacks l.
Proof.
  intros E. unfold queued. rewrite E.
  fold (idle_callbacks (skipn (List.length (effects before)) (effects before ++ l))).
  f_equal. rewrite skipn_app, skipn_all, Nat.sub_diag. reflexivity.
Qed.

(** What a way through the [try] block adds to the effect log: the launch,
    requests to terminate the worker and, only when completion is queued,
    that one callback.  No search thread is ever started. *)
Lemma search_case_effects cmd run st st' r :
  search_case cmd run st st' r ->
  scan_db st' = scan_db st /\
  current_block st' = current_block st /\
  keys_checked st' = keys_checked st /\
  is_paused st' = is_paused st /\
  exists l,
    effects st' = effects st ++ l /\
    ~ In SearchThread l /\
    idle_callbacks l =
      match r with
      | Returned CompletionQueued => [cb_on_block_completed]
      | _ => []
      end.
Proof.
  assert (P : forall pid st2 rr,
             read_lines (output run) 0 false
               (add_effect (Popen cmd pid) (set_process (Some pid) st)) = (st2, rr) ->
             scan_db st2 = scan_db st /\ current_block st2 = current_block st /\
             keys_checked st2 = keys_checked st /\ is_paused st2 = is_paused st /\
             exists l, effects st2 = effects st ++ l /\ ~ In SearchThread l /\
                       idle_callbacks l = []).
  { intros pid st2 rr E.
    pose proof (read_frame_read_lines (output run) 0 false
                  (add_effect (Popen cmd pid) (set_process (Some pid) st))) as F.
    rewrite E in F. cbn [fst] in F.
    destruct F as (_ & F2 & _ & _ & _ & F6 & F7 & F8 & _ & _ & l & El & Hl).
    cbn in F2, F6, F7, F8, El.
    destruct (terminates_queue_nothing l Hl) as [Q1 Q2].
    repeat split; try assumption.
    exists (Popen cmd pid :: l). rewrite El, <- app_assoc. split; [reflexivity |].
    split; [| exact Q1].
    intros [D | H]; [discriminate D | exact (Q2 H)]. }
  intros C. destruct C as
    [ e El
    | pid st2 e El Er
    | pid st2 lr ke El Er G
    | pid st2 lr ke st3 n El Er G S [-> | ->] En Hn
    | pid st2 lr ke n El Er G S En Hn
    | pid st2 lr ke El Er G S ];
    try (destruct (P _ _ _ Er) as (P1 & P2 & P3 & P4 & l & E & N & Q)).
  - repeat split. exists []. rewrite app_nil_r. repeat split. intros [].
  - repeat split; try assumption. exists l. auto.
  - repeat split; try assumption.
    exists (l ++ [IdleAdd cb_on_block_completed]). cbn. rewrite E, app_assoc.
    split; [reflexivity |]. split.
    + intros H. apply in_app_or in H as [H | [D | []]]; [exact (N H) | discriminate D].
    + now rewrite idle_callbacks_app, Q.
  - repeat split; try assumption. exists l. auto.
  - repeat split; try assumption. exists l. auto.
  - repeat split; try assumption. exists l. auto.
  - repeat split; try assumption. exists l. auto.
Qed.

Lemma run_block_search_eq run st block_start block_end cmd :
  current_block st = Some (block_start, block_end) ->
  build_keyhunt_command (set_session_keys 0 st) block_start block_end
    = Returned cmd ->
  let st0 := set_session_keys 0 st in
  run_block_search run st =
    match snd (search_try cmd run st0) with
    | Returned e => (fst (search_try cmd run st0), e)
    | Raised e => (set_is_running false (fst (search_try cmd run st0)), Excepted e)
    end.
Proof.
  intros H Hcmd. unfold run_block_search. rewrite H. cbv zeta. rewrite Hcmd.
  unfold except_clause.
  now destruct (search_try _ run (set_session_keys 0 st)) as [st' [e | e]].
Qed.

(** A command that cannot be built ends the thread before its [try]
    block. *)
Lemma run_block_search_died run st block_start block_end e :
  current_block st = Some (block_start, block_end) ->
  build_keyhunt_command (set_session_keys 0 st) block_start block_end
    = Raised e ->
  run_block_search run st = (set_session_keys 0 st, Died e).
Proof.
  intros H Hcmd. unfold run_block_search. rewrite H. cbv zeta. now rewrite Hcmd.
Qed.

(** The command is built exactly when the number of keys left in the
    block has a nearest double. *)
Lemma build_keyhunt_command_cases st block_start block_end :
  let keys_to_search :=
    block_end - actual_start st block_start block_end + 1 in
  (Py.float_of_int_raises keys_to_search = false /\
   exists cmd,
     build_keyhunt_command st block_start block_end = Returned cmd /\
     List.length cmd = 17%nat /\
     nth 12 cmd [] = str "--range" /\
     nth 13 cmd [] =
       (Py.hex_tail (actual_start st block_start block_end) ++ str ":"
        ++ Py.hex_tail block_end)) \/
  (Py.float_of_int_raises keys_to_search = true /\
   build_keyhunt_command st block_start block_end = Raised Py.OverflowError).
Proof.
  cbv zeta. unfold build_keyhunt_command. cbv zeta.
  destruct (Py.float_of_int_raises _).
  - right. split; reflexivity.
  - left. split; [reflexivity |]. eexists. repeat split.
Qed.

End SearchRun.

(** ** Block selection *)

Section Selection.

Import KeyHuntSmartGUI.

Lemma set_current_block_index_same st :
  set_current_block_index (current_block_index st) st = st.
Proof. now destruct st. Qed.

Lemma selection_case_step bm st res :
  current_block_index st < BlockManager.total_blocks bm ->
  passes_over st (BlockManager.get_block bm (current_block_index st)) = true ->
  selection_case bm (set_current_block_index (current_block_index st + 1) st) res ->
  selection_case bm st res.
Proof.
  intros Hlt Hp C.
  assert (P : forall i,
             (forall j, current_block_index st + 1 <= j < i ->
                        passes_over st (BlockManager.get_block bm j) = true) ->
             forall j, current_block_index st <= j < i ->
                       passes_over st (BlockManager.get_block bm j) = true).
  { intros i H j Hj. destruct (Z.eq_dec j (current_block_index st)) as [-> | Hne];
      [exact Hp | apply H; lia]. }
  destruct C as [i H1 H2 H3 H4 | i H1 H2 H3 | i H1 H2 H3]; cbn in H1.
  - apply (block_selected bm st i); [lia | lia | apply P, H3 | exact H4].
  - apply (selection_yielded bm st i); [lia | lia | apply P, H3].
  - apply (blocks_exhausted bm st i); [lia | lia | apply P, H3].
Qed.

Lemma find_next_block_loop_cases bm more :
  forall st, selection_case bm st (find_next_block_loop bm more st).
Proof.
  induction more as [|more IH]; intros st; cbn [find_next_block_loop];
    destruct (Z.ltb_spec (current_block_index st) (BlockManager.total_blocks bm))
      as [Hlt | Hge].
  all: try (rewrite <- (set_current_block_index_same st) at 2;
            apply blocks_exhausted; [lia | lia | intros j Hj; lia]).
  all: set (block := BlockManager.get_block bm (current_block_index st)).
  all: assert (Sel : passes_over st block = false ->
                     selection_case bm st
                       (add_effect SearchThread
                          (set_keys_checked 0 (set_current_block (Some block) st))))
         by (intros Hp; rewrite <- (set_current_block_index_same st) at 2;
             apply block_selected; [lia | lia | intros j Hj; lia | exact Hp]).
  all: assert (Y : passes_over st block = true ->
                   selection_case bm st
                     (add_effect (TimeoutAdd 10 cb_find_next_block)
                        (set_current_block_index (current_block_index st + 1) st)))
         by (intros Hp; apply selection_yielded; [lia | lia |];
             intros j Hj; replace j with (current_block_index st) by lia; exact Hp).
  all: unfold passes_over in Sel, Y.
  all: destruct (fst (ScanDatabase.is_block_scanned _ _ _)) eqn:Hs;
         [| destruct (fst (should_skip_block_by_pattern _ _ _)) eqn:Hk];
         cbn [orb] in Sel, Y; auto.
  all: apply selection_case_step; [exact Hlt | | apply IH].
  all: unfold passes_over; fold block; rewrite ?Hs, ?Hk; reflexivity.
Qed.

(** Selection leaves the ledger, the worker handle and the pause flag
    alone and never lowers the index; a selected block starts from zero keys
    checked. *)
Lemma selection_case_facts bm st res :
  selection_case bm st res ->
  scan_db res = scan_db st /\
  process res = process st /\
  is_paused res = is_paused st /\
  current_block_index st <= current_block_index res /\
  (current_block res = current_block st \/
   current_block res = None \/
   (keys_checked res = 0 /\
    current_block res =
      Some (BlockManager.get_block bm (current_block_index res)) /\
    current_block_index res < BlockManager.total_blocks bm)).
Proof.
  intros [i H1 H2 H3 H4 | i H1 H2 H3 | i H1 H2 H3]; cbn;
    repeat split; try lia; auto.
Qed.

Lemma find_next_block_same_ledger : keeps same_ledger find_next_block.
Proof.
  intros st. unfold same_ledger.
  destruct (block_mgr st) as [bm |] eqn:E.
  - rewrite (find_next_block_eq st bm E). cbn [fst].
    apply (selection_case_facts bm), find_next_block_loop_cases.
  - unfold find_next_block, abind, get. cbv beta iota. now rewrite E.
Qed.

End Selection.

(** ** Completion of a block *)

Section Completion.

Import KeyHuntSmartGUI.

Lemma abind_modify {B} f (k : unit -> action B) st :
  abind (modify f) k st = k tt (f st).
Proof. reflexivity. Qed.

Lemma abind_get {B} (k : gui -> action B) st : abind get k st = k st st.
Proof. reflexivity. Qed.

Lemma abind_lift {A B} (o : outcome A) (k : A -> action B) st :
  abind (lift o) k st =
    match o with
    | Returned a => k a st
    | Raised e => (st, Raised e)
    end.
Proof. now destruct o. Qed.

Lemma terminate_process_eq st :
  terminate_process st =
    (match process st with
     | Some pid => add_effect (Terminate pid) st
     | None => st
     end, Returned tt).
Proof.
  unfold terminate_process. rewrite abind_get. now destruct (process st).
Qed.

Lemma abind_returned {A B} (m : action A) (k : A -> action B) st st' a :
  m st = (st', Returned a) -> abind m k st = k a st'.
Proof. intros E. unfold abind. now rewrite E. Qed.

Lemma same_ledger_refl st : same_ledger st st.
Proof. reflexivity. Qed.

Lemma same_ledger_trans a b c : same_ledger a b -> same_ledger b c -> same_ledger a c.
Proof. unfold same_ledger. congruence. Qed.

Ltac ledger_steps :=
  repeat first
    [ apply keeps_ret; exact same_ledger_refl
    | apply keeps_raise; exact same_ledger_refl
    | apply keeps_get; exact same_ledger_refl
    | apply find_next_block_same_ledger
    | apply keeps_modify; intros ?; reflexivity
    | apply keeps_bind; [exact same_ledger_trans | | intros ?]
    | match goal with
      | |- keeps _ (match ?x with _ => _ end) => destruct x
      end ].

Lemma terminate_process_same_ledger : keeps same_ledger terminate_process.
Proof. unfold terminate_process, emit. ledger_steps. Qed.

Lemma on_stop_same_ledger : keeps same_ledger on_stop.
Proof.
  unfold on_stop.
  apply keeps_bind; [exact same_ledger_trans | | intros ?]; [ledger_steps |].
  apply keeps_bind; [exact same_ledger_trans | | intros ?]; [ledger_steps |].
  apply keeps_bind; [exact same_ledger_trans | | intros ?];
    [apply terminate_process_same_ledger |].
  ledger_steps.
Qed.

Lemma handle_block_collision_same_ledger : keeps same_ledger handle_block_collision.
Proof.
  unfold handle_block_collision.
  apply keeps_bind; [exact same_ledger_trans | | intros ?];
    [apply terminate_process_same_ledger |].
  do 4 (apply keeps_bind; [exact same_ledger_trans | | intros ?]; [ledger_steps |]).
  apply keeps_bind; [exact same_ledger_trans | | intros st]; [ledger_steps |].
  destruct (current_block st); [unfold emit; ledger_steps | apply on_stop_same_ledger].
Qed.

(** The refresh of the status labels changes nothing; it returns exactly
    when the sum of the key counts can be taken. *)
Lemma update_smart_status_eq st :
  update_smart_status st =
    (st, match ScanDatabase.sum_keys_checked 0
                 (ScanDatabase.my_scanned (scan_db st)) with
         | Returned _ => Returned tt
         | Raised e => Raised e
         end).
Proof.
  unfold update_smart_status. rewrite abind_get, abind_lift.
  unfold ScanDatabase.get_stats, Py.bind.
  now destruct (ScanDatabase.sum_keys_checked _ _).
Qed.

Lemma update_smart_status_same_ledger : keeps same_ledger update_smart_status.
Proof. intros st. now rewrite update_smart_status_eq. Qed.

(** What [on_block_completed] does to the ledger: with a current block it
    upserts that block in [my_scanned] with the keys of earlier sessions
    plus those of this one, unless that number does not fit the column;
    without a current block it writes nothing. *)
Lemma on_block_completed_ledger st :
  scan_db (fst (on_block_completed st)) =
    match current_block st with
    | Some (block_start, block_end) =>
        match ScanDatabase.add_my_block (scan_db st) block_start block_end
                (keys_checked st + session_keys st) with
        | Returned db => db
        | Raised _ => scan_db st
        end
    | None => scan_db st
    end.
Proof.
  unfold on_block_completed. rewrite abind_modify, abind_get.
  cbn [current_block scan_db keys_checked session_keys set_retry_count].
  destruct (current_block st) as [[block_start block_end] |]; [| reflexivity].
  rewrite abind_lift.
  destruct (ScanDatabase.add_my_block _ _ _ _) as [db | e]; [| reflexivity].
  rewrite abind_modify.
  match goal with
  | |- scan_db (fst (?tail ?s)) = _ =>
      assert (K : keeps same_ledger tail); [| exact (K s)]
  end.
  apply keeps_bind; [exact same_ledger_trans | | intros ?];
    [apply update_smart_status_same_ledger |].
  do 3 (apply keeps_bind; [exact same_ledger_trans | | intros ?]; [ledger_steps |]).
  apply keeps_bind; [exact same_ledger_trans | | intros st']; [ledger_steps |].
  destruct (current_block st'); [| apply on_stop_same_ledger].
  apply keeps_bind; [exact same_ledger_trans | | intros ?];
    [apply terminate_process_same_ledger |].
  unfold time_sleep, emit. ledger_steps.
Qed.

End Completion.

Section CompletionGate.

Import KeyHuntSmartGUI.

Lemma completion_gate_true is_paused w lines_read keyhunt_error :
  completion_gate is_paused w lines_read keyhunt_error = true ->
  is_paused = false /\ keyhunt_error = false /\
  (w = Exited 0 \/ w = Exited (-15)) /\ 10 <= lines_read.
Proof.
  unfold completion_gate. rewrite !andb_true_iff, orb_true_iff, !negb_true_iff.
  intros [[[-> ->] Hc] Hl]. apply Z.leb_le in Hl.
  repeat split; [| exact Hl].
  destruct w as [returncode |]; cbn in Hc.
  - destruct Hc as [Hc | Hc]; apply Z.eqb_eq in Hc; subst; auto.
  - destruct Hc as [Hc | Hc]; discriminate Hc.
Qed.

(** The search thread followed by the callback it queued: the completion
    handler runs exactly when completion was queued. *)
Lemma search_then_idle run st block_start block_end :
  current_block st = Some (block_start, block_end) ->
  then_idle (fun s => fst (run_block_search run s)) st =
    match snd (run_block_search run st) with
    | CompletionQueued => fst (on_block_completed (fst (run_block_search run st)))
    | _ => fst (run_block_search run st)
    end.
Proof.
  intros Hb. unfold then_idle.
  destruct (build_keyhunt_command (set_session_keys 0 st) block_start block_end)
    as [cmd | e] eqn:Hcmd.
  2:{ rewrite (run_block_search_died run st _ _ e Hb Hcmd). cbn [fst snd].
      unfold queued. cbn [effects set_session_keys]. now rewrite skipn_all. }
  pose proof (run_block_search_eq run st _ _ cmd Hb Hcmd) as E. cbv zeta in E.
  set (st0 := set_session_keys 0 st) in *.
  pose proof (search_case_effects _ _ _ _ _ (search_try_cases cmd run st0))
    as (_ & _ & _ & _ & l & El & _ & Q).
  change (effects st0) with (effects st) in El.
  rewrite E.
  destruct (snd (search_try cmd run st0)) as [e | e]; cbn [fst snd].
  - rewrite (queued_of_appended st _ l El), Q. now destruct e.
  - assert (El' : effects (set_is_running false (fst (search_try cmd run st0)))
                  = effects st ++ l) by exact El.
    now rewrite (queued_of_appended st _ l El'), Q.
Qed.

End CompletionGate.

(** A reported count that brings the total to the key count of the block
    makes the coordinator clear [is_running] and ask the worker to
    terminate. *)
Lemma count_reached_stops_the_search group n st block_start block_end :
  Py.int10_digits (List.filter (fun c => negb (Ascii.eqb c ",")) group)
    = Returned n ->
  KeyHuntSmartGUI.current_block st = Some (block_start, block_end) ->
  block_end - block_start + 1 <= KeyHuntSmartGUI.keys_checked st + n ->
  Py.truediv_raises (KeyHuntSmartGUI.keys_checked st + n)
    (block_end - block_start + 1) = None ->
  let st' := fst (KeyHuntSmartGUI.on_keys_match group st) in
  KeyHuntSmartGUI.is_running st' = false /\
  KeyHuntSmartGUI.session_keys st' = n /\
  forall pid,
    KeyHuntSmartGUI.process st = Some pid ->
    KeyHuntSmartGUI.effects st'
      = KeyHuntSmartGUI.effects st ++ [KeyHuntSmartGUI.Terminate pid].
Proof.
  intros Hn Hb Hle Hdiv. cbv zeta. unfold KeyHuntSmartGUI.on_keys_match.
  rewrite abind_lift, Hn, abind_modify, abind_get.
  cbn [KeyHuntSmartGUI.current_block KeyHuntSmartGUI.keys_checked
       KeyHuntSmartGUI.session_keys KeyHuntSmartGUI.set_session_keys].
  rewrite Hb, Hdiv.
  destruct (Z.leb_spec (block_end - block_start + 1)
                       (KeyHuntSmartGUI.keys_checked st + n)); [| lia].
  rewrite abind_modify, terminate_process_eq.
  cbn [KeyHuntSmartGUI.process KeyHuntSmartGUI.set_is_running
       KeyHuntSmartGUI.set_session_keys].
  destruct (KeyHuntSmartGUI.process st) as [pid |]; cbn;
    repeat split; intros p [= <-]; reflexivity.
Qed.

(** C1, as the code has it.  A run of the block search on the current
    block writes nothing to the ledger itself; the ledger changes only
    through the completion callback, which is queued only when the run ended
    with [is_paused] false, no error marker seen on the lines read, the
    worker exited with code 0 or -15, and at least 10 non-empty lines were
    read.  The callback then upserts the block in [my_scanned] with the keys
    of earlier sessions plus the last count reported (unless that number
    does not fit the column).  The reported count does not enter the
    test: a count that brings the total to the key count of the block makes
    the coordinator clear [is_running] and ask the worker to terminate, and
    that is all it does. *)
Theorem mine_record_follows_clean_worker_exit
  (run : KeyHuntSmartGUI.worker_run) (st : KeyHuntSmartGUI.gui)
  (block_start block_end : Z) :
  KeyHuntSmartGUI.current_block st = Some (block_start, block_end) ->
  let after_thread := fst (KeyHuntSmartGUI.run_block_search run st) in
  let ending := snd (KeyHuntSmartGUI.run_block_search run st) in
  let after_callbacks :=
    KeyHuntSmartGUI.then_idle
      (fun s => fst (KeyHuntSmartGUI.run_block_search run s)) st in
  let total :=
    KeyHuntSmartGUI.keys_checked st + KeyHuntSmartGUI.session_keys after_thread in
  KeyHuntSmartGUI.scan_db after_thread = KeyHuntSmartGUI.scan_db st /\
  (ending <> KeyHuntSmartGUI.CompletionQueued ->
   KeyHuntSmartGUI.scan_db after_callbacks = KeyHuntSmartGUI.scan_db st) /\
  (ending = KeyHuntSmartGUI.CompletionQueued ->
   KeyHuntSmartGUI.is_paused st = false /\
   (KeyHuntSmartGUI.wait run = KeyHuntSmartGUI.Exited 0 \/
    KeyHuntSmartGUI.wait run = KeyHuntSmartGUI.Exited (-15)) /\
   (exists cmd pid st2 lines_read,
      KeyHuntSmartGUI.build_keyhunt_command
        (KeyHuntSmartGUI.set_session_keys 0 st) block_start block_end
        = Returned cmd /\
      KeyHuntSmartGUI.launch run = Returned pid /\
      KeyHuntSmartGUI.read_lines (KeyHuntSmartGUI.output run) 0 false
        (KeyHuntSmartGUI.add_effect (KeyHuntSmartGUI.Popen cmd pid)
           (KeyHuntSmartGUI.set_process (Some pid)
              (KeyHuntSmartGUI.set_session_keys 0 st)))
        = (st2, Returned (lines_read, false)) /\
      10 <= lines_read) /\
   KeyHuntSmartGUI.scan_db after_callbacks =
     match ScanDatabase.add_my_block (KeyHuntSmartGUI.scan_db st)
             block_start block_end total with
     | Returned db => db
     | Raised _ => KeyHuntSmartGUI.scan_db st
     end) /\
  (forall group n s,
     Py.int10_digits (List.filter (fun c => negb (Ascii.eqb c ",")) group)
       = Returned n ->
     KeyHuntSmartGUI.current_block s = Some (block_start, block_end) ->
     block_end - block_start + 1 <= KeyHuntSmartGUI.keys_checked s + n ->
     Py.truediv_raises (KeyHuntSmartGUI.keys_checked s + n)
       (block_end - block_start + 1) = None ->
     KeyHuntSmartGUI.is_running (fst (KeyHuntSmartGUI.on_keys_match group s))
       = false /\
     forall pid,
       KeyHuntSmartGUI.process s = Some pid ->
       KeyHuntSmartGUI.effects (fst (KeyHuntSmartGUI.on_keys_match group s))
         = KeyHuntSmartGUI.effects s ++ [KeyHuntSmartGUI.Terminate pid]).
Proof.
  intros Hb. cbv zeta.
  assert (D : forall group n s,
             Py.int10_digits (List.filter (fun c => negb (Ascii.eqb c ",")) group)
               = Returned n ->
             KeyHuntSmartGUI.current_block s = Some (block_start, block_end) ->
             block_end - block_start + 1 <= KeyHuntSmartGUI.keys_checked s + n ->
             Py.truediv_raises (KeyHuntSmartGUI.keys_checked s + n)
               (block_end - block_start + 1) = None ->
             KeyHuntSmartGUI.is_running
               (fst (KeyHuntSmartGUI.on_keys_match group s)) = false /\
             forall pid,
               KeyHuntSmartGUI.process s = Some pid ->
               KeyHuntSmartGUI.effects
                 (fst (KeyHuntSmartGUI.on_keys_match group s))
               = KeyHuntSmartGUI.effects s ++ [KeyHuntSmartGUI.Terminate pid]).
  { intros group n s H1 H2 H3 H4.
    destruct (count_reached_stops_the_search group n s _ _ H1 H2 H3 H4)
      as (R1 & _ & R3).
    split; assumption. }
  rewrite (search_then_idle run st _ _ Hb).
  destruct (KeyHuntSmartGUI.build_keyhunt_command
              (KeyHuntSmartGUI.set_session_keys 0 st) block_start block_end)
    as [cmd | e] eqn:Hcmd.
  2:{ rewrite (run_block_search_died run st _ _ e Hb Hcmd). cbn [fst snd].
      split; [reflexivity |]. split; [reflexivity |].
      split; [intros H; discriminate H | exact D]. }
  pose proof (run_block_search_eq run st _ _ cmd Hb Hcmd) as E. cbv zeta in E.
  set (st0 := KeyHuntSmartGUI.set_session_keys 0 st) in *.
  pose proof (search_try_cases cmd run st0) as C.
  pose proof (search_case_effects _ _ _ _ _ C) as (F1 & F2 & F3 & F4 & _).
  change (KeyHuntSmartGUI.scan_db st0) with (KeyHuntSmartGUI.scan_db st) in F1.
  change (KeyHuntSmartGUI.current_block st0)
    with (KeyHuntSmartGUI.current_block st) in F2.
  change (KeyHuntSmartGUI.keys_checked st0)
    with (KeyHuntSmartGUI.keys_checked st) in F3.
  change (KeyHuntSmartGUI.is_paused st0)
    with (KeyHuntSmartGUI.is_paused st) in F4.
  rewrite E. clear E.
  destruct C as
    [ e El
    | pid st2 e El Er
    | pid st2 lr ke El Er G
    | pid st2 lr ke st3 n El Er G S Hst3 En Hn
    | pid st2 lr ke n El Er G S En Hn
    | pid st2 lr ke El Er G S ];
    cbn [fst snd] in *;
    (split; [exact F1 |]);
    (split; [first [intros _; exact F1 | intros H; now contradiction H] |]);
    (split; [| exact D]);
    try (intros H; discriminate H).
  intros _.
  apply completion_gate_true in G as (G1 & -> & G3 & G4).
  split; [now rewrite <- F4 |]. split; [exact G3 |].
  split; [exists cmd, pid, st2, lr; auto |].
  rewrite on_block_completed_ledger. rewrite F2, Hb, F1, F3. reflexivity.
Qed.

Lemma mine_record_follows_clean_worker_exit_witness :
  KeyHuntSmartGUI.current_block searching_block_0 = Some (0x400, 0x43F) /\
  KeyHuntSmartGUI.scan_db
    (fst (KeyHuntSmartGUI.run_block_search run_reporting_64_keys
            searching_block_0))
  = KeyHuntSmartGUI.scan_db searching_block_0.
Proof.
  split; [reflexivity |].
  exact (proj1 (mine_record_follows_clean_worker_exit run_reporting_64_keys
                  searching_block_0 0x400 0x43F eq_refl)).
Defined.

(** A worker that reports 32 keys checked on each of its ten lines and
    then exits with code 0: the block [0x400..0x43F] holds 64 keys, the
    reported count stays below that, and yet the block is upserted in
    [my_scanned], with 32 keys checked. *)
Lemma block_recorded_below_its_key_count :
  KeyHuntSmartGUI.current_block searching_block_0 = Some (0x400, 0x43F) /\
  0x43F - 0x400 + 1 = 64 /\
  reported_counts run_reporting_32_keys = repeat 32 10 /\
  KeyHuntSmartGUI.keys_checked searching_block_0 = 0 /\
  ScanDatabase.my_scanned (KeyHuntSmartGUI.scan_db searching_block_0)
    !! Py.hex_text 0x400 = None /\
  ScanDatabase.my_scanned
    (KeyHuntSmartGUI.scan_db
       (KeyHuntSmartGUI.then_idle
          (fun s => fst (KeyHuntSmartGUI.run_block_search run_reporting_32_keys s))
          searching_block_0))
    !! Py.hex_text 0x400 = Some (Py.hex_text 0x43F, 32).
Proof. repeat split; vm_compute; reflexivity. Qed.

(** When the reported count does reach the key count of the block, the
    coordinator clears [is_running] and asks the worker to terminate; the
    record then follows from the worker's exit as above. *)
Example count_reached_stops_the_worker :
  let after_thread :=
    fst (KeyHuntSmartGUI.run_block_search run_reporting_64_keys searching_block_0) in
  snd (KeyHuntSmartGUI.run_block_search run_reporting_64_keys searching_block_0)
    = KeyHuntSmartGUI.CompletionQueued /\
  KeyHuntSmartGUI.is_running after_thread = false /\
  KeyHuntSmartGUI.session_keys after_thread = 64 /\
  In (KeyHuntSmartGUI.Terminate 8) (KeyHuntSmartGUI.effects after_thread).
Proof. vm_compute. repeat split. right. left. reflexivity. Qed.

(** ** Startup failures *)

Lemma run_block_search_never_retries run st :
  snd (KeyHuntSmartGUI.run_block_search run st) <> KeyHuntSmartGUI.RetryStarted /\
  exists l,
    KeyHuntSmartGUI.effects (fst (KeyHuntSmartGUI.run_block_search run st))
      = KeyHuntSmartGUI.effects st ++ l /\
    ~ In KeyHuntSmartGUI.SearchThread l.
Proof.
  destruct (KeyHuntSmartGUI.current_block st) as [[block_start block_end] |] eqn:Hb.
  - destruct (KeyHuntSmartGUI.build_keyhunt_command
                (KeyHuntSmartGUI.set_session_keys 0 st) block_start block_end)
      as [cmd | e] eqn:Hcmd.
    2:{ rewrite (run_block_search_died run st _ _ e Hb Hcmd). cbn [fst snd].
        split; [discriminate |]. exists []. rewrite app_nil_r.
        split; [reflexivity | intros []]. }
    rewrite (run_block_search_eq run st _ _ cmd Hb Hcmd). cbv zeta.
    set (st0 := KeyHuntSmartGUI.set_session_keys 0 st).
    pose proof (search_try_cases cmd run st0) as C.
    pose proof (search_case_effects _ _ _ _ _ C) as (_ & _ & _ & _ & l & El & N & _).
    change (KeyHuntSmartGUI.effects st0) with (KeyHuntSmartGUI.effects st) in El.
    split.
    + destruct C; cbn; discriminate.
    + exists l. split; [| exact N].
      destruct (snd (KeyHuntSmartGUI.search_try cmd run st0)); exact El.
  - unfold KeyHuntSmartGUI.run_block_search. rewrite Hb. cbn [fst snd].
    split; [discriminate |]. exists []. rewrite app_nil_r. split; [reflexivity |].
    intros [].
Qed.

(** C8 on the code.  No run of the block search ever starts another
    search thread: the retry branch increments [retry_count] and then raises
    [NameError] at [time.sleep(3)], which the [except] clause turns into a
    stop.  A worker that exits at once with code 1 and no output is not taken
    for a startup failure at all and stops the session at the first
    attempt. *)
Theorem startup_failure_is_never_retried :
  (forall run st,
     snd (KeyHuntSmartGUI.run_block_search run st)
       <> KeyHuntSmartGUI.RetryStarted /\
     exists l,
       KeyHuntSmartGUI.effects (fst (KeyHuntSmartGUI.run_block_search run st))
         = KeyHuntSmartGUI.effects st ++ l /\
       ~ In KeyHuntSmartGUI.SearchThread l) /\
  (let r := KeyHuntSmartGUI.run_block_search silent_exit_1 searching_block_0 in
   KeyHuntSmartGUI.retry_count searching_block_0 = None /\
   snd r = KeyHuntSmartGUI.Stopped /\
   KeyHuntSmartGUI.is_running (fst r) = false /\
   KeyHuntSmartGUI.retry_count (fst r) = Some 0) /\
  (let r := KeyHuntSmartGUI.run_block_search silent_no_exit searching_block_0 in
   snd r = KeyHuntSmartGUI.Excepted Py.NameError /\
   KeyHuntSmartGUI.is_running (fst r) = false /\
   KeyHuntSmartGUI.retry_count (fst r) = Some 1 /\
   KeyHuntSmartGUI.current_block (fst r) = Some (0x400, 0x43F) /\
   skipn 1 (KeyHuntSmartGUI.effects (fst r)) = []).
Proof.
  split; [exact run_block_search_never_retries |].
  split; vm_compute; repeat split.
Qed.

(** ** Progress carried into a selected block *)

(** Whenever the loop of [find_next_block] selects a block (it starts a
    search thread), [keys_checked] is 0, whatever it was before, and the
    worker's range starts at the block's start. *)
Lemma selection_resets_keys_checked bm more st l :
  KeyHuntSmartGUI.effects (KeyHuntSmartGUI.find_next_block_loop bm more st)
    = KeyHuntSmartGUI.effects st ++ l ->
  In KeyHuntSmartGUI.SearchThread l ->
  let res := KeyHuntSmartGUI.find_next_block_loop bm more st in
  KeyHuntSmartGUI.keys_checked res = 0 /\
  forall block_start block_end,
    KeyHuntSmartGUI.actual_start res block_start block_end = block_start.
Proof.
  intros E Hin. cbv zeta.
  destruct (find_next_block_loop_cases bm more st) as [i _ _ _ _ | i _ _ _ | i _ _ _];
    cbn in E |- *.
  - split; reflexivity.
  - apply app_inv_head in E. subst l. destruct Hin as [D | []]. discriminate D.
  - rewrite <- (app_nil_r (KeyHuntSmartGUI.effects st)) in E at 1.
    apply app_inv_head in E. subst l. destruct Hin.
Qed.

(** C4 on the code.  The state file holds block index 2 with 16 keys
    checked; [load_previous_state] restores both; [on_start] then selects
    block 2 ([0x480..0x4BF]) and leaves [keys_checked] at 0, so the worker is
    handed the range from [0x480], not from [0x490]. *)
Theorem restart_discards_saved_keys_checked :
  KeyHuntSmartGUI.current_block_index restarted_session = 2 /\
  KeyHuntSmartGUI.keys_checked restarted_session = 16 /\
  let started := fst (KeyHuntSmartGUI.on_start restarted_session) in
  KeyHuntSmartGUI.is_running started = true /\
  KeyHuntSmartGUI.current_block_index started = 2 /\
  KeyHuntSmartGUI.current_block started = Some (0x480, 0x4BF) /\
  KeyHuntSmartGUI.keys_checked started = 0 /\
  KeyHuntSmartGUI.actual_start started 0x480 0x4BF = 0x480 /\
  Py.bind (KeyHuntSmartGUI.build_keyhunt_command started 0x480 0x4BF)
    (fun cmd => Returned (nth 13 cmd []))
    = Returned (str "480:4bf") /\
  KeyHuntSmartGUI.effects started = [KeyHuntSmartGUI.SearchThread].
Proof. vm_compute. repeat split. Qed.

(** The offset is applied when [keys_checked] survives, as it does across
    pause and resume: with 16 keys checked the range starts at [0x490]. *)
Example resume_after_pause_keeps_the_offset :
  let paused :=
    fst (KeyHuntSmartGUI.on_pause
           (KeyHuntSmartGUI.set_session_keys 16
              (KeyHuntSmartGUI.set_current_block_index 2
                 (KeyHuntSmartGUI.set_current_block (Some (0x480, 0x4BF))
                    searching_block_0)))) in
  KeyHuntSmartGUI.keys_checked paused = 16 /\
  KeyHuntSmartGUI.actual_start paused 0x480 0x4BF = 0x490 /\
  Py.bind (KeyHuntSmartGUI.build_keyhunt_command paused 0x480 0x4BF)
    (fun cmd => Returned (nth 13 cmd []))
    = Returned (str "490:4bf").
Proof. vm_compute. repeat split. Qed.

(** ** Collision with a pool claim *)

Section Collision.

Import KeyHuntSmartGUI.

Lemma add_pool_blocks_my_scanned db blocks :
  ScanDatabase.my_scanned (fst (ScanDatabase.add_pool_blocks db blocks))
  = ScanDatabase.my_scanned db.
Proof.
  unfold ScanDatabase.add_pool_blocks.
  generalize (0, 0). revert db.
  induction blocks as [|[block_start block_end] blocks IH]; intros db [a d];
    [reflexivity |].
  cbn [fold_left]. now rewrite IH.
Qed.

(** [scrape_pool] on a scrape that is not empty: the blocks are written,
    and the collision handler is queued when a collision was detected and
    the refresh of the status labels did not fail. *)
Lemma scrape_pool_eq st scanned_blocks :
  scanned_blocks <> [] ->
  let collision_detected :=
    match current_block st with
    | Some (current_start, current_end) =>
        is_running st &&
        existsb (fun '(block_start, block_end) =>
                   (block_start =? current_start) && (block_end =? current_end))
                scanned_blocks
    | None => false
    end in
  let written :=
    set_scan_db (fst (ScanDatabase.add_pool_blocks (scan_db st) scanned_blocks))
                st in
  scrape_pool scanned_blocks st =
    match ScanDatabase.sum_keys_checked 0
            (ScanDatabase.my_scanned (scan_db st)) with
    | Returned _ =>
        if collision_detected
        then add_effect (IdleAdd cb_handle_block_collision) written
        else written
    | Raised _ => written
    end.
Proof.
  intros Hne. cbv zeta. unfold scrape_pool.
  destruct scanned_blocks as [|b rest]; [contradiction |].
  rewrite update_smart_status_eq.
  cbn [scan_db set_scan_db]. rewrite add_pool_blocks_my_scanned.
  now destruct (ScanDatabase.sum_keys_checked _ _).
Qed.

Lemma scrape_pool_on_collision st scanned_blocks current_start current_end total :
  current_block st = Some (current_start, current_end) ->
  is_running st = true ->
  In (current_start, current_end) scanned_blocks ->
  ScanDatabase.sum_keys_checked 0 (ScanDatabase.my_scanned (scan_db st))
    = Returned total ->
  scrape_pool scanned_blocks st =
    add_effect (IdleAdd cb_handle_block_collision)
      (set_scan_db
         (fst (ScanDatabase.add_pool_blocks (scan_db st) scanned_blocks)) st).
Proof.
  intros Hb Hr Hin Hsum.
  assert (Hne : scanned_blocks <> []) by (intros E; rewrite E in Hin; destruct Hin).
  rewrite (scrape_pool_eq st scanned_blocks Hne). cbv zeta.
  rewrite Hsum, Hb, Hr.
  assert (E : existsb (fun '(block_start, block_end) =>
                         (block_start =? current_start) && (block_end =? current_end))
                      scanned_blocks = true).
  { apply existsb_exists. exists (current_start, current_end).
    split; [exact Hin |]. now rewrite !Z.eqb_refl. }
  cbn [andb]. now rewrite E.
Qed.

Lemma on_stop_eq st :
  on_stop st =
    (save_current_state
       (set_process None
          (match process st with
           | Some pid =>
               add_effect (Terminate pid)
                 (set_is_paused false (set_is_running false st))
           | None => set_is_paused false (set_is_running false st)
           end)), Returned tt).
Proof.
  unfold on_stop. rewrite !abind_modify.
  rewrite (abind_returned _ _ _ _ _ (terminate_process_eq _)).
  rewrite !abind_modify. reflexivity.
Qed.

Lemma handle_block_collision_eq st bm :
  block_mgr st = Some bm ->
  let entry :=
    set_keys_checked 0
      (set_current_block_index (current_block_index st + 1)
         (set_process None
            (match process st with
             | Some pid => add_effect (Terminate pid) st
             | None => st
             end))) in
  let selected := find_next_block_loop bm (Nat.pred checks_per_batch) entry in
  handle_block_collision st =
    match current_block selected with
    | Some _ => (add_effect SearchThread selected, Returned tt)
    | None => on_stop selected
    end.
Proof.
  intros Hbm. cbv zeta. unfold handle_block_collision.
  rewrite (abind_returned _ _ _ _ _ (terminate_process_eq _)).
  rewrite !abind_modify.
  match goal with
  | |- abind find_next_block _ ?s = _ =>
      assert (Hs : block_mgr s = Some bm)
        by (destruct (process st); exact Hbm);
      rewrite (abind_returned _ _ _ _ _ (find_next_block_eq s bm Hs))
  end.
  rewrite abind_get. clear Hs.
  destruct (process st);
    cbn [current_block_index set_process add_effect set_effects];
    match goal with
    | |- context [match current_block ?s with _ => _ end] =>
        destruct (current_block s)
    end; reflexivity.
Qed.

End Collision.

Section CollisionTheorem.

Import KeyHuntSmartGUI.

Lemma selection_case_effects bm st res :
  selection_case bm st res ->
  exists l, effects res = effects st ++ l.
Proof.
  intros [i _ _ _ _ | i _ _ _ | i _ _ _]; cbn; eauto.
  exists []. now rewrite app_nil_r.
Qed.

Lemma after_selection_facts (selected : gui) :
  process selected = None ->
  let after :=
    fst (match current_block selected with
         | Some _ => (add_effect SearchThread selected, Returned tt)
         | None => on_stop selected
         end) in
  process after = None /\
  scan_db after = scan_db selected /\
  current_block_index after = current_block_index selected /\
  exists l, effects after = effects selected ++ l.
Proof.
  intros Hp. cbv zeta. destruct (current_block selected).
  - cbn. repeat split; eauto.
  - rewrite on_stop_eq, Hp. cbn. repeat split.
    exists []. now rewrite app_nil_r.
Qed.

End CollisionTheorem.

(** What the handling of a collision does by itself.  When a pool scrape
    returns a block whose start and end both equal those of the block being
    searched (the session is running, and the sum of the key counts on
    record can be taken), the collision handler is queued and, run by the
    main loop, terminates the worker and drops its handle, leaves
    [my_scanned] untouched (the scraped blocks go to [pool_scanned] only),
    advances the block index by one and re-enters the selection loop from
    there. *)
Lemma collision_transition
  (st : KeyHuntSmartGUI.gui) (scanned_blocks : list (Z * Z))
  (current_start current_end : Z) (bm : BlockManager.t) (total : Z) :
  KeyHuntSmartGUI.current_block st = Some (current_start, current_end) ->
  KeyHuntSmartGUI.is_running st = true ->
  In (current_start, current_end) scanned_blocks ->
  KeyHuntSmartGUI.block_mgr st = Some bm ->
  ScanDatabase.sum_keys_checked 0
    (ScanDatabase.my_scanned (KeyHuntSmartGUI.scan_db st)) = Returned total ->
  let after :=
    KeyHuntSmartGUI.then_idle (KeyHuntSmartGUI.scrape_pool scanned_blocks) st in
  KeyHuntSmartGUI.queued st (KeyHuntSmartGUI.scrape_pool scanned_blocks st)
    = [KeyHuntSmartGUI.cb_handle_block_collision] /\
  KeyHuntSmartGUI.process after = None /\
  (forall pid,
     KeyHuntSmartGUI.process st = Some pid ->
     exists l,
       KeyHuntSmartGUI.effects after = KeyHuntSmartGUI.effects st ++ l /\
       In (KeyHuntSmartGUI.Terminate pid) l) /\
  ScanDatabase.my_scanned (KeyHuntSmartGUI.scan_db after)
    = ScanDatabase.my_scanned (KeyHuntSmartGUI.scan_db st) /\
  KeyHuntSmartGUI.scan_db after
    = fst (ScanDatabase.add_pool_blocks (KeyHuntSmartGUI.scan_db st)
             scanned_blocks) /\
  (exists entry,
     KeyHuntSmartGUI.current_block_index entry
       = KeyHuntSmartGUI.current_block_index st + 1 /\
     KeyHuntSmartGUI.keys_checked entry = 0 /\
     KeyHuntSmartGUI.process entry = None /\
     let selected :=
       KeyHuntSmartGUI.find_next_block_loop bm
         (Nat.pred KeyHuntSmartGUI.checks_per_batch) entry in
     after =
       fst (match KeyHuntSmartGUI.current_block selected with
            | Some _ =>
                (KeyHuntSmartGUI.add_effect KeyHuntSmartGUI.SearchThread selected,
                 Returned tt)
            | None => KeyHuntSmartGUI.on_stop selected
            end)) /\
  KeyHuntSmartGUI.current_block_index st + 1
    <= KeyHuntSmartGUI.current_block_index after.
Proof.
  intros Hb Hr Hin Hbm Hsum. cbv zeta.
  unfold KeyHuntSmartGUI.then_idle.
  rewrite (scrape_pool_on_collision st scanned_blocks _ _ _ Hb Hr Hin Hsum).
  set (db := fst (ScanDatabase.add_pool_blocks (KeyHuntSmartGUI.scan_db st)
                    scanned_blocks)).
  set (scraped := KeyHuntSmartGUI.add_effect
                    (KeyHuntSmartGUI.IdleAdd
                       KeyHuntSmartGUI.cb_handle_block_collision)
                    (KeyHuntSmartGUI.set_scan_db db st)).
  assert (Q : KeyHuntSmartGUI.queued st scraped
              = [KeyHuntSmartGUI.cb_handle_block_collision])
    by (now rewrite (queued_of_appended st scraped
                       [KeyHuntSmartGUI.IdleAdd
                          KeyHuntSmartGUI.cb_handle_block_collision])).
  rewrite Q. split; [reflexivity |].
  cbn [fold_left]. unfold KeyHuntSmartGUI.run_callback.
  rewrite (handle_block_collision_eq scraped bm Hbm). cbv zeta.
  set (entry := KeyHuntSmartGUI.set_keys_checked 0 _).
  set (selected := KeyHuntSmartGUI.find_next_block_loop bm _ entry).
  pose proof (find_next_block_loop_cases bm
                (Nat.pred KeyHuntSmartGUI.checks_per_batch) entry) as C.
  fold selected in C.
  pose proof (selection_case_facts _ _ _ C) as (S1 & S2 & _ & S4 & _).
  pose proof (selection_case_effects _ _ _ C) as (l1 & E1).
  assert (Pe : KeyHuntSmartGUI.process entry = None)
    by (subst entry scraped; now destruct (KeyHuntSmartGUI.process st)).
  assert (Ie : KeyHuntSmartGUI.current_block_index entry
               = KeyHuntSmartGUI.current_block_index st + 1)
    by (subst entry scraped; now destruct (KeyHuntSmartGUI.process st)).
  assert (De : KeyHuntSmartGUI.scan_db entry = db)
    by (subst entry scraped;
        cbn [KeyHuntSmartGUI.process KeyHuntSmartGUI.add_effect
             KeyHuntSmartGUI.set_effects KeyHuntSmartGUI.set_scan_db];
        destruct (KeyHuntSmartGUI.process st); reflexivity).
  rewrite Pe in S2.
  pose proof (after_selection_facts selected S2) as (A1 & A2 & A3 & l2 & E2).
  cbv zeta in A1, A2, A3, E2.
  split; [exact A1 |].
  split.
  { intros pid Hpid.
    exists ([KeyHuntSmartGUI.IdleAdd KeyHuntSmartGUI.cb_handle_block_collision;
             KeyHuntSmartGUI.Terminate pid] ++ l1 ++ l2).
    split; [| right; left; reflexivity].
    rewrite E2, E1. subst entry scraped.
    cbn [KeyHuntSmartGUI.process KeyHuntSmartGUI.add_effect
         KeyHuntSmartGUI.set_effects KeyHuntSmartGUI.set_scan_db].
    rewrite Hpid. cbn. now rewrite <- !app_assoc. }
  split; [rewrite A2, S1, De; apply add_pool_blocks_my_scanned |].
  split; [now rewrite A2, S1, De |].
  split; [exists entry; auto |].
  rewrite A3. lia.
Qed.

(** The collision scenario on the sample partition: block 2 is being
    searched, the pool claims it; the coordinator ends on block 3 with the
    worker terminated, the claim in [pool_scanned] and nothing in
    [my_scanned]. *)
Example collision_on_block_2 :
  let after :=
    KeyHuntSmartGUI.then_idle
      (KeyHuntSmartGUI.scrape_pool [(0x440, 0x47F); (0x480, 0x4BF)])
      searching_block_2 in
  KeyHuntSmartGUI.current_block_index after = 3 /\
  KeyHuntSmartGUI.current_block after = Some (0x4C0, 0x4FF) /\
  KeyHuntSmartGUI.process after = None /\
  KeyHuntSmartGUI.effects after =
    [KeyHuntSmartGUI.IdleAdd KeyHuntSmartGUI.cb_handle_block_collision;
     KeyHuntSmartGUI.Terminate 7; KeyHuntSmartGUI.SearchThread;
     KeyHuntSmartGUI.SearchThread] /\
  ScanDatabase.pool_scanned (KeyHuntSmartGUI.scan_db after) !! str "480"
    = Some (str "4BF") /\
  ScanDatabase.my_scanned (KeyHuntSmartGUI.scan_db after) !! str "480" = None.
Proof. vm_compute. repeat split. Qed.

Example puzzle_71_partition_is_built :
  BlockManager.init 0x400000000000000000 0x7FFFFFFFFFFFFFFFFF None
    = Returned puzzle_71_partition /\
  BlockManager.get_block puzzle_71_partition 3
    = (0x400000003000000000, 0x400000003FFFFFFFFF).
Proof. split; reflexivity. Qed.

(** C2 on the code.  Block 3 of puzzle 71 is being searched by worker 7
    and the exclusion "repeated-3" has been ticked in the meantime; the
    pool page shows the code "40X00000", whose first decoded block has the
    boundaries of block 3.  The collision handler terminates the worker
    and advances the index, but the selection loop passes over 100 blocks
    and hands control back without having selected one: [current_block]
    still is the collided block, and the handler starts a new search thread
    on it, which launches a worker on the collided block again.

    What follows depends on when the old search thread, which waits for the
    end of the output of worker 7, comes back.  When it comes back first,
    its epilogue finds no process, takes the exit code for -1 and stops the
    session: the new thread reads nothing, its worker is left running on the
    collided block, and no record is written.  When the new worker ends
    first, with ten lines read and exit code 0, the new thread queues the
    completion while the timer of the selection still passes over blocks,
    and the completion callback upserts the collided block in
    [my_scanned].

    The same record is written when the search thread queues the
    completion of the block while the scrape, which runs on the main loop,
    is still fetching the page (sample partition, block 2): the scrape finds
    the block current and the session running and queues the collision
    handler behind the completion.  The completion callback runs first,
    records the block and selects block 3; the collision handler runs next
    and advances the index a second time, past block 3, which is in neither
    table: the session stops at index 4 with no current block, and the
    thread that the selection started for block 3 finds no block to
    search when it runs after the handler. *)
Theorem collision_handling_can_record_the_collided_block :
  let collided := (0x400000003000000000, 0x400000003FFFFFFFFF) in
  let scanned_blocks := PoolScraper.expand_codes [str "40X00000"] [] in
  let st := searching_block_3_of_puzzle_71 in
  let after :=
    KeyHuntSmartGUI.then_idle (KeyHuntSmartGUI.scrape_pool scanned_blocks) st in
  (KeyHuntSmartGUI.current_block st = Some collided /\
   KeyHuntSmartGUI.is_running st = true /\
   KeyHuntSmartGUI.process st = Some 7%nat /\
   nth 0 scanned_blocks (0, 0) = collided) /\
  (KeyHuntSmartGUI.current_block_index after = 104 /\
   KeyHuntSmartGUI.current_block after = Some collided /\
   KeyHuntSmartGUI.process after = None /\
   KeyHuntSmartGUI.is_running after = true /\
   KeyHuntSmartGUI.effects after =
     [KeyHuntSmartGUI.IdleAdd KeyHuntSmartGUI.cb_handle_block_collision;
      KeyHuntSmartGUI.Terminate 7;
      KeyHuntSmartGUI.TimeoutAdd 10 KeyHuntSmartGUI.cb_find_next_block;
      KeyHuntSmartGUI.SearchThread] /\
   ScanDatabase.my_scanned (KeyHuntSmartGUI.scan_db after)
     !! Py.hex_text (fst collided) = None) /\
  (forall waited : KeyHuntSmartGUI.wait_result,
     let old_thread :=
       KeyHuntSmartGUI.run_block_search_epilogue (12, false) waited after in
     let new_thread :=
       KeyHuntSmartGUI.run_block_search unattended_worker (fst old_thread) in
     snd old_thread = KeyHuntSmartGUI.Stopped /\
     KeyHuntSmartGUI.is_running (fst old_thread) = false /\
     snd new_thread = KeyHuntSmartGUI.Excepted Py.NameError /\
     launched (KeyHuntSmartGUI.effects (fst new_thread))
       = [(str "400000003000000000:400000003fffffffff", 8%nat)] /\
     KeyHuntSmartGUI.process (fst new_thread) = Some 8%nat /\
     existsb is_terminate
       (skipn (List.length (KeyHuntSmartGUI.effects after))
          (KeyHuntSmartGUI.effects (fst new_thread))) = false /\
     KeyHuntSmartGUI.queued after (fst new_thread) = [] /\
     ScanDatabase.my_scanned (KeyHuntSmartGUI.scan_db (fst new_thread))
       !! Py.hex_text (fst collided) = None) /\
  (forall waited : KeyHuntSmartGUI.wait_result,
     Forall
       (fun rounds =>
          let new_thread :=
            KeyHuntSmartGUI.run_block_search run_reporting_32_keys after in
          let served :=
            Nat.iter rounds
              (KeyHuntSmartGUI.run_callback KeyHuntSmartGUI.cb_find_next_block)
              (fst new_thread) in
          let completed :=
            KeyHuntSmartGUI.run_callback KeyHuntSmartGUI.cb_on_block_completed
              served in
          let old_thread :=
            KeyHuntSmartGUI.run_block_search_epilogue (12, false) waited
              completed in
          snd new_thread = KeyHuntSmartGUI.CompletionQueued /\
          launched (KeyHuntSmartGUI.effects (fst new_thread))
            = [(str "400000003000000000:400000003fffffffff", 8%nat)] /\
          KeyHuntSmartGUI.queued after (fst new_thread)
            = [KeyHuntSmartGUI.cb_on_block_completed] /\
          KeyHuntSmartGUI.current_block_index served
            = 104 + 100 * Z.of_nat rounds /\
          KeyHuntSmartGUI.current_block served = Some collided /\
          ScanDatabase.my_scanned (KeyHuntSmartGUI.scan_db completed)
            !! Py.hex_text (fst collided)
            = Some (Py.hex_text (snd collided), 32) /\
          snd old_thread = KeyHuntSmartGUI.Stopped /\
          ScanDatabase.my_scanned (KeyHuntSmartGUI.scan_db (fst old_thread))
            !! Py.hex_text (fst collided)
            = Some (Py.hex_text (snd collided), 32))
       [0; 1; 2; 3]%nat) /\
  (let st := searching_block_2 in
   let finished :=
     KeyHuntSmartGUI.run_block_search run_reporting_32_keys st in
   let scraped :=
     KeyHuntSmartGUI.scrape_pool [(0x480, 0x4BF)] (fst finished) in
   let final :=
     KeyHuntSmartGUI.then_idle
       (fun s =>
          KeyHuntSmartGUI.scrape_pool [(0x480, 0x4BF)]
            (fst (KeyHuntSmartGUI.run_block_search run_reporting_32_keys s)))
       st in
   KeyHuntSmartGUI.current_block st = Some (0x480, 0x4BF) /\
   KeyHuntSmartGUI.current_block_index st = 2 /\
   snd finished = KeyHuntSmartGUI.CompletionQueued /\
   KeyHuntSmartGUI.current_block (fst finished) = Some (0x480, 0x4BF) /\
   KeyHuntSmartGUI.is_running (fst finished) = true /\
   KeyHuntSmartGUI.queued st scraped
     = [KeyHuntSmartGUI.cb_on_block_completed;
        KeyHuntSmartGUI.cb_handle_block_collision] /\
   ScanDatabase.pool_scanned (KeyHuntSmartGUI.scan_db final) !! str "480"
     = Some (str "4BF") /\
   ScanDatabase.my_scanned (KeyHuntSmartGUI.scan_db final) !! str "480"
     = Some (str "4BF", 32) /\
   KeyHuntSmartGUI.current_block_index final = 4 /\
   KeyHuntSmartGUI.current_block final = None /\
   KeyHuntSmartGUI.is_running final = false /\
   ScanDatabase.is_block_scanned (KeyHuntSmartGUI.scan_db final) 0x4C0 0x4FF
     = (false, None) /\
   launched (KeyHuntSmartGUI.effects final) = [(str "480:4bf", 8%nat)] /\
   KeyHuntSmartGUI.run_block_search unattended_worker final
     = (final, KeyHuntSmartGUI.NoBlock)).
Proof.
  intros collided scanned_blocks st after.
  split; [vm_compute; repeat split |].
  split; [vm_compute; repeat split |].
  split; [intros [returncode |]; vm_compute; repeat split |].
  split; [| vm_compute; repeat split].
  intros [returncode |];
    repeat (apply List.Forall_cons; [vm_compute; repeat split |]);
    apply List.Forall_nil.
Qed.

(** * Further properties *)

(** ** The text of a number *)

Section HexRendering.

Lemma uint_text_digits d : forallb PoolScraper.is_code_digit (uint_text d) = true.
Proof. induction d; cbn; auto. Qed.

Lemma uint_text_acc d : forall acc : positive,
  fold_left (fun a c => 16 * a + default 0 (Py.hex_digit_value c)) (uint_text d)
    (Z.pos acc) = Z.pos (Pos.of_hex_uint_acc d acc).
Proof.
  induction d; intros acc; cbn [uint_text]; try reflexivity;
    unfold uint_text; cbn [NilEmpty.string_of_uint str list_ascii_of_string map fold_left];
    fold (uint_text d); cbn [Pos.of_hex_uint_acc]; rewrite <- IHd; f_equal.
Qed.

Lemma uint_text_value d :
  hex_value (uint_text d) = Z.of_N (Pos.of_hex_uint d).
Proof.
  unfold hex_value.
  induction d; try reflexivity;
    unfold uint_text; cbn [NilEmpty.string_of_uint str list_ascii_of_string map fold_left];
    fold (uint_text d); cbn [Pos.of_hex_uint];
    try exact IHd;
    apply (uint_text_acc d 1) || apply (uint_text_acc d _).
Qed.

Lemma to_hex_uint_not_nil m : N.to_hex_uint m <> Hexadecimal.Nil.
Proof.
  destruct m as [|p]; [discriminate|].
  apply HexadecimalPos.Unsigned.to_uint_nonnil.
Qed.

Lemma hex_text_nonneg n :
  0 <= n -> Py.hex_text n = uint_text (N.to_hex_uint (Z.to_N n)).
Proof.
  intros H. unfold Py.hex_text, Py.hex_tail, uint_text.
  destruct (Z.ltb_spec n 0); [lia|].
  f_equal. f_equal. unfold NilZero.string_of_uint.
  pose proof (to_hex_uint_not_nil (Z.to_N n)) as Hn.
  destruct (N.to_hex_uint (Z.to_N n)); congruence.
Qed.

Lemma hex_text_negative n :
  n < 0 -> Py.hex_text n = "X"%char :: Py.hex_text (- n).
Proof.
  intros H. unfold Py.hex_text, Py.hex_tail.
  destruct (Z.ltb_spec n 0); [|lia].
  destruct (Z.ltb_spec (- n) 0); [lia|]. reflexivity.
Qed.

Lemma hex_text_digits n :
  0 <= n -> forallb PoolScraper.is_code_digit (Py.hex_text n) = true.
Proof. intros H. rewrite hex_text_nonneg by exact H. apply uint_text_digits. Qed.

Lemma hex_text_not_empty n : Py.hex_text n <> [].
Proof.
  destruct (Z.lt_ge_cases n 0) as [H|H].
  - rewrite hex_text_negative by exact H. discriminate.
  - rewrite hex_text_nonneg by exact H.
    pose proof (to_hex_uint_not_nil (Z.to_N n)) as Hn.
    destruct (N.to_hex_uint (Z.to_N n)); try congruence; discriminate.
Qed.

Lemma hex_text_value n : 0 <= n -> hex_value (Py.hex_text n) = n.
Proof.
  intros H. rewrite hex_text_nonneg by exact H. rewrite uint_text_value.
  change (Pos.of_hex_uint ?d) with (N.of_hex_uint d).
  rewrite HexadecimalN.Unsigned.of_to. lia.
Qed.

Lemma int16_hex_text n : 0 <= n -> Py.int16 (Py.hex_text n) = Returned n.
Proof.
  intros H. rewrite int16_hex.
  - now rewrite hex_text_value.
  - apply hex_text_not_empty.
  - apply code_digits_are_hex, hex_text_digits, H.
Qed.

Lemma hex_text_inj a b : Py.hex_text a = Py.hex_text b -> a = b.
Proof.
  assert (Hx : forall n, 0 <= n -> forall r, Py.hex_text n <> "X"%char :: r).
  { intros n Hn r E. pose proof (hex_text_digits n Hn) as D.
    rewrite E in D. discriminate D. }
  intros E.
  destruct (Z.lt_ge_cases a 0) as [Ha|Ha], (Z.lt_ge_cases b 0) as [Hb|Hb].
  - rewrite (hex_text_negative a Ha), (hex_text_negative b Hb) in E.
    injection E as E. apply (f_equal hex_value) in E.
    rewrite !hex_text_value in E by lia. lia.
  - rewrite (hex_text_negative a Ha) in E. symmetry in E. now apply Hx in E.
  - rewrite (hex_text_negative b Hb) in E. now apply Hx in E.
  - apply (f_equal hex_value) in E. now rewrite !hex_text_value in E by lia.
Qed.

Lemma uint_text_revapp d : forall d',
  uint_text (Hexadecimal.revapp d d') = List.rev (uint_text d) ++ uint_text d'.
Proof.
  induction d; intros d'; try reflexivity;
    cbn [Hexadecimal.revapp]; rewrite IHd;
    unfold uint_text at 2 3;
    cbn [NilEmpty.string_of_uint str list_ascii_of_string map List.rev];
    fold (uint_text d); fold (uint_text d');
    rewrite <- app_assoc; reflexivity.
Qed.

Lemma uint_text_app d d' :
  uint_text (Hexadecimal.app d d') = uint_text d ++ uint_text d'.
Proof.
  unfold Hexadecimal.app, Hexadecimal.rev. rewrite !uint_text_revapp.
  cbn [uint_text]. change (uint_text Hexadecimal.Nil) with (@nil ascii).
  now rewrite app_nil_r, rev_involutive.
Qed.

(** Every digit is the text of a number of one digit. *)
Lemma code_digit_uint c :
  PoolScraper.is_code_digit c = true ->
  exists u, uint_text u = [c] /\ Z.of_N (Pos.of_hex_uint u) = digit c.
Proof.
  intros H.
  assert (E : In c PoolScraper.hex_alphabet).
  { destruct c as [[] [] [] [] [] [] [] []]; try discriminate H; cbn; tauto. }
  exists (N.to_hex_uint (Z.to_N (digit c))). cbn in E.
  repeat (destruct E as [<-|E]; [split; reflexivity|]). destruct E.
Qed.

Lemma unorm_fixed_head d :
  Hexadecimal.unorm d = d -> d <> Hexadecimal.zero ->
  exists h t, HexadecimalFacts.to_list d = h :: t /\ h <> HexadecimalFacts.d0.
Proof.
  intros U Z.
  destruct d;
    try (eexists _, _; split; [reflexivity|discriminate]).
  - discriminate U.
  - exfalso. unfold Hexadecimal.unorm in U. cbn [Hexadecimal.nzhead] in U.
    destruct (Hexadecimal.nzhead d) eqn:E; try discriminate U.
    + now apply Z.
    + now apply HexadecimalFacts.nzhead_nonzero in E.
Qed.

Lemma unorm_app_fixed d d' :
  Hexadecimal.unorm d = d -> d <> Hexadecimal.zero ->
  Hexadecimal.unorm (Hexadecimal.app d d') = Hexadecimal.app d d'.
Proof.
  intros U Z. destruct (unorm_fixed_head d U Z) as (h & t & E & Hh).
  apply HexadecimalFacts.to_list_inj.
  rewrite HexadecimalFacts.unorm_spec, HexadecimalFacts.app_spec, E.
  unfold HexadecimalFacts.lunorm. cbn [List.app].
  now rewrite HexadecimalFacts.lnzhead_head_nd0.
Qed.

Lemma to_hex_uint_normal m :
  Hexadecimal.unorm (N.to_hex_uint m) = N.to_hex_uint m.
Proof.
  rewrite <- (HexadecimalN.Unsigned.of_to m) at 2.
  now rewrite HexadecimalN.Unsigned.to_of.
Qed.

(** The last digit of the text of a number. *)
Lemma hex_text_snoc q c :
  1 <= q -> PoolScraper.is_code_digit c = true ->
  Py.hex_text (16 * q + digit c) = Py.hex_text q ++ [c].
Proof.
  intros Hq Hc.
  destruct (code_digit_uint c Hc) as (u & Eu & Vu).
  assert (Hd : 0 <= digit c) by (rewrite <- Vu; lia).
  rewrite !hex_text_nonneg by lia.
  set (dq := N.to_hex_uint (Z.to_N q)).
  assert (V : Z.of_N (N.of_hex_uint (Hexadecimal.app dq u)) = 16 * q + digit c).
  { change (N.of_hex_uint ?d) with (Pos.of_hex_uint d).
    rewrite <- uint_text_value, uint_text_app, Eu, hex_value_app, uint_text_value.
    subst dq. change (Pos.of_hex_uint ?d) with (N.of_hex_uint d).
    rewrite HexadecimalN.Unsigned.of_to.
    unfold hex_value at 1. cbn [fold_left List.length]. unfold digit. lia. }
  rewrite <- V, N2Z.id, HexadecimalN.Unsigned.to_of.
  rewrite unorm_app_fixed.
  - now rewrite uint_text_app, Eu.
  - apply to_hex_uint_normal.
  - subst dq. change Hexadecimal.zero with (N.to_hex_uint 0).
    intros E. apply HexadecimalN.Unsigned.to_uint_inj in E. lia.
Qed.

Lemma hex_text_small c :
  PoolScraper.is_code_digit c = true -> Py.hex_text (digit c) = [c].
Proof.
  intros H.
  assert (E : In c PoolScraper.hex_alphabet).
  { destruct c as [[] [] [] [] [] [] [] []]; try discriminate H; cbn; tauto. }
  cbn in E. repeat (destruct E as [<-|E]; [reflexivity|]). destruct E.
Qed.

End HexRendering.

Section TextsOfNumbers.

Import Py.

Lemma strip_with_plain (p : ascii -> bool) s :
  forallb (fun c => negb (p c)) s = true -> strip_with p s = s.
Proof.
  intros H. unfold strip_with.
  assert (D : forall t, forallb (fun c => negb (p c)) t = true -> dropwhile p t = t).
  { intros [|c r] Ht; [reflexivity|]. cbn in Ht. apply andb_prop in Ht as [Hc _].
    cbn. now destruct (p c). }
  rewrite (D s H), D, rev_involutive; [reflexivity|].
  rewrite forallb_forall in *. intros c Hc. apply H. now apply in_rev.
Qed.

Lemma hex_not_space c : is_hex c = true -> isspace c = false.
Proof. destruct c as [[] [] [] [] [] [] [] []]; now cbn. Qed.

Lemma strip_hex_text s : forallb is_hex s = true -> strip s = s.
Proof.
  intros H. apply strip_with_plain. rewrite forallb_forall in *.
  intros c Hc. now rewrite hex_not_space by auto.
Qed.

Lemma format_X_nonneg n : 0 <= n -> format_X n = hex_text n.
Proof.
  intros H. unfold format_X, hex_text, hex_tail.
  now destruct (Z.ltb_spec n 0); [lia|].
Qed.

Lemma hex_text_is_hex n : 0 <= n -> forallb is_hex (hex_text n) = true.
Proof. intros H. now apply code_digits_are_hex, hex_text_digits. Qed.

(** A text of digits after the prefix [0x]. *)
Lemma int16_0x_hex s :
  s <> [] -> forallb is_hex s = true ->
  int16 (str "0x" ++ s) = Returned (hex_value s).
Proof.
  intros Hs H.
  assert (H0 : forallb (fun c => negb (int_blank c)) (str "0x" ++ s) = true).
  { change (forallb (fun c => negb (int_blank c)) s = true).
    apply forallb_forall. intros c Hc. rewrite forallb_forall in H.
    now rewrite (proj1 (hex_char_plain c (H c Hc))). }
  unfold int16. rewrite (strip_with_plain _ _ H0).
  destruct s as [|c r]; [congruence|].
  cbn in H. apply andb_prop in H as [Hc Hr].
  destruct (hex_char_plain c Hc) as (_ & _ & _ & Hu & _).
  cbn [str list_ascii_of_string List.app Ascii.eqb Bool.eqb andb orb].
  rewrite Hu. cbv beta iota. rewrite Hu.
  rewrite hex_digits_fold by (cbn; now rewrite Hc).
  reflexivity.
Qed.

(** The text [hex(n)[2:].upper()] of a negative number starts with the
    [X] of its prefix, which [int(_, 16)] does not take. *)
Lemma int16_hex_text_negative n : n < 0 -> int16 (hex_text n) = Raised ValueError.
Proof.
  intros H. rewrite hex_text_negative by exact H.
  pose proof (hex_text_is_hex (- n) ltac:(lia)) as Hh.
  assert (H0 : forallb (fun c => negb (int_blank c)) ("X"%char :: hex_text (- n)) = true).
  { change (forallb (fun c => negb (int_blank c)) (hex_text (- n)) = true).
    apply forallb_forall. intros c Hc. rewrite forallb_forall in Hh.
    now rewrite (proj1 (hex_char_plain c (Hh c Hc))). }
  unfold int16. rewrite (strip_with_plain _ _ H0).
  destruct (hex_text (- n)); reflexivity.
Qed.

End TextsOfNumbers.

(** X1.  The text under which the ledger stores a boundary,
    [hex(n)[2:].upper()], is read back by [int(_, 16)] as the same number
    when the boundary is not negative, and is rejected with [ValueError]
    when it is: the text of a negative number keeps the [X] of the prefix
    [-0x]. *)
Theorem ledger_text_round_trip (n : Z) :
  Py.int16 (Py.hex_text n) =
    if n <? 0 then Raised Py.ValueError else Returned n.
Proof.
  destruct (Z.ltb_spec n 0) as [H|H].
  - now apply int16_hex_text_negative.
  - now apply int16_hex_text.
Qed.

(** ** The block of a key *)

Lemma div_between a d q : 0 < d -> q * d <= a < (q + 1) * d -> a / d = q.
Proof.
  intros Hd H. symmetry. apply (Z.div_unique a d q (a - q * d)); lia.
Qed.

(** X2.  [get_block_from_key] is the inverse of [get_block] on the keys of
    the master range: a key of the range belongs to exactly one block of the
    partition, whose index is the one returned; the result is [None]
    exactly for the keys outside the range. *)
Theorem get_block_from_key_inverts_get_block
  (master_start master_end size : Z) (bm : BlockManager.t) (key i : Z) :
  1 <= size ->
  BlockManager.init master_start master_end (Some size) = Returned bm ->
  (BlockManager.get_block_from_key bm key = Some i <->
   0 <= i < BlockManager.total_blocks bm /\
   fst (BlockManager.get_block bm i) <= key <= snd (BlockManager.get_block bm i)) /\
  (BlockManager.get_block_from_key bm key = None <->
   key < master_start \/ master_end < key).
Proof.
  intros Hsize Hinit. unfold BlockManager.init in Hinit.
  destruct (Z.eqb_spec size 0) as [?|_]; [lia|].
  injection Hinit as <-.
  unfold BlockManager.get_block_from_key, BlockManager.get_block.
  cbn [BlockManager.range_start BlockManager.range_end BlockManager.block_size
       BlockManager.total_blocks fst snd].
  pose proof (Z.div_mod (key - master_start) size ltac:(lia)) as Hk.
  pose proof (Z.mod_pos_bound (key - master_start) size ltac:(lia)) as Hr.
  pose proof (Z.div_mod (master_end - master_start) size ltac:(lia)) as He.
  pose proof (Z.mod_pos_bound (master_end - master_start) size ltac:(lia)) as Hs.
  destruct (Z.ltb_spec key master_start) as [H1|H1];
    [|destruct (Z.ltb_spec master_end key) as [H2|H2]]; cbn [orb].
  - split; split; try discriminate; try tauto.
    intros [Hi [Hlo _]]. exfalso.
    assert (0 <= i * size) by (apply Z.mul_nonneg_nonneg; lia). lia.
  - split; split; try discriminate; try tauto.
    intros [Hi [_ Hhi]]. exfalso. lia.
  - split; split; try discriminate; try lia.
    + intros [= <-].
      assert (Hq : 0 <= (key - master_start) / size) by (apply Z.div_pos; lia).
      assert (Hle : (key - master_start) / size <= (master_end - master_start) / size)
        by (apply Z.div_le_mono; lia).
      split; [lia|]. split; [lia|].
      apply Z.min_glb; lia.
    + intros [Hi [Hlo Hhi]]. f_equal.
      apply div_between; [lia|].
      pose proof (Z.le_min_l (master_start + i * size + size - 1) master_end).
      lia.
Qed.

Lemma get_block_from_key_inverts_get_block_witness :
  (BlockManager.get_block_from_key sample_partition 0x4A0 = Some 2 <->
   0 <= 2 < BlockManager.total_blocks sample_partition /\
   fst (BlockManager.get_block sample_partition 2) <= 0x4A0
     <= snd (BlockManager.get_block sample_partition 2)) /\
  (BlockManager.get_block_from_key sample_partition 0x4A0 = None <->
   0x4A0 < 0x400 \/ 0x4FF < 0x4A0).
Proof.
  apply (get_block_from_key_inverts_get_block 0x400 0x4FF 0x40);
    [lia | reflexivity].
Defined.

(** ** The rows of [my_scanned] *)

Section MyRows.

Import ScanDatabase.

Implicit Types rows : my_rows.

Lemma my_rows_lookup_cons rows k row :
  ((k, row) :: rows : my_rows) !! k = Some row.
Proof.
  unfold lookup, my_rows_lookup. cbn [find]. unfold has_start at 1.
  cbn [fst]. now rewrite bool_decide_eq_true_2.
Qed.

Lemma my_rows_lookup_cons_ne rows k k' row :
  k <> k' -> ((k, row) :: rows : my_rows) !! k' = rows !! k'.
Proof.
  intros Hne. unfold lookup, my_rows_lookup. cbn [find]. unfold has_start at 1.
  cbn [fst]. now rewrite bool_decide_eq_false_2.
Qed.

Lemma my_rows_lookup_app rows rows' k :
  (rows ++ rows' : my_rows) !! k =
    match rows !! k with
    | Some row => Some row
    | None => rows' !! k
    end.
Proof.
  induction rows as [|[k0 row0] rows IH]; [reflexivity |].
  change (((k0, row0) :: rows) ++ rows') with ((k0, row0) :: (rows ++ rows')).
  destruct (decide (k0 = k)) as [-> | Hne].
  - now rewrite !my_rows_lookup_cons.
  - now rewrite !my_rows_lookup_cons_ne by exact Hne.
Qed.

Lemma my_rows_lookup_delete_eq rows k : delete k rows !! k = None.
Proof.
  unfold delete, my_rows_delete.
  induction rows as [|[k0 row0] rows IH]; [reflexivity |].
  cbn [List.filter]. unfold has_start at 1. cbn [fst].
  case_bool_decide as Hk; cbn [negb]; [exact IH |].
  now rewrite my_rows_lookup_cons_ne.
Qed.

Lemma my_rows_lookup_delete_ne rows k k' :
  k <> k' -> delete k rows !! k' = rows !! k'.
Proof.
  intros Hne. unfold delete, my_rows_delete.
  induction rows as [|[k0 row0] rows IH]; [reflexivity |].
  cbn [List.filter]. unfold has_start at 1. cbn [fst].
  case_bool_decide as Hk; cbn [negb].
  - subst k0. now rewrite my_rows_lookup_cons_ne.
  - destruct (decide (k0 = k')) as [-> | Hne'].
    + now rewrite !my_rows_lookup_cons.
    + now rewrite !my_rows_lookup_cons_ne.
Qed.

Lemma my_rows_insert_eq rows k row :
  <[k := row]> rows = delete k rows ++ [(k, row)].
Proof. reflexivity. Qed.

Lemma my_rows_lookup_insert_eq rows k row : <[k := row]> rows !! k = Some row.
Proof.
  rewrite my_rows_insert_eq, my_rows_lookup_app, my_rows_lookup_delete_eq.
  apply my_rows_lookup_cons.
Qed.

Lemma my_rows_lookup_insert_ne rows k k' row :
  k <> k' -> <[k := row]> rows !! k' = rows !! k'.
Proof.
  intros Hne.
  rewrite my_rows_insert_eq, my_rows_lookup_app, my_rows_lookup_delete_ne
    by exact Hne.
  destruct (rows !! k'); [reflexivity |].
  now rewrite my_rows_lookup_cons_ne.
Qed.

(** Deleting a start that is not on record changes nothing. *)
Lemma my_rows_delete_absent rows k : rows !! k = None -> delete k rows = rows.
Proof.
  unfold delete, my_rows_delete.
  induction rows as [|[k0 row0] rows IH]; [reflexivity |].
  intros H. cbn [List.filter]. unfold has_start at 1. cbn [fst].
  case_bool_decide as Hk; cbn [negb].
  - subst k0. now rewrite my_rows_lookup_cons in H.
  - rewrite my_rows_lookup_cons_ne in H by exact Hk. now rewrite IH.
Qed.

Lemma my_rows_delete_app rows rows' k :
  delete k (rows ++ rows' : my_rows) = delete k rows ++ delete k rows'.
Proof. apply List.filter_app. Qed.

Lemma my_rows_delete_delete rows k : delete k (delete k rows) = delete k rows.
Proof. apply my_rows_delete_absent, my_rows_lookup_delete_eq. Qed.

(** A row that was inserted on a start with no record is removed again by
    deleting that start. *)
Lemma my_rows_delete_insert_id rows k row :
  rows !! k = None -> delete k (<[k := row]> rows) = rows.
Proof.
  intros H.
  rewrite my_rows_insert_eq, my_rows_delete_app, my_rows_delete_delete.
  rewrite (my_rows_delete_absent rows k H).
  unfold delete at 1, my_rows_delete. cbn [List.filter]. unfold has_start.
  cbn [fst]. rewrite bool_decide_eq_true_2 by reflexivity. cbn [negb].
  apply app_nil_r.
Qed.

End MyRows.

(** ** The ledger *)

Section Ledger.

Import ScanDatabase.

Let step : t * (Z * Z) -> Z * Z -> t * (Z * Z) :=
  fun '(db, (added_count, duplicate_count)) '(block_start, block_end) =>
    let block_start_hex := Py.hex_text block_start in
    let block_end_hex := Py.hex_text block_end in
    let exists_ := bool_decide (is_Some (pool_scanned db !! block_start_hex)) in
    (mk (<[block_start_hex := block_end_hex]> (pool_scanned db)) (my_scanned db),
     if exists_ then (added_count, duplicate_count + 1)
     else (added_count + 1, duplicate_count)).

Lemma add_pool_blocks_fold db blocks :
  add_pool_blocks db blocks = fold_left step blocks (db, (0, 0)).
Proof. reflexivity. Qed.

Lemma step_eq db a d s e :
  step (db, (a, d)) (s, e) =
    (mk (<[Py.hex_text s := Py.hex_text e]> (pool_scanned db)) (my_scanned db),
     if bool_decide (is_Some (pool_scanned db !! Py.hex_text s))
     then (a, d + 1) else (a + 1, d)).
Proof. reflexivity. Qed.

Lemma pool_fold_facts blocks : forall db a d,
  let r := fold_left step blocks (db, (a, d)) in
  pool_scanned (fst r) = rows_written blocks (pool_scanned db) /\
  my_scanned (fst r) = my_scanned db /\
  fst (snd r) + snd (snd r) = a + d + Z.of_nat (List.length blocks) /\
  a <= fst (snd r) /\ d <= snd (snd r) /\
  Z.of_nat (size (pool_scanned (fst r))) =
    Z.of_nat (size (pool_scanned db)) + (fst (snd r) - a).
Proof.
  induction blocks as [|[s e] l IH]; intros db a d.
  - cbn. repeat split; lia.
  - cbn [fold_left List.length]. cbv zeta. rewrite step_eq.
    case_bool_decide as Hk.
    + specialize (IH (mk (<[Py.hex_text s := Py.hex_text e]> (pool_scanned db))
                         (my_scanned db)) a (d + 1)).
      cbv zeta in IH |- *. cbn [pool_scanned my_scanned] in IH.
      destruct IH as (E1 & E2 & E3 & E4 & E5 & E6).
      rewrite map_size_insert_Some in E6 by exact Hk.
      repeat split; try assumption; try lia.
    + specialize (IH (mk (<[Py.hex_text s := Py.hex_text e]> (pool_scanned db))
                         (my_scanned db)) (a + 1) d).
      cbv zeta in IH |- *. cbn [pool_scanned my_scanned] in IH.
      destruct IH as (E1 & E2 & E3 & E4 & E5 & E6).
      rewrite map_size_insert_None in E6
        by (destruct (pool_scanned db !! Py.hex_text s) eqn:E;
            [exfalso; apply Hk; eauto | reflexivity]).
      repeat split; try assumption; try lia.
Qed.

Lemma rows_written_app l1 l2 rows :
  rows_written (l1 ++ l2) rows = rows_written l2 (rows_written l1 rows).
Proof. apply fold_left_app. Qed.

(** Blocks with another start leave a row alone. *)
Lemma add_pool_blocks_facts db blocks :
  let r := add_pool_blocks db blocks in
  pool_scanned (fst r) = rows_written blocks (pool_scanned db) /\
  my_scanned (fst r) = my_scanned db /\
  fst (snd r) + snd (snd r) = Z.of_nat (List.length blocks) /\
  0 <= fst (snd r) /\ 0 <= snd (snd r) /\
  Z.of_nat (size (pool_scanned (fst r))) =
    Z.of_nat (size (pool_scanned db)) + fst (snd r).
Proof.
  pose proof (pool_fold_facts blocks db 0 0) as H. cbv zeta in H |- *.
  rewrite add_pool_blocks_fold.
  destruct H as (E1 & E2 & E3 & E4 & E5 & E6). repeat split; try assumption; lia.
Qed.

Lemma rows_written_other blocks : forall rows k,
  (forall b, In b blocks -> Py.hex_text (fst b) <> k) ->
  rows_written blocks rows !! k = rows !! k.
Proof.
  induction blocks as [|b l IH]; intros rows k H; [reflexivity|].
  cbn [rows_written fold_left]. change (fold_left _ l ?m) with (rows_written l m).
  rewrite IH by (intros; apply H; now right).
  apply lookup_insert_ne, H. now left.
Qed.

(** What a row holds depends on the earlier rows only where no block of
    the list starts. *)
Lemma rows_written_lookup blocks :
  exists last : pystr -> option pystr,
    (forall rows k,
       rows_written blocks rows !! k =
         match last k with
         | Some block_end_hex => Some block_end_hex
         | None => rows !! k
         end) /\
    (forall b, In b blocks -> is_Some (last (Py.hex_text (fst b)))).
Proof.
  induction blocks as [|b l (last & IH & Hin)].
  - exists (fun _ => None). split; [reflexivity|]. intros b [].
  - exists (fun k => match last k with
                     | Some x => Some x
                     | None => if decide (Py.hex_text (fst b) = k)
                               then Some (Py.hex_text (snd b)) else None
                     end).
    split.
    + intros rows k. cbn [rows_written fold_left]. change (fold_left _ l ?m) with (rows_written l m).
      rewrite IH. destruct (last k); [reflexivity|].
      rewrite lookup_insert. now destruct (decide (Py.hex_text (fst b) = k)).
    + intros b' [<-|Hb'].
      * destruct (last (Py.hex_text (fst b))); [eauto|].
        rewrite decide_True by reflexivity. eauto.
      * destruct (Hin b' Hb') as [x ->]. eauto.
Qed.

Lemma rows_written_twice blocks rows :
  rows_written blocks (rows_written blocks rows) = rows_written blocks rows.
Proof.
  destruct (rows_written_lookup blocks) as (last & H & _).
  apply map_eq. intros k. rewrite !H. now destruct (last k).
Qed.

Lemma rows_written_present blocks rows b :
  In b blocks -> is_Some (rows_written blocks rows !! Py.hex_text (fst b)).
Proof.
  intros Hb. destruct (rows_written_lookup blocks) as (last & H & Hin).
  rewrite H. destruct (Hin b Hb) as [x ->]. eauto.
Qed.

(** Blocks whose starts are all in the table count as duplicates. *)
Lemma pool_fold_duplicates blocks : forall db a d,
  (forall b, In b blocks -> is_Some (pool_scanned db !! Py.hex_text (fst b))) ->
  snd (fold_left step blocks (db, (a, d))) = (a, d + Z.of_nat (List.length blocks)).
Proof.
  induction blocks as [|[s e] l IH]; intros db a d H.
  - cbn. f_equal. lia.
  - cbn [fold_left List.length]. rewrite step_eq.
    rewrite bool_decide_eq_true_2 by (apply (H (s, e)); now left).
    rewrite IH.
    + f_equal. lia.
    + intros b Hb. cbn [pool_scanned]. apply lookup_insert_is_Some'.
      right. apply H. now right.
Qed.

Lemma add_pool_blocks_duplicates db blocks :
  (forall b, In b blocks -> is_Some (pool_scanned db !! Py.hex_text (fst b))) ->
  snd (add_pool_blocks db blocks) = (0, Z.of_nat (List.length blocks)).
Proof.
  intros H. rewrite add_pool_blocks_fold, pool_fold_duplicates by exact H.
  reflexivity.
Qed.

Lemma rows_written_distinct blocks : forall rows b,
  List.NoDup (map fst blocks) -> In b blocks ->
  rows_written blocks rows !! Py.hex_text (fst b) = Some (Py.hex_text (snd b)).
Proof.
  induction blocks as [|c l IH]; intros rows b Hnd Hb; [destruct Hb|].
  cbn [map] in Hnd. apply List.NoDup_cons_iff in Hnd as [Hc Hnd].
  cbn [rows_written fold_left]. change (fold_left _ l ?m) with (rows_written l m).
  destruct Hb as [<-|Hb].
  - rewrite rows_written_other; [apply lookup_insert_eq|].
    intros b Hb E. apply hex_text_inj in E. apply Hc.
    rewrite <- E. now apply in_map.
  - now apply IH.
Qed.

(** Blocks that agree on their end whenever they agree on their start
    are all found in the rows written. *)
Lemma rows_written_functional blocks : forall rows b,
  (forall b1 b2, In b1 blocks -> In b2 blocks -> fst b1 = fst b2 -> snd b1 = snd b2) ->
  In b blocks ->
  rows_written blocks rows !! Py.hex_text (fst b) = Some (Py.hex_text (snd b)).
Proof.
  induction blocks as [|c l IH] using rev_ind; intros rows b Hf Hb; [destruct Hb|].
  rewrite rows_written_app. cbn [rows_written fold_left].
  destruct (Z.eq_dec (fst c) (fst b)) as [E|Hne].
  - rewrite E, lookup_insert_eq. f_equal. f_equal.
    apply Hf; [apply in_or_app; right; now left|exact Hb|exact E].
  - rewrite lookup_insert_ne
      by (intros E; apply hex_text_inj in E; contradiction).
    apply IH.
    + intros b1 b2 H1 H2. apply Hf; apply in_or_app; now left.
    + apply in_app_or in Hb as [Hb|[<-|[]]]; [exact Hb|contradiction].
Qed.

End Ledger.

Lemma ledger_eq (x y : ScanDatabase.t) :
  ScanDatabase.pool_scanned x = ScanDatabase.pool_scanned y ->
  ScanDatabase.my_scanned x = ScanDatabase.my_scanned y -> x = y.
Proof. destruct x, y. cbn. now intros -> ->. Qed.

(** X3.  [add_pool_blocks] counts every block it is given, as new or as
    duplicate; the pool table grows by exactly the number counted as new,
    and the table of the blocks searched locally is left alone.  Writing the
    same blocks a second time changes nothing: every block is then counted
    as a duplicate and the ledger is the one the first write left. *)
Theorem add_pool_blocks_counts (db : ScanDatabase.t) (blocks : list (Z * Z)) :
  let result := ScanDatabase.add_pool_blocks db blocks in
  let added_count := fst (snd result) in
  let duplicate_count := snd (snd result) in
  added_count + duplicate_count = Z.of_nat (List.length blocks) /\
  0 <= added_count /\ 0 <= duplicate_count /\
  Z.of_nat (size (ScanDatabase.pool_scanned (fst result))) =
    Z.of_nat (size (ScanDatabase.pool_scanned db)) + added_count /\
  ScanDatabase.my_scanned (fst result) = ScanDatabase.my_scanned db /\
  ScanDatabase.add_pool_blocks (fst result) blocks =
    (fst result, (0, Z.of_nat (List.length blocks))).
Proof.
  destruct (add_pool_blocks_facts db blocks) as (P1 & M1 & E3 & E4 & E5 & E6).
  cbv zeta. repeat (split; [assumption|]).
  destruct (add_pool_blocks_facts (fst (ScanDatabase.add_pool_blocks db blocks))
              blocks) as (P2 & M2 & _).
  rewrite (surjective_pairing (ScanDatabase.add_pool_blocks _ blocks)) at 1.
  f_equal.
  - apply ledger_eq; [|exact M2].
    rewrite P2, P1. apply rows_written_twice.
  - apply add_pool_blocks_duplicates. intros b Hb. rewrite P1.
    now apply rows_written_present.
Qed.

(** X4.  After [add_pool_blocks], [is_block_scanned] answers "pool" for
    every block of the list, provided no two blocks of the list start at
    the same key; and its answer for a block that starts where no block of
    the list does is the one it gave before. *)
Theorem pool_blocks_are_reported_scanned
  (db : ScanDatabase.t) (blocks : list (Z * Z)) :
  List.NoDup (map fst blocks) ->
  let db' := fst (ScanDatabase.add_pool_blocks db blocks) in
  (forall b, In b blocks ->
     ScanDatabase.is_block_scanned db' (fst b) (snd b)
       = (true, Some ScanDatabase.Pool)) /\
  (forall block_start block_end,
     ~ In block_start (map fst blocks) ->
     ScanDatabase.is_block_scanned db' block_start block_end
       = ScanDatabase.is_block_scanned db block_start block_end).
Proof.
  intros Hnd. cbv zeta.
  destruct (add_pool_blocks_facts db blocks) as (P & M & _).
  split.
  - intros b Hb. unfold ScanDatabase.is_block_scanned. rewrite P.
    rewrite (rows_written_distinct blocks _ b Hnd Hb).
    now rewrite bool_decide_eq_true_2.
  - intros s e Hs. unfold ScanDatabase.is_block_scanned. rewrite P, M.
    rewrite rows_written_other; [reflexivity|].
    intros b Hb E. apply hex_text_inj in E. apply Hs. rewrite <- E.
    now apply in_map.
Qed.

Lemma pool_blocks_are_reported_scanned_witness :
  ScanDatabase.is_block_scanned
    (fst (ScanDatabase.add_pool_blocks ScanDatabase.empty
            [(0x400, 0x43F); (0x480, 0x4BF)]))
    0x480 0x4BF
  = (true, Some ScanDatabase.Pool).
Proof.
  refine (proj1 (pool_blocks_are_reported_scanned ScanDatabase.empty
                   [(0x400, 0x43F); (0x480, 0x4BF)] _) (0x480, 0x4BF) _).
  - apply NoDup_ListNoDup, (bool_decide_unpack _). vm_compute. exact I.
  - right. left. reflexivity.
Defined.

(** X5.  After [add_my_block], [is_block_scanned] finds the block: it
    answers "pool" if the pool table holds the same boundaries, "me"
    otherwise.  A block with the same start and another end is not found
    in the table of the blocks searched locally, and the answer for a block
    with another start is the one given before. *)
Theorem my_block_is_reported_scanned
  (db db' : ScanDatabase.t) (block_start block_end keys_checked : Z) :
  ScanDatabase.add_my_block db block_start block_end keys_checked = Returned db' ->
  fst (ScanDatabase.is_block_scanned db' block_start block_end) = true /\
  (ScanDatabase.is_block_scanned db block_start block_end
     <> (true, Some ScanDatabase.Pool) ->
   ScanDatabase.is_block_scanned db' block_start block_end
     = (true, Some ScanDatabase.Me)) /\
  (forall other_end,
     other_end <> block_end ->
     ScanDatabase.is_block_scanned db' block_start other_end
       <> (true, Some ScanDatabase.Me)) /\
  (forall other_start other_end,
     other_start <> block_start ->
     ScanDatabase.is_block_scanned db' other_start other_end
       = ScanDatabase.is_block_scanned db other_start other_end).
Proof.
  unfold ScanDatabase.add_my_block.
  destruct (_ || _); [discriminate|]. intros [= <-].
  unfold ScanDatabase.is_block_scanned.
  cbn [ScanDatabase.pool_scanned ScanDatabase.my_scanned].
  repeat split.
  - case_bool_decide; [reflexivity|].
    rewrite my_rows_lookup_insert_eq. cbn.
    rewrite bool_decide_eq_true_2 by reflexivity. reflexivity.
  - intros H.
    destruct (bool_decide (ScanDatabase.pool_scanned db !! Py.hex_text block_start
                           = Some (Py.hex_text block_end))); [congruence|].
    rewrite my_rows_lookup_insert_eq. cbn.
    rewrite bool_decide_eq_true_2 by reflexivity. reflexivity.
  - intros other_end Hne. case_bool_decide; [discriminate|].
    rewrite my_rows_lookup_insert_eq. cbn.
    rewrite bool_decide_eq_false_2; [discriminate|].
    intros [= E]. apply hex_text_inj in E. congruence.
  - intros other_start other_end Hne.
    rewrite my_rows_lookup_insert_ne; [reflexivity|].
    intros E. apply hex_text_inj in E. congruence.
Qed.

Lemma my_block_is_reported_scanned_witness :
  ScanDatabase.add_my_block ScanDatabase.empty 0x480 0x4BF 64
    = Returned ledger_with_block_2 /\
  fst (ScanDatabase.is_block_scanned ledger_with_block_2 0x480 0x4BF) = true.
Proof.
  split; [reflexivity|].
  refine (proj1 (my_block_is_reported_scanned ScanDatabase.empty
                   ledger_with_block_2 0x480 0x4BF 64 _)).
  reflexivity.
Defined.

(** ** Deleting a block from the ledger *)

Section Deleting.

Import Py KeyHuntSmartGUI.

(** A minus sign before a text of digits. *)
Lemma int16_minus_hex s :
  s <> [] -> forallb is_hex s = true ->
  int16 ("-"%char :: s) = Returned (- hex_value s).
Proof.
  intros Hne H.
  assert (H0 : forallb (fun c => negb (int_blank c)) ("-"%char :: s) = true).
  { change (forallb (fun c => negb (int_blank c)) s = true).
    apply forallb_forall. intros c Hc. rewrite forallb_forall in H.
    now rewrite (proj1 (hex_char_plain c (H c Hc))). }
  unfold int16. rewrite (strip_with_plain _ _ H0).
  cbn [Ascii.eqb Bool.eqb]. cbv beta iota.
  destruct s as [|c r]; [contradiction|].
  pose proof H as H'. cbn in H'. apply andb_prop in H' as [Hc Hr].
  destruct (hex_char_plain c Hc) as (_ & _ & _ & Hus & _).
  match goal with
  | |- context [hex_digits 0 false ?d] => assert (E : d = c :: r)
  end.
  { destruct r as [|x r0]; [reflexivity|].
    cbn in Hr. apply andb_prop in Hr as [Hx _].
    destruct (hex_char_plain x Hx) as (_ & _ & _ & _ & -> & ->).
    now rewrite andb_false_r. }
  rewrite E, Hus.
  now rewrite (hex_digits_fold (c :: r) 0 H).
Qed.

(** [int(f"{n:X}", 16)] is [n], whatever the sign of [n]. *)
Lemma int16_format_X n : int16 (format_X n) = Returned n.
Proof.
  destruct (Z.lt_ge_cases n 0) as [H|H].
  - assert (E : format_X n = "-"%char :: hex_text (- n)).
    { unfold format_X, hex_text, hex_tail.
      destruct (Z.ltb_spec n 0); [|lia].
      now destruct (Z.ltb_spec (- n) 0); [lia|]. }
    rewrite E, int16_minus_hex.
    + rewrite hex_text_value by lia. f_equal. lia.
    + apply hex_text_not_empty.
    + apply hex_text_is_hex. lia.
  - rewrite format_X_nonneg by exact H. now apply int16_hex_text.
Qed.

Lemma on_delete_block_eq block_start block_end st :
  on_delete_block true (format_X block_start) (format_X block_end) st =
    forget_progress block_start block_end
      (set_scan_db (delete_my_scanned block_start (scan_db st)) st).
Proof.
  unfold on_delete_block.
  rewrite abind_lift, int16_format_X, abind_lift, int16_format_X.
  now rewrite abind_modify.
Qed.

Lemma forget_progress_eq block_start block_end st :
  forget_progress block_start block_end st =
    (match current_block st with
     | Some (current_start, current_end) =>
         if (block_start =? current_start) && (block_end =? current_end)
         then set_keys_checked 0 (set_state_file None st)
         else st
     | None => st
     end, Returned tt).
Proof.
  unfold forget_progress. rewrite abind_get.
  destruct (current_block st) as [[current_start current_end]|]; [|reflexivity].
  now destruct (_ && _).
Qed.

Lemma forget_progress_facts block_start block_end st :
  let st' := fst (forget_progress block_start block_end st) in
  snd (forget_progress block_start block_end st) = Returned tt /\
  scan_db st' = scan_db st /\
  effects st' = effects st /\
  current_block st' = current_block st /\
  current_block_index st' = current_block_index st /\
  (current_block st = Some (block_start, block_end) ->
   keys_checked st' = 0 /\ state_file st' = None) /\
  (current_block st <> Some (block_start, block_end) ->
   keys_checked st' = keys_checked st /\ state_file st' = state_file st).
Proof.
  unfold forget_progress. rewrite abind_get.
  destruct (current_block st) as [[current_start current_end]|] eqn:E;
    [|cbn; repeat split; congruence].
  destruct (Z.eqb_spec block_start current_start) as [->|Hs];
    [destruct (Z.eqb_spec block_end current_end) as [->|He]|];
    cbn; repeat split; congruence.
Qed.

End Deleting.

(** X6.  Confirming [on_delete_block] for a block removes the record of
    the local search of that block: afterwards [is_block_scanned] never
    answers "me" for a block with that start, the pool table and the
    answers for blocks with another start are as before, and no effect is
    requested.  If the block is the current one, the progress in it is
    forgotten: [keys_checked] is 0 and the state file is gone; otherwise
    both are left alone. *)
Theorem on_delete_block_forgets_the_block
  (st : KeyHuntSmartGUI.gui) (block_start block_end : Z) :
  0 <= block_start ->
  let run :=
    KeyHuntSmartGUI.on_delete_block true (Py.format_X block_start)
      (Py.format_X block_end) st in
  let st' := fst run in
  snd run = Returned tt /\
  (forall any_end,
     ScanDatabase.is_block_scanned (KeyHuntSmartGUI.scan_db st') block_start any_end
       <> (true, Some ScanDatabase.Me)) /\
  ScanDatabase.pool_scanned (KeyHuntSmartGUI.scan_db st')
    = ScanDatabase.pool_scanned (KeyHuntSmartGUI.scan_db st) /\
  (forall other_start other_end,
     other_start <> block_start ->
     ScanDatabase.is_block_scanned (KeyHuntSmartGUI.scan_db st')
       other_start other_end
     = ScanDatabase.is_block_scanned (KeyHuntSmartGUI.scan_db st)
         other_start other_end) /\
  KeyHuntSmartGUI.effects st' = KeyHuntSmartGUI.effects st /\
  (KeyHuntSmartGUI.current_block st = Some (block_start, block_end) ->
   KeyHuntSmartGUI.keys_checked st' = 0 /\
   KeyHuntSmartGUI.state_file st' = None) /\
  (KeyHuntSmartGUI.current_block st <> Some (block_start, block_end) ->
   KeyHuntSmartGUI.keys_checked st' = KeyHuntSmartGUI.keys_checked st /\
   KeyHuntSmartGUI.state_file st' = KeyHuntSmartGUI.state_file st).
Proof.
  intros Hs. cbv zeta. rewrite on_delete_block_eq.
  set (st1 := KeyHuntSmartGUI.set_scan_db _ st).
  destruct (forget_progress_facts block_start block_end st1)
    as (R & D & Ef & _ & _ & Hcur & Hother).
  cbv zeta in D, Ef, Hcur, Hother.
  split; [exact R|]. rewrite D, Ef.
  subst st1. cbn [KeyHuntSmartGUI.scan_db KeyHuntSmartGUI.set_scan_db
                  KeyHuntSmartGUI.effects KeyHuntSmartGUI.current_block
                  KeyHuntSmartGUI.keys_checked KeyHuntSmartGUI.state_file] in *.
  split; [|split; [reflexivity|split; [|split; [reflexivity|split; assumption]]]];
    unfold KeyHuntSmartGUI.delete_my_scanned, ScanDatabase.is_block_scanned;
    cbn [ScanDatabase.pool_scanned ScanDatabase.my_scanned];
    rewrite format_X_nonneg by exact Hs.
  - intros any_end. case_bool_decide; [discriminate|].
    rewrite my_rows_lookup_delete_eq. cbn.
    rewrite bool_decide_eq_false_2 by discriminate. discriminate.
  - intros other_start other_end Hne.
    rewrite my_rows_lookup_delete_ne; [reflexivity|].
    intros E. apply hex_text_inj in E. congruence.
Qed.

Lemma on_delete_block_forgets_the_block_witness :
  0 <= 0x480 /\
  forall any_end,
    ScanDatabase.is_block_scanned
      (KeyHuntSmartGUI.scan_db
         (fst (KeyHuntSmartGUI.on_delete_block true (Py.format_X 0x480)
                 (Py.format_X 0x4BF) searching_block_2)))
      0x480 any_end
    <> (true, Some ScanDatabase.Me).
Proof.
  split; [lia|].
  refine (proj1 (proj2 (on_delete_block_forgets_the_block searching_block_2
                          0x480 0x4BF _))).
  lia.
Defined.

(** X7.  Deleting a block right after it was recorded restores the ledger
    that was there before the record, when the block had no record of a
    local search yet. *)
Theorem delete_undoes_add_my_block
  (st : KeyHuntSmartGUI.gui) (db' : ScanDatabase.t)
  (block_start block_end keys_checked : Z) :
  0 <= block_start ->
  ScanDatabase.my_scanned (KeyHuntSmartGUI.scan_db st) !! Py.hex_text block_start
    = None ->
  ScanDatabase.add_my_block (KeyHuntSmartGUI.scan_db st) block_start block_end
    keys_checked = Returned db' ->
  KeyHuntSmartGUI.scan_db
    (fst (KeyHuntSmartGUI.on_delete_block true (Py.format_X block_start)
            (Py.format_X block_end) (KeyHuntSmartGUI.set_scan_db db' st)))
  = KeyHuntSmartGUI.scan_db st.
Proof.
  intros Hs Hnone Hadd. rewrite on_delete_block_eq.
  destruct (forget_progress_facts block_start block_end
              (KeyHuntSmartGUI.set_scan_db
                 (KeyHuntSmartGUI.delete_my_scanned block_start
                    (KeyHuntSmartGUI.scan_db (KeyHuntSmartGUI.set_scan_db db' st)))
                 (KeyHuntSmartGUI.set_scan_db db' st)))
    as (_ & D & _).
  cbv zeta in D. rewrite D. cbn [KeyHuntSmartGUI.scan_db KeyHuntSmartGUI.set_scan_db].
  unfold ScanDatabase.add_my_block in Hadd.
  destruct (_ || _); [discriminate|]. injection Hadd as <-.
  unfold KeyHuntSmartGUI.delete_my_scanned.
  cbn [ScanDatabase.pool_scanned ScanDatabase.my_scanned].
  rewrite format_X_nonneg by exact Hs.
  apply ledger_eq; cbn [ScanDatabase.pool_scanned ScanDatabase.my_scanned];
    [reflexivity|].
  now apply my_rows_delete_insert_id.
Qed.

Lemma delete_undoes_add_my_block_witness :
  0 <= 0x480 /\
  KeyHuntSmartGUI.scan_db
    (fst (KeyHuntSmartGUI.on_delete_block true (Py.format_X 0x480)
            (Py.format_X 0x4BF)
            (KeyHuntSmartGUI.set_scan_db ledger_with_block_2 searching_block_2)))
  = KeyHuntSmartGUI.scan_db searching_block_2.
Proof.
  split; [lia|].
  apply (delete_undoes_add_my_block searching_block_2 _ 0x480 0x4BF 64);
    [lia | reflexivity | reflexivity].
Defined.

(** X8.  A record whose start is negative cannot be deleted: the ledger
    stores the start as [hex(n)[2:].upper()], which begins with [X] for a
    negative number, and the handler looks for [f"{n:X}"], which begins
    with a minus sign. *)
Theorem negative_start_is_never_deleted
  (st : KeyHuntSmartGUI.gui) (db' : ScanDatabase.t)
  (block_start block_end keys_checked : Z) :
  block_start < 0 ->
  ScanDatabase.add_my_block (KeyHuntSmartGUI.scan_db st) block_start block_end
    keys_checked = Returned db' ->
  let st' :=
    fst (KeyHuntSmartGUI.on_delete_block true (Py.format_X block_start)
           (Py.format_X block_end) (KeyHuntSmartGUI.set_scan_db db' st)) in
  ScanDatabase.my_scanned (KeyHuntSmartGUI.scan_db st') !! Py.hex_text block_start
    = Some (Py.hex_text block_end, keys_checked) /\
  fst (ScanDatabase.is_block_scanned (KeyHuntSmartGUI.scan_db st')
         block_start block_end) = true.
Proof.
  intros Hs Hadd. cbv zeta. rewrite on_delete_block_eq.
  destruct (forget_progress_facts block_start block_end
              (KeyHuntSmartGUI.set_scan_db
                 (KeyHuntSmartGUI.delete_my_scanned block_start
                    (KeyHuntSmartGUI.scan_db (KeyHuntSmartGUI.set_scan_db db' st)))
                 (KeyHuntSmartGUI.set_scan_db db' st)))
    as (_ & D & _).
  cbv zeta in D. rewrite D. cbn [KeyHuntSmartGUI.scan_db KeyHuntSmartGUI.set_scan_db].
  unfold ScanDatabase.add_my_block in Hadd.
  destruct (_ || _); [discriminate|]. injection Hadd as <-.
  unfold KeyHuntSmartGUI.delete_my_scanned, ScanDatabase.is_block_scanned.
  cbn [ScanDatabase.pool_scanned ScanDatabase.my_scanned].
  assert (Hne : Py.format_X block_start <> Py.hex_text block_start).
  { rewrite hex_text_negative by exact Hs.
    unfold Py.format_X. destruct (Z.ltb_spec block_start 0); [|lia]. discriminate. }
  rewrite my_rows_lookup_delete_ne by exact Hne. rewrite my_rows_lookup_insert_eq.
  split; [reflexivity|].
  case_bool_decide; [reflexivity|]. cbn.
  rewrite bool_decide_eq_true_2 by reflexivity. reflexivity.
Qed.

Lemma negative_start_is_never_deleted_witness :
  -0x40 < 0 /\
  fst (ScanDatabase.is_block_scanned
         (KeyHuntSmartGUI.scan_db
            (fst (KeyHuntSmartGUI.on_delete_block true (Py.format_X (-0x40))
                    (Py.format_X (-1))
                    (KeyHuntSmartGUI.set_scan_db
                       (ScanDatabase.mk ∅ {[ str "X40" := (str "X1", 64) ]})
                       searching_block_0))))
         (-0x40) (-1)) = true.
Proof.
  split; [lia|].
  refine (proj2 (negative_start_is_never_deleted searching_block_0 _
                   (-0x40) (-1) 64 _ _)); [lia | reflexivity].
Defined.

(** ** Rescanning a block *)

Section Rescanning.

Import Py KeyHuntSmartGUI.

Lemma int16_0x_format_X n : 0 <= n -> int16 (str "0x" ++ format_X n) = Returned n.
Proof.
  intros H. rewrite format_X_nonneg by exact H. rewrite int16_0x_hex.
  - now rewrite hex_text_value.
  - apply hex_text_not_empty.
  - now apply hex_text_is_hex.
Qed.

Lemma on_rescan_block_eq block_start block_end st :
  on_rescan_block (format_X block_start) (format_X block_end) st =
    forget_progress block_start block_end
      (set_scan_db (delete_my_scanned block_start (scan_db st))
         (set_entries
            (let w := entries st in
             mk_widgets (str "0x" ++ format_X block_start)
                        (str "0x" ++ format_X block_end)
                        (block_size w) (keyhunt_path w) (gpu_id w)
                        (target_entry w) (exclude_iter3 w) (exclude_iter4 w)
                        (exclude_alphanum w))
            st)).
Proof.
  unfold on_rescan_block.
  rewrite abind_lift, int16_format_X, abind_lift, int16_format_X.
  now rewrite !abind_modify.
Qed.

(** [on_start] on a configuration that [int(_, 16)] and [BlockManager]
    accept. *)
Lemma on_start_eq st range_start_value range_end_value size :
  is_running st = false ->
  int16 (range_start (entries st)) = Returned range_start_value ->
  int16 (range_end (entries st)) = Returned range_end_value ->
  int16 (block_size (entries st)) = Returned size ->
  size <> 0 ->
  let bm := BlockManager.mk range_start_value range_end_value size
              ((range_end_value - range_start_value) / size + 1) in
  on_start st =
    (match truediv_raises size 226000000 with
     | Some _ => set_block_mgr (Some bm) st
     | None =>
         let selected :=
           find_next_block_loop bm (Nat.pred checks_per_batch)
             (set_is_running true (set_block_mgr (Some bm) st)) in
         match current_block selected with
         | None => set_is_running false selected
         | Some _ => selected
         end
     end, Returned tt).
Proof.
  intros Hrun Hs He Hb Hsize bm. unfold on_start.
  rewrite abind_get, Hrun, Hs, He, Hb. cbn [Py.bind].
  unfold BlockManager.init. destruct (Z.eqb_spec size 0) as [?|_]; [contradiction|].
  cbn [Py.bind]. fold bm. rewrite abind_modify.
  destruct (truediv_raises size 226000000); [reflexivity|].
  rewrite abind_modify.
  rewrite (abind_returned _ _ _ _ tt
             (find_next_block_eq (set_is_running true (set_block_mgr (Some bm) st))
                bm eq_refl)).
  rewrite abind_get.
  now destruct (current_block _).
Qed.

End Rescanning.

Section RescanFacts.

Import Py KeyHuntSmartGUI.

Lemma on_rescan_block_facts block_start block_end st :
  let st' := fst (on_rescan_block (format_X block_start) (format_X block_end) st) in
  snd (on_rescan_block (format_X block_start) (format_X block_end) st)
    = Returned tt /\
  range_start (entries st') = str "0x" ++ format_X block_start /\
  range_end (entries st') = str "0x" ++ format_X block_end /\
  block_size (entries st') = block_size (entries st) /\
  exclude_iter3 (entries st') = exclude_iter3 (entries st) /\
  exclude_iter4 (entries st') = exclude_iter4 (entries st) /\
  exclude_alphanum (entries st') = exclude_alphanum (entries st) /\
  scan_db st' = delete_my_scanned block_start (scan_db st) /\
  is_running st' = is_running st /\
  current_block_index st' = current_block_index st /\
  effects st' = effects st.
Proof.
  cbv zeta. rewrite on_rescan_block_eq, forget_progress_eq.
  cbn [fst snd]. split; [reflexivity|].
  match goal with
  | |- context [match ?c with Some _ => _ | None => _ end] => destruct c as [[cs ce]|]
  end; [destruct (_ && _)|]; cbn; repeat split; reflexivity.
Qed.

End RescanFacts.


(** ** One call of the block selection *)

Section SelectionSteps.

Import KeyHuntSmartGUI.

Lemma passes_over_index st i block :
  passes_over (set_current_block_index i st) block = passes_over st block.
Proof. reflexivity. Qed.

(** The loop on an eligible block. *)
Lemma find_next_block_loop_selects bm more st :
  current_block_index st < BlockManager.total_blocks bm ->
  passes_over st (BlockManager.get_block bm (current_block_index st)) = false ->
  find_next_block_loop bm more st =
    add_effect SearchThread
      (set_keys_checked 0
         (set_current_block
            (Some (BlockManager.get_block bm (current_block_index st))) st)).
Proof.
  intros Hlt Hp. unfold passes_over in Hp. apply orb_false_elim in Hp as [H1 H2].
  destruct more; unfold find_next_block_loop; fold find_next_block_loop;
    (destruct (Z.ltb_spec (current_block_index st) (BlockManager.total_blocks bm));
     [|lia]); cbv zeta; rewrite H1, H2; reflexivity.
Qed.

(** The loop on a block that is passed over. *)
Lemma find_next_block_loop_passes bm more st :
  current_block_index st < BlockManager.total_blocks bm ->
  passes_over st (BlockManager.get_block bm (current_block_index st)) = true ->
  find_next_block_loop bm more st =
    let st' := set_current_block_index (current_block_index st + 1) st in
    match more with
    | O => add_effect (TimeoutAdd 10 cb_find_next_block) st'
    | S more' => find_next_block_loop bm more' st'
    end.
Proof.
  intros Hlt Hp. unfold passes_over in Hp.
  destruct more; unfold find_next_block_loop; fold find_next_block_loop;
    (destruct (Z.ltb_spec (current_block_index st) (BlockManager.total_blocks bm));
     [|lia]); cbv zeta;
    destruct (fst (ScanDatabase.is_block_scanned _ _ _)); try reflexivity;
    cbn [orb] in Hp; rewrite Hp; reflexivity.
Qed.

End SelectionSteps.

Section SelectionBatch.

Import KeyHuntSmartGUI.

(** One call of the loop: where it stops, and how. *)
Lemma find_next_block_loop_spec bm more : forall st,
  exists i,
    current_block_index st <= i /\
    (forall j, current_block_index st <= j < i ->
               passes_over st (BlockManager.get_block bm j) = true) /\
    ((i < BlockManager.total_blocks bm /\
      i <= current_block_index st + Z.of_nat more /\
      passes_over st (BlockManager.get_block bm i) = false /\
      find_next_block_loop bm more st =
        add_effect SearchThread
          (set_keys_checked 0
             (set_current_block (Some (BlockManager.get_block bm i))
                (set_current_block_index i st)))) \/
     (i = current_block_index st + Z.of_nat more + 1 /\
      i <= BlockManager.total_blocks bm /\
      find_next_block_loop bm more st =
        add_effect (TimeoutAdd 10 cb_find_next_block)
          (set_current_block_index i st)) \/
     (i = Z.max (current_block_index st) (BlockManager.total_blocks bm) /\
      i <= current_block_index st + Z.of_nat more /\
      find_next_block_loop bm more st =
        set_is_running false
          (set_current_block None (set_current_block_index i st)))).
Proof.
  induction more as [|more IH]; intros st.
  - destruct (Z.lt_ge_cases (current_block_index st) (BlockManager.total_blocks bm))
      as [Hlt|Hge].
    + destruct (passes_over st (BlockManager.get_block bm (current_block_index st)))
        eqn:Hp.
      * exists (current_block_index st + 1). split; [lia|]. split.
        { intros j Hj. replace j with (current_block_index st) by lia. exact Hp. }
        right. left. split; [lia|]. split; [lia|].
        now rewrite find_next_block_loop_passes.
      * exists (current_block_index st). split; [lia|]. split; [intros j Hj; lia|].
        left. split; [exact Hlt|]. split; [lia|]. split; [exact Hp|].
        rewrite set_current_block_index_same.
        now apply find_next_block_loop_selects.
    + exists (current_block_index st). split; [lia|]. split; [intros j Hj; lia|].
      right. right. split; [lia|]. split; [lia|].
      rewrite set_current_block_index_same.
      now apply find_next_block_exhausted.
  - destruct (Z.lt_ge_cases (current_block_index st) (BlockManager.total_blocks bm))
      as [Hlt|Hge].
    + destruct (passes_over st (BlockManager.get_block bm (current_block_index st)))
        eqn:Hp.
      * rewrite find_next_block_loop_passes by assumption. cbv zeta.
        destruct (IH (set_current_block_index (current_block_index st + 1) st))
          as (i & Hi & Hall & Hcase).
        cbn [current_block_index set_current_block_index] in Hi, Hall, Hcase.
        exists i. split; [lia|]. split.
        { intros j Hj. destruct (Z.eq_dec j (current_block_index st)) as [->|Hne];
            [exact Hp|]. apply Hall. lia. }
        destruct Hcase as [(H1 & H2 & H3 & H4)|[(H1 & H2 & H3)|(H1 & H2 & H3)]].
        -- left. split; [exact H1|]. split; [lia|]. split; [exact H3|exact H4].
        -- right. left. split; [lia|]. split; [exact H2|exact H3].
        -- right. right. split; [lia|]. split; [lia|exact H3].
      * exists (current_block_index st). split; [lia|]. split; [intros j Hj; lia|].
        left. split; [exact Hlt|]. split; [lia|]. split; [exact Hp|].
        rewrite set_current_block_index_same.
        now apply find_next_block_loop_selects.
    + exists (current_block_index st). split; [lia|]. split; [intros j Hj; lia|].
      right. right. split; [lia|]. split; [lia|].
      rewrite set_current_block_index_same.
      now apply find_next_block_exhausted.
Qed.

End SelectionBatch.

(** X9.  One call of [find_next_block] moves [current_block_index]
    forward by at most one batch of 100 blocks, over blocks that are all
    excluded by the ledger or by the pattern filter, and leaves the ledger
    alone.  It ends in one of three ways: it selects the block at the index
    reached, which is a block of the partition that nothing excludes, resets
    [keys_checked] and starts a search thread; or it has passed over 100
    blocks, sets a timer for itself and leaves [current_block] and
    [keys_checked] as they were; or the index has reached the end of the
    partition, and it clears [current_block] and [is_running]. *)
Theorem find_next_block_call
  (st : KeyHuntSmartGUI.gui) (bm : BlockManager.t) :
  KeyHuntSmartGUI.block_mgr st = Some bm ->
  let res := fst (KeyHuntSmartGUI.find_next_block st) in
  let first := KeyHuntSmartGUI.current_block_index st in
  let reached := KeyHuntSmartGUI.current_block_index res in
  first <= reached <= first + 100 /\
  (forall j, first <= j < reached ->
             passes_over st (BlockManager.get_block bm j) = true) /\
  KeyHuntSmartGUI.scan_db res = KeyHuntSmartGUI.scan_db st /\
  ((KeyHuntSmartGUI.effects res
      = KeyHuntSmartGUI.effects st ++ [KeyHuntSmartGUI.SearchThread] /\
    reached < BlockManager.total_blocks bm /\
    passes_over st (BlockManager.get_block bm reached) = false /\
    KeyHuntSmartGUI.current_block res = Some (BlockManager.get_block bm reached) /\
    KeyHuntSmartGUI.keys_checked res = 0) \/
   (KeyHuntSmartGUI.effects res
      = KeyHuntSmartGUI.effects st
        ++ [KeyHuntSmartGUI.TimeoutAdd 10 KeyHuntSmartGUI.cb_find_next_block] /\
    reached = first + 100 /\
    KeyHuntSmartGUI.current_block res = KeyHuntSmartGUI.current_block st /\
    KeyHuntSmartGUI.keys_checked res = KeyHuntSmartGUI.keys_checked st) \/
   (KeyHuntSmartGUI.effects res = KeyHuntSmartGUI.effects st /\
    BlockManager.total_blocks bm <= reached /\
    KeyHuntSmartGUI.current_block res = None /\
    KeyHuntSmartGUI.is_running res = false)).
Proof.
  intros Hbm. cbv zeta. rewrite (find_next_block_eq st bm Hbm). cbn [fst].
  destruct (find_next_block_loop_spec bm
              (Nat.pred KeyHuntSmartGUI.checks_per_batch) st)
    as (i & Hi & Hall & Hcase).
  change (Z.of_nat (Nat.pred KeyHuntSmartGUI.checks_per_batch)) with 99 in Hcase.
  destruct Hcase as [(H1 & H2 & H3 & ->)|[(H1 & H2 & ->)|(H1 & H2 & ->)]];
    cbn [KeyHuntSmartGUI.current_block_index KeyHuntSmartGUI.add_effect
         KeyHuntSmartGUI.set_effects KeyHuntSmartGUI.set_keys_checked
         KeyHuntSmartGUI.set_current_block KeyHuntSmartGUI.set_current_block_index
         KeyHuntSmartGUI.set_is_running KeyHuntSmartGUI.scan_db
         KeyHuntSmartGUI.effects KeyHuntSmartGUI.current_block
         KeyHuntSmartGUI.keys_checked KeyHuntSmartGUI.is_running].
  - split; [lia|]. split; [exact Hall|]. split; [reflexivity|].
    left. repeat split; assumption.
  - split; [lia|]. split; [exact Hall|]. split; [reflexivity|].
    right. left. repeat split. lia.
  - split; [lia|]. split; [exact Hall|]. split; [reflexivity|].
    right. right. repeat split. lia.
Qed.

Lemma find_next_block_call_witness :
  let res := fst (KeyHuntSmartGUI.find_next_block searching_block_2) in
  KeyHuntSmartGUI.block_mgr searching_block_2 = Some sample_partition /\
  2 <= KeyHuntSmartGUI.current_block_index res <= 2 + 100 /\
  KeyHuntSmartGUI.scan_db res = KeyHuntSmartGUI.scan_db searching_block_2.
Proof.
  cbv zeta. split; [reflexivity|].
  pose proof (find_next_block_call searching_block_2 sample_partition eq_refl)
    as (H1 & _ & H3 & _).
  split; [exact H1|exact H3].
Defined.

(** X10.  [on_rescan_block] writes the boundaries of the block into the
    range entries of the configuration and leaves [current_block_index]
    alone.  The partition that the next [on_start] builds from these
    entries has the block as its single block.  The start therefore
    searches the block only when the index is 0 (and neither the pool table
    nor the pattern filter excludes the block); once the index has moved
    past block 0 it finds no block, starts no search thread and leaves the
    session not running. *)
Theorem rescan_then_start_searches_the_block_only_at_index_0
  (st : KeyHuntSmartGUI.gui) (block_start block_end size : Z) :
  0 <= block_start <= block_end ->
  block_end - block_start < size ->
  Py.int16 (KeyHuntSmartGUI.block_size (KeyHuntSmartGUI.entries st))
    = Returned size ->
  KeyHuntSmartGUI.is_running st = false ->
  let rescanned :=
    fst (KeyHuntSmartGUI.on_rescan_block (Py.format_X block_start)
           (Py.format_X block_end) st) in
  let started := fst (KeyHuntSmartGUI.on_start rescanned) in
  KeyHuntSmartGUI.range_start (KeyHuntSmartGUI.entries rescanned)
    = str "0x" ++ Py.hex_text block_start /\
  KeyHuntSmartGUI.range_end (KeyHuntSmartGUI.entries rescanned)
    = str "0x" ++ Py.hex_text block_end /\
  KeyHuntSmartGUI.current_block_index rescanned
    = KeyHuntSmartGUI.current_block_index st /\
  (exists bm,
     KeyHuntSmartGUI.block_mgr started = Some bm /\
     BlockManager.total_blocks bm = 1 /\
     BlockManager.get_block bm 0 = (block_start, block_end)) /\
  (1 <= KeyHuntSmartGUI.current_block_index st ->
   KeyHuntSmartGUI.is_running started = false /\
   KeyHuntSmartGUI.effects started = KeyHuntSmartGUI.effects st) /\
  (KeyHuntSmartGUI.current_block_index st = 0 ->
   Py.truediv_raises size 226000000 = None ->
   passes_over rescanned (block_start, block_end) = false ->
   KeyHuntSmartGUI.current_block started = Some (block_start, block_end) /\
   KeyHuntSmartGUI.keys_checked started = 0 /\
   KeyHuntSmartGUI.is_running started = true /\
   KeyHuntSmartGUI.effects started
     = KeyHuntSmartGUI.effects st ++ [KeyHuntSmartGUI.SearchThread]).
Proof.
  intros Hse Hsize Hbs Hrun. cbv zeta.
  destruct (on_rescan_block_facts block_start block_end st)
    as (_ & Rs & Re & Rb & _ & _ & _ & _ & Rrun & Ridx & Reff).
  cbv zeta in Rs, Re, Rb, Rrun, Ridx, Reff.
  set (rescanned := fst (KeyHuntSmartGUI.on_rescan_block _ _ st)) in *.
  rewrite <- !format_X_nonneg by lia.
  split; [exact Rs|]. split; [exact Re|]. split; [exact Ridx|].
  assert (Hdiv : (block_end - block_start) / size = 0)
    by (apply Z.div_small; lia).
  rewrite (on_start_eq rescanned block_start block_end size);
    [ | congruence
      | rewrite Rs; apply int16_0x_format_X; lia
      | rewrite Re; apply int16_0x_format_X; lia
      | congruence
      | lia ].
  cbn [fst]. rewrite Hdiv. change (0 + 1) with 1.
  set (bm := BlockManager.mk block_start block_end size 1).
  assert (Hbm : BlockManager.total_blocks bm = 1 /\
                BlockManager.get_block bm 0 = (block_start, block_end)).
  { split; [reflexivity|]. unfold BlockManager.get_block, bm. cbn.
    f_equal; lia. }
  destruct Hbm as [Htotal Hblock].
  split; [|split].
  - exists bm. split; [|split; assumption].
    destruct (Py.truediv_raises size 226000000); [reflexivity|]. cbv zeta.
    match goal with
    | |- context [KeyHuntSmartGUI.find_next_block_loop bm ?more ?s] =>
        destruct (find_next_block_loop_spec bm more s)
          as (j & _ & _ & [(_ & _ & _ & ->)|[(_ & _ & ->)|(_ & _ & ->)]])
    end; try reflexivity.
    cbn [KeyHuntSmartGUI.current_block KeyHuntSmartGUI.add_effect
         KeyHuntSmartGUI.set_effects KeyHuntSmartGUI.set_current_block_index
         KeyHuntSmartGUI.set_is_running KeyHuntSmartGUI.set_block_mgr].
    now destruct (KeyHuntSmartGUI.current_block rescanned).
  - intros Hidx. destruct (Py.truediv_raises size 226000000).
    + cbn. split; congruence.
    + cbv zeta.
      rewrite find_next_block_exhausted
        by (cbn [KeyHuntSmartGUI.current_block_index KeyHuntSmartGUI.set_is_running
                 KeyHuntSmartGUI.set_block_mgr BlockManager.total_blocks bm]; lia).
      cbn. split; [reflexivity|congruence].
  - intros Hidx Hdivide Hpass. rewrite Hdivide. cbv zeta.
    rewrite find_next_block_loop_selects.
    + cbn [KeyHuntSmartGUI.current_block_index KeyHuntSmartGUI.set_is_running
           KeyHuntSmartGUI.set_block_mgr].
      rewrite Ridx, Hidx, Hblock. cbn. rewrite Reff. repeat split; reflexivity.
    + cbn [KeyHuntSmartGUI.current_block_index KeyHuntSmartGUI.set_is_running
           KeyHuntSmartGUI.set_block_mgr BlockManager.total_blocks bm]. lia.
    + cbn [KeyHuntSmartGUI.current_block_index KeyHuntSmartGUI.set_is_running
           KeyHuntSmartGUI.set_block_mgr].
      rewrite Ridx, Hidx, Hblock. exact Hpass.
Qed.

Lemma rescan_then_start_searches_the_block_only_at_index_0_witness :
  let st := KeyHuntSmartGUI.set_is_running false
              (KeyHuntSmartGUI.set_process None searching_block_2) in
  let rescanned :=
    fst (KeyHuntSmartGUI.on_rescan_block (Py.format_X 0x440)
           (Py.format_X 0x47F) st) in
  let started := fst (KeyHuntSmartGUI.on_start rescanned) in
  KeyHuntSmartGUI.current_block_index st = 2 /\
  KeyHuntSmartGUI.range_start (KeyHuntSmartGUI.entries rescanned) = str "0x440" /\
  KeyHuntSmartGUI.is_running started = false /\
  KeyHuntSmartGUI.effects started = KeyHuntSmartGUI.effects st.
Proof.
  cbv zeta.
  pose proof (rescan_then_start_searches_the_block_only_at_index_0
                (KeyHuntSmartGUI.set_is_running false
                   (KeyHuntSmartGUI.set_process None searching_block_2))
                0x440 0x47F 0x40
                ltac:(lia) ltac:(lia) eq_refl eq_refl)
    as (H1 & _ & _ & _ & H5 & _).
  destruct (H5 ltac:(cbn; lia)) as [H6 H7].
  split; [reflexivity|]. split; [exact H1|]. split; [exact H6|exact H7].
Defined.

(** ** The block selection over its timer *)

Section SelectionRounds.

Import KeyHuntSmartGUI.

Let timer := TimeoutAdd 10 cb_find_next_block.

Let batch := Nat.pred checks_per_batch.

Lemma find_next_block_rounds_eq rounds st bm :
  block_mgr st = Some bm ->
  find_next_block_rounds rounds st =
    let st' := find_next_block_loop bm batch st in
    match rounds with
    | O => st'
    | S rounds' =>
        if existsb (fun e => match e with
                             | TimeoutAdd _ cb_find_next_block => true
                             | _ => false
                             end)
                   (skipn (List.length (effects st)) (effects st'))
        then find_next_block_rounds rounds' st'
        else st'
    end.
Proof.
  intros Hbm.
  destruct rounds; unfold find_next_block_rounds; fold find_next_block_rounds;
    rewrite (find_next_block_eq st bm Hbm); reflexivity.
Qed.

Lemma skipn_appended {A} (l r : list A) : skipn (List.length l) (l ++ r) = r.
Proof. now rewrite skipn_app, skipn_all, Nat.sub_diag. Qed.

Lemma div_100_step a : 100 <= a -> a / 100 = (a - 100) / 100 + 1.
Proof.
  intros H. replace a with ((a - 100) + 1 * 100) at 1 by lia.
  now rewrite Z.div_add by lia.
Qed.

Lemma div_100_far a n : 100 <= a -> a / 100 <= Z.of_nat n -> (0 < n)%nat.
Proof.
  intros H Hn. rewrite div_100_step in Hn by exact H.
  assert (0 <= (a - 100) / 100) by (apply Z.div_pos; lia). lia.
Qed.

(** One more round after a batch that ended on the timer. *)
Lemma rounds_after_timer rounds st bm i' :
  block_mgr st = Some bm ->
  find_next_block_loop bm batch st =
    add_effect timer (set_current_block_index i' st) ->
  find_next_block_rounds (S rounds) st =
    find_next_block_rounds rounds
      (add_effect timer (set_current_block_index i' st)).
Proof.
  intros Hbm E. rewrite (find_next_block_rounds_eq _ st bm Hbm). cbv zeta.
  rewrite E.
  change (effects (add_effect timer (set_current_block_index i' st)))
    with (effects st ++ [timer]).
  now rewrite skipn_appended.
Qed.

(** No more round after a batch that ended otherwise. *)
Lemma rounds_settled rounds st bm l :
  block_mgr st = Some bm ->
  effects (find_next_block_loop bm batch st) = effects st ++ l ->
  l = [] \/ l = [SearchThread] ->
  find_next_block_rounds rounds st = find_next_block_loop bm batch st.
Proof.
  intros Hbm E Hl. rewrite (find_next_block_rounds_eq _ st bm Hbm). cbv zeta.
  destruct rounds; [reflexivity|].
  rewrite E, skipn_appended. now destruct Hl as [-> | ->].
Qed.

Lemma first_eligible_unique st bm i i' :
  (forall j, current_block_index st <= j < i ->
             passes_over st (BlockManager.get_block bm j) = true) ->
  passes_over st (BlockManager.get_block bm i) = false ->
  (forall j, current_block_index st <= j < i' ->
             passes_over st (BlockManager.get_block bm j) = true) ->
  current_block_index st <= i -> i' <= i.
Proof.
  intros Hall Hel Hall' Hi.
  destruct (Z.lt_ge_cases i i') as [Hlt|Hge]; [|lia].
  rewrite Hall' in Hel by lia. discriminate.
Qed.

Lemma rounds_reach_first_eligible bm i rounds : forall st,
  block_mgr st = Some bm ->
  current_block_index st <= i < BlockManager.total_blocks bm ->
  (forall j, current_block_index st <= j < i ->
             passes_over st (BlockManager.get_block bm j) = true) ->
  passes_over st (BlockManager.get_block bm i) = false ->
  (i - current_block_index st) / 100 <= Z.of_nat rounds ->
  let res := find_next_block_rounds rounds st in
  current_block res = Some (BlockManager.get_block bm i) /\
  current_block_index res = i /\
  keys_checked res = 0 /\
  scan_db res = scan_db st /\
  is_running res = is_running st /\
  effects res =
    effects st
    ++ repeat timer (Z.to_nat ((i - current_block_index st) / 100))
    ++ [SearchThread].
Proof.
  induction rounds as [|rounds IH]; intros st Hbm Hi Hall Hel Hfuel; cbv zeta;
    destruct (find_next_block_loop_spec bm batch st) as (i' & Hi' & Hall' & Hcase);
    change (Z.of_nat batch) with 99 in Hcase;
    pose proof (first_eligible_unique st bm i i' Hall Hel Hall' ltac:(lia)) as Hle;
    destruct Hcase as [(H1 & H2 & H3 & E)|[(H1 & H2 & E)|(H1 & H2 & E)]];
    try (exfalso; lia);
    try (exfalso;
         assert (Hfar : 100 <= i - current_block_index st) by lia;
         apply (div_100_far _ _ Hfar) in Hfuel; lia).
  - assert (i' = i) as ->.
    { destruct (Z.lt_ge_cases i' i) as [Hlt|Hge]; [|lia].
      rewrite Hall in H3 by lia. discriminate. }
    rewrite (rounds_settled _ st bm [SearchThread] Hbm) by first [rewrite E; reflexivity | auto].
    rewrite E, Z.div_small by lia. cbn. repeat split; reflexivity.
  - assert (i' = i) as ->.
    { destruct (Z.lt_ge_cases i' i) as [Hlt|Hge]; [|lia].
      rewrite Hall in H3 by lia. discriminate. }
    rewrite (rounds_settled _ st bm [SearchThread] Hbm) by first [rewrite E; reflexivity | auto].
    rewrite E, Z.div_small by lia. cbn. repeat split; reflexivity.
  - rewrite (rounds_after_timer rounds st bm i' Hbm E).
    set (st' := add_effect timer (set_current_block_index i' st)).
    assert (Hidx : current_block_index st' = current_block_index st + 100)
      by (subst st' i'; cbn; lia).
    assert (Heff : effects st' = effects st ++ [timer]) by reflexivity.
    destruct (IH st') as (R1 & R2 & R3 & R4 & R5 & R6).
    + exact Hbm.
    + rewrite Hidx. lia.
    + intros j Hj. rewrite Hidx in Hj. apply Hall. lia.
    + exact Hel.
    + rewrite Hidx. rewrite div_100_step in Hfuel by lia.
      replace (i - (current_block_index st + 100))
        with (i - current_block_index st - 100) by lia.
      lia.
    + cbv zeta in R1, R2, R3, R4, R5, R6.
      split; [exact R1|]. split; [exact R2|]. split; [exact R3|].
      split; [exact R4|]. split; [exact R5|].
      rewrite R6, Hidx, Heff.
      rewrite (div_100_step (i - current_block_index st)) by lia.
      replace (i - (current_block_index st + 100))
        with (i - current_block_index st - 100) by lia.
      rewrite Z2Nat.inj_add by (try apply Z.div_pos; lia).
      rewrite Nat.add_comm. cbn [Z.to_nat Pos.to_nat Pos.iter_op Nat.add repeat].
      now rewrite <- app_assoc.
Qed.

Lemma rounds_exhaust bm rounds : forall st,
  block_mgr st = Some bm ->
  (forall j, current_block_index st <= j < BlockManager.total_blocks bm ->
             passes_over st (BlockManager.get_block bm j) = true) ->
  (BlockManager.total_blocks bm - current_block_index st) / 100
    <= Z.of_nat rounds ->
  let res := find_next_block_rounds rounds st in
  current_block res = None /\
  is_running res = false /\
  current_block_index res
    = Z.max (current_block_index st) (BlockManager.total_blocks bm) /\
  scan_db res = scan_db st /\
  exists timers,
    effects res = effects st ++ repeat timer timers.
Proof.
  induction rounds as [|rounds IH]; intros st Hbm Hall Hfuel; cbv zeta;
    destruct (find_next_block_loop_spec bm batch st) as (i' & Hi' & Hall' & Hcase);
    change (Z.of_nat batch) with 99 in Hcase;
    destruct Hcase as [(H1 & H2 & H3 & E)|[(H1 & H2 & E)|(H1 & H2 & E)]];
    try (exfalso; rewrite Hall in H3 by lia; discriminate);
    try (exfalso;
         assert (Hfar : 100 <= BlockManager.total_blocks bm - current_block_index st)
           by lia;
         apply (div_100_far _ _ Hfar) in Hfuel; lia).
  - rewrite (rounds_settled _ st bm [] Hbm)
      by first [rewrite E; cbn; now rewrite app_nil_r | auto].
    rewrite E. cbn. repeat split; try assumption.
    exists 0%nat. cbn. now rewrite app_nil_r.
  - rewrite (rounds_after_timer rounds st bm i' Hbm E).
    set (st' := add_effect timer (set_current_block_index i' st)).
    assert (Hidx : current_block_index st' = current_block_index st + 100)
      by (subst st' i'; cbn; lia).
    assert (Heff : effects st' = effects st ++ [timer]) by reflexivity.
    destruct (IH st') as (R1 & R2 & R3 & R4 & timers & R5).
    + exact Hbm.
    + intros j Hj. rewrite Hidx in Hj. apply Hall. lia.
    + rewrite Hidx. rewrite div_100_step in Hfuel by lia.
      replace (BlockManager.total_blocks bm - (current_block_index st + 100))
        with (BlockManager.total_blocks bm - current_block_index st - 100) by lia.
      lia.
    + cbv zeta in R1, R2, R3, R4, R5.
      split; [exact R1|]. split; [exact R2|]. split; [rewrite R3, Hidx; lia|].
      split; [exact R4|].
      exists (S timers). rewrite R5, Heff. cbn [repeat].
      now rewrite <- app_assoc.
  - rewrite (rounds_settled _ st bm [] Hbm)
      by first [rewrite E; cbn; now rewrite app_nil_r | auto].
    rewrite E. cbn. repeat split; try assumption.
    exists 0%nat. cbn. now rewrite app_nil_r.
Qed.

End SelectionRounds.

(** X11.  [find_next_block], run again each time its timer fires, ends
    on the first block at or after [current_block_index] that neither the
    ledger nor the pattern filter excludes: that block becomes
    [current_block], the index is its index, [keys_checked] is 0 and one
    search thread is started, after one timer for every 100 blocks passed
    over.  As many rounds as there are hundreds of blocks to pass over are
    enough. *)
Theorem find_next_block_reaches_the_first_eligible_block
  (st : KeyHuntSmartGUI.gui) (bm : BlockManager.t) (i : Z) (rounds : nat) :
  KeyHuntSmartGUI.block_mgr st = Some bm ->
  KeyHuntSmartGUI.current_block_index st <= i < BlockManager.total_blocks bm ->
  (forall j, KeyHuntSmartGUI.current_block_index st <= j < i ->
             passes_over st (BlockManager.get_block bm j) = true) ->
  passes_over st (BlockManager.get_block bm i) = false ->
  (i - KeyHuntSmartGUI.current_block_index st) / 100 <= Z.of_nat rounds ->
  let res := KeyHuntSmartGUI.find_next_block_rounds rounds st in
  KeyHuntSmartGUI.current_block res = Some (BlockManager.get_block bm i) /\
  KeyHuntSmartGUI.current_block_index res = i /\
  KeyHuntSmartGUI.keys_checked res = 0 /\
  KeyHuntSmartGUI.scan_db res = KeyHuntSmartGUI.scan_db st /\
  KeyHuntSmartGUI.is_running res = KeyHuntSmartGUI.is_running st /\
  KeyHuntSmartGUI.effects res =
    KeyHuntSmartGUI.effects st
    ++ repeat (KeyHuntSmartGUI.TimeoutAdd 10 KeyHuntSmartGUI.cb_find_next_block)
         (Z.to_nat ((i - KeyHuntSmartGUI.current_block_index st) / 100))
    ++ [KeyHuntSmartGUI.SearchThread].
Proof. apply rounds_reach_first_eligible. Qed.

(** X12.  When the ledger or the pattern filter excludes every block from
    [current_block_index] on, [find_next_block], run again each time its
    timer fires, ends with no current block and the session not running,
    the index at the end of the partition, and no search thread started. *)
Theorem find_next_block_stops_when_nothing_is_eligible
  (st : KeyHuntSmartGUI.gui) (bm : BlockManager.t) (rounds : nat) :
  KeyHuntSmartGUI.block_mgr st = Some bm ->
  (forall j,
     KeyHuntSmartGUI.current_block_index st <= j < BlockManager.total_blocks bm ->
     passes_over st (BlockManager.get_block bm j) = true) ->
  (BlockManager.total_blocks bm - KeyHuntSmartGUI.current_block_index st) / 100
    <= Z.of_nat rounds ->
  let res := KeyHuntSmartGUI.find_next_block_rounds rounds st in
  KeyHuntSmartGUI.current_block res = None /\
  KeyHuntSmartGUI.is_running res = false /\
  KeyHuntSmartGUI.current_block_index res
    = Z.max (KeyHuntSmartGUI.current_block_index st)
            (BlockManager.total_blocks bm) /\
  KeyHuntSmartGUI.scan_db res = KeyHuntSmartGUI.scan_db st /\
  exists timers,
    KeyHuntSmartGUI.effects res =
      KeyHuntSmartGUI.effects st
      ++ repeat (KeyHuntSmartGUI.TimeoutAdd 10 KeyHuntSmartGUI.cb_find_next_block)
           timers.
Proof. apply rounds_exhaust. Qed.

Lemma find_next_block_reaches_the_first_eligible_block_witness :
  let st := KeyHuntSmartGUI.set_scan_db ledger_with_block_2 searching_block_2 in
  let res := KeyHuntSmartGUI.find_next_block_rounds 0 st in
  KeyHuntSmartGUI.current_block_index st = 2 /\
  passes_over st (BlockManager.get_block sample_partition 2) = true /\
  passes_over st (BlockManager.get_block sample_partition 3) = false /\
  KeyHuntSmartGUI.current_block res = Some (BlockManager.get_block sample_partition 3) /\
  KeyHuntSmartGUI.current_block_index res = 3.
Proof.
  cbv zeta. split; [reflexivity|]. split; [reflexivity|]. split; [reflexivity|].
  pose proof (find_next_block_reaches_the_first_eligible_block
                (KeyHuntSmartGUI.set_scan_db ledger_with_block_2 searching_block_2)
                sample_partition 3 0 eq_refl) as H.
  destruct H as (H1 & H2 & _).
  - cbn. lia.
  - intros j Hj. cbn in Hj. replace j with 2 by lia. reflexivity.
  - reflexivity.
  - apply Z.leb_le. reflexivity.
  - split; [exact H1|exact H2].
Defined.

Lemma find_next_block_stops_when_nothing_is_eligible_witness :
  let st :=
    KeyHuntSmartGUI.set_scan_db ledger_with_blocks_2_and_3 searching_block_2 in
  let res := KeyHuntSmartGUI.find_next_block_rounds 0 st in
  KeyHuntSmartGUI.current_block_index st = 2 /\
  passes_over st (BlockManager.get_block sample_partition 2) = true /\
  passes_over st (BlockManager.get_block sample_partition 3) = true /\
  KeyHuntSmartGUI.current_block res = None /\
  KeyHuntSmartGUI.is_running res = false.
Proof.
  cbv zeta. split; [reflexivity|]. split; [reflexivity|]. split; [reflexivity|].
  pose proof (find_next_block_stops_when_nothing_is_eligible
                (KeyHuntSmartGUI.set_scan_db ledger_with_blocks_2_and_3
                   searching_block_2)
                sample_partition 0 eq_refl) as H.
  destruct H as (H1 & H2 & _).
  - intros j Hj. cbn in Hj.
    assert (j = 2 \/ j = 3) as [-> | ->] by lia; reflexivity.
  - apply Z.leb_le. reflexivity.
  - split; [exact H1|exact H2].
Defined.

(** ** The pattern filter on aligned blocks *)

Section AlignedBlocks.

Import Py KeyHuntSmartGUI.

(** The text of a number ends with its last hexadecimal digit. *)
Lemma hex_text_last q c :
  0 <= q -> PoolScraper.is_code_digit c = true ->
  exists pre, hex_text (16 * q + digit c) = pre ++ [c].
Proof.
  intros Hq Hc. destruct (Z.eq_dec q 0) as [->|Hne].
  - exists []. rewrite Z.mul_0_r, Z.add_0_l. now apply hex_text_small.
  - exists (hex_text q). apply hex_text_snoc; [lia|exact Hc].
Qed.

Lemma hex_text_ends_with_F_run n e :
  0 <= e -> e mod 16 ^ Z.of_nat (S n) = 16 ^ Z.of_nat (S n) - 1 ->
  exists pre, hex_text e = pre ++ repeat "F"%char (S n).
Proof.
  revert e. induction n as [|n IH]; intros e He Hmod.
  - change (16 ^ Z.of_nat 1) with 16 in Hmod.
    pose proof (Z.div_mod e 16 ltac:(lia)) as E.
    assert (Hq : 0 <= e / 16) by (apply Z.div_pos; lia).
    destruct (hex_text_last (e / 16) "F" Hq eq_refl) as (pre & Hpre).
    exists pre. cbn [repeat]. rewrite <- Hpre. f_equal.
    change (digit "F") with 15. lia.
  - set (m := 16 ^ Z.of_nat (S n)) in *.
    assert (Hm : 0 < m) by (apply Z.pow_pos_nonneg; lia).
    assert (Em : 16 ^ Z.of_nat (S (S n)) = 16 * m).
    { subst m. rewrite (Nat2Z.inj_succ (S n)), Z.pow_succ_r by lia. reflexivity. }
    rewrite Em in Hmod.
    pose proof (Z.div_mod e (16 * m) ltac:(lia)) as E.
    pose proof (Z.div_mod e 16 ltac:(lia)) as E16.
    pose proof (Z.mod_pos_bound e 16 ltac:(lia)) as B16.
    assert (Hq : 0 <= e / 16) by (apply Z.div_pos; lia).
    (* the last digit is F and the rest still ends with a run *)
    assert (Hlast : e mod 16 = 15).
    { rewrite <- (Z.mod_small 15 16) by lia.
      replace e with (15 + (m * (e / (16 * m)) + (m - 1)) * 16) by lia.
      now rewrite Z.mod_add by lia. }
    assert (Hrest : (e / 16) mod m = m - 1).
    { assert (Ediv : e / 16 = (m - 1) + (e / (16 * m)) * m).
      { apply div_between; lia. }
      rewrite Ediv, Z.mod_add by lia. apply Z.mod_small. lia. }
    destruct (IH (e / 16) Hq Hrest) as (pre & Hpre).
    exists pre.
    replace e with (16 * (e / 16) + digit "F")
      by (change (digit "F") with 15; lia).
    rewrite hex_text_snoc.
    + rewrite Hpre, <- app_assoc. f_equal.
      change (repeat "F"%char (S (S n))) with ("F"%char :: repeat "F"%char (S n)).
      now rewrite <- repeat_cons.
    + assert (16 <= m).
      { subst m. rewrite Nat2Z.inj_succ, Z.pow_succ_r by lia.
        assert (0 < 16 ^ Z.of_nat n) by (apply Z.pow_pos_nonneg; lia). lia. }
      pose proof (Z.mod_le (e / 16) m Hq Hm). lia.
    + reflexivity.
Qed.

Lemma F_run_is_flagged e (N : Z) :
  2 <= N ->
  0 <= e -> e mod 16 ^ N = 16 ^ N - 1 ->
  has_repeated_chars (hex_text e) N = true.
Proof.
  intros HN He Hmod. apply has_repeated_chars_spec; [exact HN|].
  assert (EN : N = Z.of_nat (S (Z.to_nat (N - 1)))) by lia.
  rewrite EN in Hmod.
  destruct (hex_text_ends_with_F_run _ e He Hmod) as (pre & Hpre).
  exists "F"%char, pre, []. split; [discriminate|].
  rewrite Hpre, app_nil_r. f_equal. f_equal. lia.
Qed.

(** The end of a block that the master range does not cut short. *)
Lemma aligned_block_end bm i m :
  0 < m ->
  BlockManager.range_start bm mod m = 0 ->
  BlockManager.block_size bm mod m = 0 ->
  0 <= BlockManager.range_start bm ->
  0 < BlockManager.block_size bm ->
  0 <= i ->
  BlockManager.range_start bm + (i + 1) * BlockManager.block_size bm - 1
    <= BlockManager.range_end bm ->
  0 <= snd (BlockManager.get_block bm i) /\
  snd (BlockManager.get_block bm i) mod m = m - 1.
Proof.
  intros Hm Hs Hb Hs0 Hb0 Hi Hfit.
  unfold BlockManager.get_block. cbn [snd].
  rewrite Z.min_l by lia.
  apply Z.mod_divide in Hs as [a Ha]; [|lia].
  apply Z.mod_divide in Hb as [b Hb]; [|lia].
  assert (0 <= i * BlockManager.block_size bm) by (apply Z.mul_nonneg_nonneg; lia).
  split; [lia|].
  replace (BlockManager.range_start bm + i * BlockManager.block_size bm
           + BlockManager.block_size bm - 1)
    with ((m - 1) + (a + i * b + b - 1) * m) by (rewrite Ha, Hb; ring).
  rewrite Z.mod_add by lia. apply Z.mod_small. lia.
Qed.

End AlignedBlocks.

(** X13.  With a block size and a range start that are multiples of
    [0x1000], the last key of every block that the master range does not cut
    short ends with the digits [FFF]; the pattern filter "repeated-3"
    therefore excludes every such block.  The same holds for "repeated-4"
    with multiples of [0x10000]. *)
Theorem repeated_run_filter_excludes_aligned_blocks
  (w : KeyHuntSmartGUI.widgets) (bm : BlockManager.t) (i : Z) :
  0 <= BlockManager.range_start bm ->
  0 < BlockManager.block_size bm ->
  0 <= i ->
  BlockManager.range_start bm + (i + 1) * BlockManager.block_size bm - 1
    <= BlockManager.range_end bm ->
  let block := BlockManager.get_block bm i in
  (KeyHuntSmartGUI.exclude_iter3 w = true ->
   BlockManager.range_start bm mod 0x1000 = 0 ->
   BlockManager.block_size bm mod 0x1000 = 0 ->
   KeyHuntSmartGUI.should_skip_block_by_pattern w (fst block) (snd block)
     = (true, Some (str "repeated-3"))) /\
  (KeyHuntSmartGUI.exclude_iter3 w = false ->
   KeyHuntSmartGUI.exclude_iter4 w = true ->
   BlockManager.range_start bm mod 0x10000 = 0 ->
   BlockManager.block_size bm mod 0x10000 = 0 ->
   KeyHuntSmartGUI.should_skip_block_by_pattern w (fst block) (snd block)
     = (true, Some (str "repeated-4"))).
Proof.
  intros Hs0 Hb0 Hi Hfit. cbv zeta.
  unfold KeyHuntSmartGUI.should_skip_block_by_pattern. split.
  - intros H3 Hs Hb. rewrite H3.
    destruct (aligned_block_end bm i 0x1000 ltac:(lia) Hs Hb Hs0 Hb0 Hi Hfit)
      as (He & Hmod).
    rewrite (F_run_is_flagged _ 3 ltac:(lia) He Hmod).
    now rewrite orb_true_r.
  - intros H3 H4 Hs Hb. rewrite H3, H4.
    destruct (aligned_block_end bm i 0x10000 ltac:(lia) Hs Hb Hs0 Hb0 Hi Hfit)
      as (He & Hmod).
    rewrite (F_run_is_flagged _ 4 ltac:(lia) He Hmod).
    now rewrite orb_true_r.
Qed.

Lemma repeated_run_filter_excludes_aligned_blocks_witness :
  KeyHuntSmartGUI.exclude_iter3 puzzle_71_entries = true /\
  BlockManager.range_start puzzle_71_partition mod 0x1000 = 0 /\
  BlockManager.block_size puzzle_71_partition mod 0x1000 = 0 /\
  KeyHuntSmartGUI.should_skip_block_by_pattern puzzle_71_entries
    (fst (BlockManager.get_block puzzle_71_partition 1000000))
    (snd (BlockManager.get_block puzzle_71_partition 1000000))
  = (true, Some (str "repeated-3")).
Proof.
  split; [reflexivity|]. split; [reflexivity|]. split; [reflexivity|].
  refine (proj1 (repeated_run_filter_excludes_aligned_blocks puzzle_71_entries
                   puzzle_71_partition 1000000 _ _ _ _) _ _ _);
    try reflexivity; cbn; lia.
Defined.

(** ** The filter on texts of one kind *)

Section OneKind.

Import Py KeyHuntSmartGUI.

Lemma code_digit_kinds c :
  PoolScraper.is_code_digit c = true ->
  existsb (Ascii.eqb c) (str "ABCDEFabcdef") = between 65 70 c /\
  existsb (Ascii.eqb c) (str "0123456789") = isdigit c /\
  between 65 70 c = negb (isdigit c).
Proof.
  destruct c as [[] [] [] [] [] [] [] []]; intros H;
    solve [discriminate H | repeat split; reflexivity].
Qed.

Lemma one_kind_counts s :
  forallb PoolScraper.is_code_digit s = true ->
  existsb (fun c => existsb (Ascii.eqb c) (str "ABCDEFabcdef")) s
    = negb (forallb isdigit s) /\
  existsb (fun c => existsb (Ascii.eqb c) (str "0123456789")) s
    = negb (forallb (between 65 70) s).
Proof.
  induction s as [|c r IH]; intros H; [split; reflexivity|].
  cbn [forallb] in H. apply andb_prop in H as [Hc Hr].
  destruct (IH Hr) as [IH1 IH2].
  destruct (code_digit_kinds c Hc) as (E1 & E2 & E3).
  cbn [existsb forallb]. rewrite IH1, IH2, E1, E2, E3.
  split; destruct (isdigit c), (forallb isdigit r), (forallb (between 65 70) r);
    reflexivity.
Qed.

Lemma kinds_exclude_each_other s :
  forallb PoolScraper.is_code_digit s = true -> s <> [] ->
  forallb isdigit s = true -> forallb (between 65 70) s = true -> False.
Proof.
  intros H Hne Hd Hl. destruct s as [|c r]; [contradiction|].
  cbn [forallb] in H, Hd, Hl.
  apply andb_prop in H as [Hc _]. apply andb_prop in Hd as [Hd _].
  apply andb_prop in Hl as [Hl _].
  destruct (code_digit_kinds c Hc) as (_ & _ & E).
  rewrite Hd, Hl in E. discriminate E.
Qed.

End OneKind.

(** X14.  On a text of upper-case hexadecimal digits, as the ledger and the
    pattern filter write the boundaries of a block,
    [is_all_alpha_or_numeric] holds exactly when the text is not empty and
    is made of decimal digits only or of the letters [A] to [F] only. *)
Theorem is_all_alpha_or_numeric_on_hex_texts (s : pystr) :
  forallb PoolScraper.is_code_digit s = true ->
  (KeyHuntSmartGUI.is_all_alpha_or_numeric s = true <->
   s <> [] /\
   (forallb Py.isdigit s = true \/ forallb (Py.between 65 70) s = true)).
Proof.
  intros H. unfold KeyHuntSmartGUI.is_all_alpha_or_numeric. cbv zeta.
  destruct (one_kind_counts s H) as [-> ->].
  pose proof (kinds_exclude_each_other s H) as Hex.
  destruct s as [|c r]; [cbn; split; [discriminate|intros [[] _]]; reflexivity|].
  assert (Hne : c :: r <> []) by discriminate.
  specialize (Hex Hne).
  destruct (forallb Py.isdigit (c :: r)), (forallb (Py.between 65 70) (c :: r));
    cbn; split; try discriminate; try tauto; auto;
    try (intros _; exfalso; now apply Hex);
    try (intros [_ [E|E]]; discriminate E).
Qed.

Lemma is_all_alpha_or_numeric_on_hex_texts_witness :
  forallb PoolScraper.is_code_digit (Py.hex_text 0x400000003000000000) = true /\
  KeyHuntSmartGUI.is_all_alpha_or_numeric (Py.hex_text 0x400000003000000000)
    = true /\
  KeyHuntSmartGUI.is_all_alpha_or_numeric (Py.hex_text 0x400000003FFFFFFFFF)
    = false.
Proof.
  split; [reflexivity|]. split; [|reflexivity].
  apply (is_all_alpha_or_numeric_on_hex_texts (Py.hex_text 0x400000003000000000));
    [reflexivity|].
  split; [discriminate|]. left. reflexivity.
Defined.

(** ** What the read loop counts *)

Section ReadCounts.

Import KeyHuntSmartGUI.

(** A handler whose result, when it returns, satisfies [Q]. *)
Let yields {A} (Q : A -> Prop) (m : action A) : Prop :=
  forall st st' a, m st = (st', Returned a) -> Q a.

Lemma yields_bind {A B} (Q : B -> Prop) (m : action A) (k : A -> action B) :
  (forall a, yields Q (k a)) -> yields Q (abind m k).
Proof.
  intros H st st' b. unfold abind.
  destruct (m st) as [st1 [a|e]]; [apply H|discriminate].
Qed.

Lemma yields_ret {A} (Q : A -> Prop) a : Q a -> yields Q (ret a).
Proof. intros H st st' b [= _ <-]. exact H. Qed.

Lemma yields_weaken {A} (Q Q' : A -> Prop) m :
  (forall a, Q a -> Q' a) -> yields Q m -> yields Q' m.
Proof. intros H Hm st st' a E. eapply H, Hm, E. Qed.

Lemma read_lines_yields lines : forall lines_read keyhunt_error,
  yields (fun counters =>
            lines_read <= fst counters
              <= lines_read + Z.of_nat (List.length lines) /\
            (keyhunt_error = true -> snd counters = true))
         (read_lines lines lines_read keyhunt_error).
Proof.
  induction lines as [|raw rest IH]; intros lines_read keyhunt_error.
  - apply yields_ret. cbn. split; [lia|auto].
  - assert (Hstop : yields (fun counters =>
                      lines_read <= fst counters
                        <= lines_read + Z.of_nat (List.length (raw :: rest)) /\
                      (keyhunt_error = true -> snd counters = true))
                    (ret (lines_read, keyhunt_error))).
    { apply yields_ret. cbn [fst snd List.length]. split; [lia|auto]. }
    assert (Hsame : yields (fun counters =>
                      lines_read <= fst counters
                        <= lines_read + Z.of_nat (List.length (raw :: rest)) /\
                      (keyhunt_error = true -> snd counters = true))
                    (read_lines rest lines_read keyhunt_error)).
    { eapply yields_weaken; [|apply IH]. cbn [List.length].
      intros a [H1 H2]. split; [lia|exact H2]. }
    assert (Herr : yields (fun counters =>
                      lines_read <= fst counters
                        <= lines_read + Z.of_nat (List.length (raw :: rest)) /\
                      (keyhunt_error = true -> snd counters = true))
                    (read_lines rest (lines_read + 1) true)).
    { eapply yields_weaken; [|apply IH]. cbn [List.length].
      intros a [H1 H2]. split; [lia|auto]. }
    assert (Hone : yields (fun counters =>
                      lines_read <= fst counters
                        <= lines_read + Z.of_nat (List.length (raw :: rest)) /\
                      (keyhunt_error = true -> snd counters = true))
                    (read_lines rest (lines_read + 1) keyhunt_error)).
    { eapply yields_weaken; [|apply IH]. cbn [List.length].
      intros a [H1 H2]. split; [lia|exact H2]. }
    cbn [read_lines]. destruct raw as [|c raw']; [exact Hstop|].
    repeat first
      [ exact Hstop | exact Hsame | exact Herr | exact Hone
      | apply yields_bind; intros ?
      | match goal with
        | |- yields _ (match ?x with _ => _ end) => destruct x
        | |- yields _ (if ?x then _ else _) => destruct x
        end ].
Qed.

Lemma read_lines_counts lines lines_read keyhunt_error st st' lines_read' keyhunt_error' :
  read_lines lines lines_read keyhunt_error st
    = (st', Returned (lines_read', keyhunt_error')) ->
  lines_read <= lines_read' <= lines_read + Z.of_nat (List.length lines) /\
  (keyhunt_error = true -> keyhunt_error' = true).
Proof. intros E. exact (read_lines_yields lines lines_read keyhunt_error _ _ _ E). Qed.

(** A session that is stopped or paused reads nothing. *)
Lemma read_lines_stopped lines lines_read keyhunt_error st :
  is_running st = false \/ is_paused st = true ->
  read_lines lines lines_read keyhunt_error st
    = (st, Returned (lines_read, keyhunt_error)).
Proof.
  intros H. destruct lines as [|[|c raw] rest]; try reflexivity.
  cbn [read_lines]. rewrite abind_get.
  now destruct H as [-> | ->]; [|rewrite orb_true_r].
Qed.

(** A first line that carries an error marker. *)
Lemma read_lines_error_line raw rest lines_read keyhunt_error st :
  raw <> [] ->
  is_running st = true -> is_paused st = false ->
  Py.contains (str "Wrong args") (Py.strip raw)
    || Py.contains (str "ERROR") (Py.strip raw)
    || Py.contains (str "Error:") (Py.strip raw) = true ->
  read_lines (raw :: rest) lines_read keyhunt_error st
    = read_lines rest (lines_read + 1) true st.
Proof.
  intros Hraw Hrun Hp Herr. destruct raw as [|c raw']; [contradiction|].
  cbn [read_lines]. rewrite abind_get, Hrun, Hp. cbn [negb orb].
  destruct (Py.strip (c :: raw')) as [|d line] eqn:E.
  - discriminate Herr.
  - now rewrite Herr.
Qed.

End ReadCounts.

(** ** Runs of the block search that complete nothing *)

Section NoCompletion.

Import KeyHuntSmartGUI.

(** A run whose read loop cannot pass the completion gate. *)
Lemma run_without_completion run st block_start block_end cmd :
  current_block st = Some (block_start, block_end) ->
  build_keyhunt_command (set_session_keys 0 st) block_start block_end
    = Returned cmd ->
  (forall pid st2 lines_read keyhunt_error,
     launch run = Returned pid ->
     read_lines (output run) 0 false
       (add_effect (Popen cmd pid)
          (set_process (Some pid) (set_session_keys 0 st)))
       = (st2, Returned (lines_read, keyhunt_error)) ->
     completion_gate (is_paused st2) (wait run) lines_read keyhunt_error = false) ->
  let r := run_block_search run st in
  snd r <> CompletionQueued /\
  is_running (fst r) = false /\
  scan_db (fst r) = scan_db st /\
  keys_checked (fst r) = keys_checked st /\
  current_block (fst r) = current_block st /\
  then_idle (fun s => fst (run_block_search run s)) st = fst r.
Proof.
  intros Hb Hcmd Hgate. cbv zeta.
  pose proof (search_then_idle run st _ _ Hb) as Hidle.
  rewrite Hidle. clear Hidle.
  rewrite (run_block_search_eq run st _ _ cmd Hb Hcmd). cbv zeta.
  set (st0 := set_session_keys 0 st) in *.
  pose proof (search_try_cases cmd run st0) as C.
  pose proof (search_case_effects _ _ _ _ _ C) as (Hdb & Hcur & Hk & _).
  change (scan_db st0) with (scan_db st) in Hdb.
  change (current_block st0) with (current_block st) in Hcur.
  change (keys_checked st0) with (keys_checked st) in Hk.
  destruct C as [e El|pid st2 e El Er|pid st2 lr ke El Er G
                |pid st2 lr ke st3 n El Er G S H3 Hn Hlt
                |pid st2 lr ke n El Er G S Hn Hge|pid st2 lr ke El Er G S];
    cbn [fst snd] in *;
    try (rewrite (Hgate pid st2 lr ke El Er) in G; discriminate G);
    (split; [discriminate|]); (split; [reflexivity|]);
    (split; [exact Hdb|]); (split; [exact Hk|]); (split; [exact Hcur|]);
    reflexivity.
Qed.

(** A run on a block for which no command can be built: the thread ends
    before its [try] block and has only reset [session_keys]. *)
Lemma run_that_died run st block_start block_end :
  current_block st = Some (block_start, block_end) ->
  Py.float_of_int_raises
    (block_end - actual_start st block_start block_end + 1) = true ->
  let r := run_block_search run st in
  r = (set_session_keys 0 st, Died Py.OverflowError) /\
  then_idle (fun s => fst (run_block_search run s)) st = set_session_keys 0 st.
Proof.
  intros Hb Hbig. cbv zeta.
  destruct (build_keyhunt_command_cases (set_session_keys 0 st)
              block_start block_end) as [[Hs _] | [_ Hcmd]].
  - change (actual_start (set_session_keys 0 st) block_start block_end)
      with (actual_start st block_start block_end) in Hs. congruence.
  - rewrite (search_then_idle run st _ _ Hb).
    rewrite (run_block_search_died run st _ _ _ Hb Hcmd). split; reflexivity.
Qed.

(** A run on a block for which the command can be built. *)
Lemma run_that_started st block_start block_end :
  Py.float_of_int_raises
    (block_end - actual_start st block_start block_end + 1) = false ->
  exists cmd,
    build_keyhunt_command (set_session_keys 0 st) block_start block_end
      = Returned cmd.
Proof.
  intros Hsmall.
  destruct (build_keyhunt_command_cases (set_session_keys 0 st)
              block_start block_end) as [[_ (cmd & Hcmd & _)] | [Hb _]].
  - now exists cmd.
  - change (actual_start (set_session_keys 0 st) block_start block_end)
      with (actual_start st block_start block_end) in Hb. congruence.
Qed.

End NoCompletion.



(** X16.  A first line of output that carries one of the error markers
    ("Wrong args", "ERROR", "Error:") makes the run fatal whatever follows:
    the completion is not queued, the session is left not running, and the
    ledger, [keys_checked] and the current block stay as they were.  On a
    block whose number of keys left has no nearest double the thread ends
    before it launches the worker: no line is read and [is_running] stays
    as it was. *)
Theorem error_line_prevents_completion
  (run : KeyHuntSmartGUI.worker_run) (st : KeyHuntSmartGUI.gui)
  (block_start block_end : Z) (raw : pystr) (rest : list pystr) :
  KeyHuntSmartGUI.current_block st = Some (block_start, block_end) ->
  KeyHuntSmartGUI.is_running st = true ->
  KeyHuntSmartGUI.is_paused st = false ->
  KeyHuntSmartGUI.output run = raw :: rest ->
  raw <> [] ->
  Py.contains (str "Wrong args") (Py.strip raw)
    || Py.contains (str "ERROR") (Py.strip raw)
    || Py.contains (str "Error:") (Py.strip raw) = true ->
  let r := KeyHuntSmartGUI.run_block_search run st in
  let after_callbacks :=
    KeyHuntSmartGUI.then_idle
      (fun s => fst (KeyHuntSmartGUI.run_block_search run s)) st in
  let keys_to_search :=
    block_end - KeyHuntSmartGUI.actual_start st block_start block_end + 1 in
  snd r <> KeyHuntSmartGUI.CompletionQueued /\
  KeyHuntSmartGUI.scan_db after_callbacks = KeyHuntSmartGUI.scan_db st /\
  KeyHuntSmartGUI.keys_checked after_callbacks = KeyHuntSmartGUI.keys_checked st /\
  KeyHuntSmartGUI.current_block after_callbacks = KeyHuntSmartGUI.current_block st /\
  (Py.float_of_int_raises keys_to_search = false ->
   KeyHuntSmartGUI.is_running (fst r) = false) /\
  (Py.float_of_int_raises keys_to_search = true ->
   r = (KeyHuntSmartGUI.set_session_keys 0 st,
        KeyHuntSmartGUI.Died Py.OverflowError)).
Proof.
  intros Hb Hrun Hp Hout Hraw Herr. cbv zeta.
  destruct (Py.float_of_int_raises
              (block_end - KeyHuntSmartGUI.actual_start st block_start block_end
               + 1)) eqn:Hbig.
  - destruct (run_that_died run st _ _ Hb Hbig) as [Hr Hidle].
    cbv zeta in Hr. rewrite Hidle, Hr. cbn [fst snd].
    split; [discriminate|]. split; [reflexivity|]. split; [reflexivity|].
    split; [reflexivity|].
    split; [intros H; discriminate H | intros _; reflexivity].
  - destruct (run_that_started st _ _ Hbig) as [cmd Hcmd].
    destruct (run_without_completion run st _ _ cmd Hb Hcmd)
      as (H1 & H2 & H3 & H4 & H5 & H6).
    + intros pid st2 lr ke _ Er. rewrite Hout in Er.
      rewrite read_lines_error_line in Er by assumption.
      apply read_lines_counts in Er as [_ Hke].
      unfold completion_gate. rewrite Hke by reflexivity.
      now rewrite andb_false_r.
    + cbv zeta in H1, H2, H3, H4, H5, H6. rewrite H6.
      split; [exact H1|]. split; [exact H3|]. split; [exact H4|].
      split; [exact H5|].
      split; [intros _; exact H2 | intros H; discriminate H].
Qed.

Lemma error_line_prevents_completion_witness :
  let run :=
    KeyHuntSmartGUI.mk_run (Returned 8%nat)
      (str "ERROR: no CUDA device" ::
       repeat (str "[00:00:01] [GPU: 226.00 Mk/s] [T: 64]") 10)
      (KeyHuntSmartGUI.Exited 0) in
  Py.contains (str "ERROR") (Py.strip (str "ERROR: no CUDA device")) = true /\
  snd (KeyHuntSmartGUI.run_block_search run searching_block_0)
    <> KeyHuntSmartGUI.CompletionQueued /\
  KeyHuntSmartGUI.is_running
    (fst (KeyHuntSmartGUI.run_block_search run searching_block_0)) = false.
Proof.
  cbv zeta. split; [reflexivity|].
  pose proof (error_line_prevents_completion
                (KeyHuntSmartGUI.mk_run (Returned 8%nat)
                   (str "ERROR: no CUDA device" ::
                    repeat (str "[00:00:01] [GPU: 226.00 Mk/s] [T: 64]") 10)
                   (KeyHuntSmartGUI.Exited 0))
                searching_block_0 0x400 0x43F _ _
                eq_refl eq_refl eq_refl eq_refl ltac:(discriminate) eq_refl)
    as (H1 & _ & _ & _ & H5 & _).
  split; [exact H1|exact (H5 eq_refl)].
Defined.

(** X17.  A search thread that runs while the session is stopped or
    paused reads no line of the worker it launches: nothing is counted, no
    match is taken, the completion is not queued, and the thread leaves the
    session not running, also when it was only paused.  The worker it
    launched is still the current process and was not asked to terminate.
    On a block whose number of keys left has no nearest double the thread
    ends before it launches a worker: [is_running] and [process] stay as
    they were. *)
Theorem stopped_or_paused_session_searches_nothing
  (run : KeyHuntSmartGUI.worker_run) (st : KeyHuntSmartGUI.gui)
  (block_start block_end : Z) :
  KeyHuntSmartGUI.current_block st = Some (block_start, block_end) ->
  KeyHuntSmartGUI.is_running st = false \/ KeyHuntSmartGUI.is_paused st = true ->
  let r := KeyHuntSmartGUI.run_block_search run st in
  let keys_to_search :=
    block_end - KeyHuntSmartGUI.actual_start st block_start block_end + 1 in
  snd r <> KeyHuntSmartGUI.CompletionQueued /\
  KeyHuntSmartGUI.session_keys (fst r) = 0 /\
  KeyHuntSmartGUI.matches_found (fst r) = KeyHuntSmartGUI.matches_found st /\
  KeyHuntSmartGUI.keys_checked (fst r) = KeyHuntSmartGUI.keys_checked st /\
  KeyHuntSmartGUI.scan_db (fst r) = KeyHuntSmartGUI.scan_db st /\
  (Py.float_of_int_raises keys_to_search = false ->
   KeyHuntSmartGUI.is_running (fst r) = false /\
   forall pid,
     KeyHuntSmartGUI.launch run = Returned pid ->
     KeyHuntSmartGUI.process (fst r) = Some pid /\
     ~ In (KeyHuntSmartGUI.Terminate pid)
          (skipn (List.length (KeyHuntSmartGUI.effects st))
                 (KeyHuntSmartGUI.effects (fst r)))) /\
  (Py.float_of_int_raises keys_to_search = true ->
   r = (KeyHuntSmartGUI.set_session_keys 0 st,
        KeyHuntSmartGUI.Died Py.OverflowError)).
Proof.
  intros Hb Hstop. cbv zeta.
  destruct (Py.float_of_int_raises
              (block_end - KeyHuntSmartGUI.actual_start st block_start block_end
               + 1)) eqn:Hbig.
  { destruct (run_that_died run st _ _ Hb Hbig) as [Hr _].
    cbv zeta in Hr. rewrite Hr. cbn [fst snd].
    split; [discriminate|]. do 4 (split; [reflexivity|]).
    split; [intros H; discriminate H | intros _; reflexivity]. }
  destruct (run_that_started st _ _ Hbig) as [cmd Hcmd].
  assert (Hgoal :
    let r := KeyHuntSmartGUI.run_block_search run st in
    snd r <> KeyHuntSmartGUI.CompletionQueued /\
    KeyHuntSmartGUI.is_running (fst r) = false /\
    KeyHuntSmartGUI.session_keys (fst r) = 0 /\
    KeyHuntSmartGUI.matches_found (fst r) = KeyHuntSmartGUI.matches_found st /\
    KeyHuntSmartGUI.keys_checked (fst r) = KeyHuntSmartGUI.keys_checked st /\
    KeyHuntSmartGUI.scan_db (fst r) = KeyHuntSmartGUI.scan_db st /\
    (forall pid,
       KeyHuntSmartGUI.launch run = Returned pid ->
       KeyHuntSmartGUI.process (fst r) = Some pid /\
       ~ In (KeyHuntSmartGUI.Terminate pid)
            (skipn (List.length (KeyHuntSmartGUI.effects st))
                   (KeyHuntSmartGUI.effects (fst r))))).
  2:{ cbv zeta in Hgoal. destruct Hgoal as (G1 & G2 & G3 & G4 & G5 & G6 & G7).
      split; [exact G1|]. split; [exact G3|]. split; [exact G4|].
      split; [exact G5|]. split; [exact G6|].
      split; [intros _; split; [exact G2 | exact G7] | intros H; discriminate H]. }
  cbv zeta.
  rewrite (run_block_search_eq run st _ _ cmd Hb Hcmd). cbv zeta.
  set (st0 := KeyHuntSmartGUI.set_session_keys 0 st) in *.
  pose proof (search_try_cases cmd run st0) as C.
  assert (Hread : forall pid,
            KeyHuntSmartGUI.read_lines (KeyHuntSmartGUI.output run) 0 false
              (KeyHuntSmartGUI.add_effect (KeyHuntSmartGUI.Popen cmd pid)
                 (KeyHuntSmartGUI.set_process (Some pid) st0))
            = (KeyHuntSmartGUI.add_effect (KeyHuntSmartGUI.Popen cmd pid)
                 (KeyHuntSmartGUI.set_process (Some pid) st0),
               Returned (0, false))).
  { intros pid. apply read_lines_stopped. exact Hstop. }
  destruct C as [e El|pid st2 e El Er|pid st2 lr ke El Er G
                |pid st2 lr ke st3 n El Er G S H3 Hn Hlt
                |pid st2 lr ke n El Er G S Hn Hge|pid st2 lr ke El Er G S];
    try (rewrite Hread in Er;
         first [discriminate Er | injection Er as <- <- <-]);
    cbn [fst snd].
  - split; [discriminate|]. do 5 (split; [reflexivity|]).
    intros p Hl. congruence.
  - exfalso. unfold completion_gate in G. cbn in G.
    now rewrite andb_false_r in G.
  - assert (Hst3 : KeyHuntSmartGUI.session_keys st3 = 0 /\
                   KeyHuntSmartGUI.matches_found st3
                     = KeyHuntSmartGUI.matches_found st /\
                   KeyHuntSmartGUI.keys_checked st3
                     = KeyHuntSmartGUI.keys_checked st /\
                   KeyHuntSmartGUI.scan_db st3 = KeyHuntSmartGUI.scan_db st /\
                   KeyHuntSmartGUI.process st3 = Some pid /\
                   KeyHuntSmartGUI.effects st3
                     = KeyHuntSmartGUI.effects st ++ [KeyHuntSmartGUI.Popen cmd pid])
      by (destruct H3 as [-> | ->]; repeat split; reflexivity).
    destruct Hst3 as (A1 & A2 & A3 & A4 & A5 & A6).
    split; [discriminate|]. split; [reflexivity|].
    split; [exact A1|]. split; [exact A2|]. split; [exact A3|].
    split; [exact A4|].
    intros p Hl. split; [cbn; congruence|].
    cbn [KeyHuntSmartGUI.effects KeyHuntSmartGUI.set_is_running
         KeyHuntSmartGUI.set_retry_count].
    rewrite A6, skipn_appended. intros [Hin|[]]. discriminate Hin.
  - split; [discriminate|]. do 5 (split; [reflexivity|]).
    intros p Hl. split; [cbn; congruence|].
    change (KeyHuntSmartGUI.effects _)
      with (KeyHuntSmartGUI.effects st ++ [KeyHuntSmartGUI.Popen cmd pid]) at 2.
    rewrite skipn_appended. intros [Hin|[]]. discriminate Hin.
  - split; [discriminate|]. do 5 (split; [reflexivity|]).
    intros p Hl. split; [cbn; congruence|].
    change (KeyHuntSmartGUI.effects _)
      with (KeyHuntSmartGUI.effects st ++ [KeyHuntSmartGUI.Popen cmd pid]) at 2.
    rewrite skipn_appended. intros [Hin|[]]. discriminate Hin.
Qed.

Lemma stopped_or_paused_session_searches_nothing_witness :
  let st := KeyHuntSmartGUI.set_is_running false searching_block_0 in
  KeyHuntSmartGUI.current_block st = Some (0x400, 0x43F) /\
  KeyHuntSmartGUI.is_running st = false /\
  snd (KeyHuntSmartGUI.run_block_search run_reporting_64_keys st)
    <> KeyHuntSmartGUI.CompletionQueued /\
  KeyHuntSmartGUI.session_keys
    (fst (KeyHuntSmartGUI.run_block_search run_reporting_64_keys st)) = 0.
Proof.
  cbv zeta. split; [reflexivity|]. split; [reflexivity|].
  pose proof (stopped_or_paused_session_searches_nothing run_reporting_64_keys
                (KeyHuntSmartGUI.set_is_running false searching_block_0)
                0x400 0x43F eq_refl (or_introl eq_refl))
    as (H1 & H2 & _).
  split; [exact H1|exact H2].
Defined.

(** ** Pause, stop and start *)

Section PauseStopStart.

Import KeyHuntSmartGUI.

Lemma on_pause_eq st :
  is_running st = true -> is_paused st = false ->
  on_pause st =
    (save_current_state
       (let st1 := set_keys_checked (keys_checked st + session_keys st)
                     (set_is_paused true st) in
        match process st with
        | Some pid => add_effect (Terminate pid) st1
        | None => st1
        end), Returned tt).
Proof.
  intros Hrun Hp. unfold on_pause. rewrite abind_get, Hrun, Hp. cbn [negb andb].
  rewrite !abind_modify.
  rewrite (abind_returned _ _ _ _ tt (terminate_process_eq _)).
  cbn [process set_keys_checked set_is_paused].
  unfold modify. now destruct (process st).
Qed.

End PauseStopStart.

(** X18.  [on_pause] on a running session folds the keys of the current
    run into [keys_checked], asks the worker to terminate and writes the
    state file.  A later session, whatever its entries are when it is
    built, loads this file and starts from the same block index, the same
    count of keys and the same two range entries; its other entries, the
    block size among them, are not in the file and stay as the new session
    built them, and it has no current block and is not running. *)
Theorem pause_saves_progress_for_the_next_session
  (st : KeyHuntSmartGUI.gui) (w : KeyHuntSmartGUI.widgets)
  (db : ScanDatabase.t) :
  KeyHuntSmartGUI.is_running st = true ->
  KeyHuntSmartGUI.is_paused st = false ->
  let paused := fst (KeyHuntSmartGUI.on_pause st) in
  let next_session :=
    KeyHuntSmartGUI.load_previous_state
      (KeyHuntSmartGUI.fresh w db (KeyHuntSmartGUI.state_file paused)) in
  KeyHuntSmartGUI.is_paused paused = true /\
  KeyHuntSmartGUI.keys_checked paused
    = KeyHuntSmartGUI.keys_checked st + KeyHuntSmartGUI.session_keys st /\
  (forall pid,
     KeyHuntSmartGUI.process st = Some pid ->
     KeyHuntSmartGUI.effects paused
       = KeyHuntSmartGUI.effects st ++ [KeyHuntSmartGUI.Terminate pid]) /\
  KeyHuntSmartGUI.scan_db paused = KeyHuntSmartGUI.scan_db st /\
  KeyHuntSmartGUI.state_file paused =
    Some (KeyHuntSmartGUI.mk_saved
            (KeyHuntSmartGUI.current_block_index st)
            (KeyHuntSmartGUI.keys_checked st + KeyHuntSmartGUI.session_keys st)
            (KeyHuntSmartGUI.range_start (KeyHuntSmartGUI.entries st))
            (KeyHuntSmartGUI.range_end (KeyHuntSmartGUI.entries st))) /\
  KeyHuntSmartGUI.current_block_index next_session
    = KeyHuntSmartGUI.current_block_index st /\
  KeyHuntSmartGUI.keys_checked next_session
    = KeyHuntSmartGUI.keys_checked st + KeyHuntSmartGUI.session_keys st /\
  KeyHuntSmartGUI.range_start (KeyHuntSmartGUI.entries next_session)
    = KeyHuntSmartGUI.range_start (KeyHuntSmartGUI.entries st) /\
  KeyHuntSmartGUI.range_end (KeyHuntSmartGUI.entries next_session)
    = KeyHuntSmartGUI.range_end (KeyHuntSmartGUI.entries st) /\
  KeyHuntSmartGUI.block_size (KeyHuntSmartGUI.entries next_session)
    = KeyHuntSmartGUI.block_size w /\
  KeyHuntSmartGUI.current_block next_session = None /\
  KeyHuntSmartGUI.is_running next_session = false.
Proof.
  intros Hrun Hp. cbv zeta. rewrite (on_pause_eq st Hrun Hp). cbn [fst].
  destruct (KeyHuntSmartGUI.process st) as [pid|] eqn:E; cbn;
    repeat split; try reflexivity; intros p [= <-]; reflexivity.
Qed.

(** Paused in block 2 of the sample partition with 16 keys checked; the
    next session is built with the entries of the puzzle 71 preset and
    gets the sample range back from the state file. *)
Lemma pause_saves_progress_for_the_next_session_witness :
  let st := KeyHuntSmartGUI.set_session_keys 16 searching_block_2 in
  let paused := fst (KeyHuntSmartGUI.on_pause st) in
  let next_session :=
    KeyHuntSmartGUI.load_previous_state
      (KeyHuntSmartGUI.fresh puzzle_71_entries ScanDatabase.empty
         (KeyHuntSmartGUI.state_file paused)) in
  KeyHuntSmartGUI.is_running st = true /\
  KeyHuntSmartGUI.is_paused st = false /\
  KeyHuntSmartGUI.keys_checked paused = 0 + 16 /\
  KeyHuntSmartGUI.keys_checked next_session = 0 + 16 /\
  KeyHuntSmartGUI.range_start puzzle_71_entries = str "400000000000000000" /\
  KeyHuntSmartGUI.range_start (KeyHuntSmartGUI.entries next_session) = str "400".
Proof.
  cbv zeta. split; [reflexivity|]. split; [reflexivity|].
  pose proof (pause_saves_progress_for_the_next_session
                (KeyHuntSmartGUI.set_session_keys 16 searching_block_2)
                puzzle_71_entries ScanDatabase.empty
                eq_refl eq_refl) as (_ & H2 & _ & _ & _ & _ & H7 & H8 & _).
  split; [exact H2|]. split; [exact H7|]. split; [reflexivity | exact H8].
Defined.

(** X19.  [on_stop] leaves the session not running and not paused, with
    no worker process and the state file written; the ledger, the block
    index and the key count are not touched.  A second [on_stop] changes
    nothing more. *)
Theorem on_stop_is_idempotent (st : KeyHuntSmartGUI.gui) :
  let stopped := fst (KeyHuntSmartGUI.on_stop st) in
  KeyHuntSmartGUI.is_running stopped = false /\
  KeyHuntSmartGUI.is_paused stopped = false /\
  KeyHuntSmartGUI.process stopped = None /\
  KeyHuntSmartGUI.state_file stopped =
    Some (KeyHuntSmartGUI.mk_saved
            (KeyHuntSmartGUI.current_block_index st)
            (KeyHuntSmartGUI.keys_checked st)
            (KeyHuntSmartGUI.range_start (KeyHuntSmartGUI.entries st))
            (KeyHuntSmartGUI.range_end (KeyHuntSmartGUI.entries st))) /\
  KeyHuntSmartGUI.scan_db stopped = KeyHuntSmartGUI.scan_db st /\
  KeyHuntSmartGUI.current_block_index stopped
    = KeyHuntSmartGUI.current_block_index st /\
  KeyHuntSmartGUI.keys_checked stopped = KeyHuntSmartGUI.keys_checked st /\
  KeyHuntSmartGUI.on_stop stopped = (stopped, Returned tt).
Proof.
  cbv zeta. rewrite (on_stop_eq st). cbn [fst].
  destruct (KeyHuntSmartGUI.process st) as [pid|];
    repeat split; rewrite on_stop_eq; reflexivity.
Qed.

(** X20.  [on_start] changes nothing when the session is already
    running, when [int(_, 16)] rejects the text of the range start, of the
    range end or of the block size, or when the block size is zero. *)
Theorem on_start_rejects_bad_configuration (st : KeyHuntSmartGUI.gui) :
  let w := KeyHuntSmartGUI.entries st in
  KeyHuntSmartGUI.is_running st = true \/
  (exists e, Py.int16 (KeyHuntSmartGUI.range_start w) = Raised e) \/
  (exists e, Py.int16 (KeyHuntSmartGUI.range_end w) = Raised e) \/
  (exists e, Py.int16 (KeyHuntSmartGUI.block_size w) = Raised e) \/
  Py.int16 (KeyHuntSmartGUI.block_size w) = Returned 0 ->
  KeyHuntSmartGUI.on_start st = (st, Returned tt).
Proof.
  cbv zeta. intros H. unfold KeyHuntSmartGUI.on_start. rewrite abind_get.
  destruct (KeyHuntSmartGUI.is_running st); [reflexivity|].
  destruct H as [H|[[e H]|[[e H]|[[e H]|H]]]]; [discriminate| | | |];
    rewrite H;
    destruct (Py.int16 (KeyHuntSmartGUI.range_start (KeyHuntSmartGUI.entries st)));
    try reflexivity;
    destruct (Py.int16 (KeyHuntSmartGUI.range_end (KeyHuntSmartGUI.entries st)));
    reflexivity.
Qed.

Lemma on_start_rejects_bad_configuration_witness :
  let st :=
    KeyHuntSmartGUI.fresh
      (KeyHuntSmartGUI.mk_widgets (str "400") (str "4FF") (str "4G")
         (str "./KeyHunt") (str "0") (str "1PWo3JeB9jrGwfHDNpdGK54CRas7fsVzXU")
         false false false)
      ScanDatabase.empty None in
  Py.int16 (str "4G") = Raised Py.ValueError /\
  KeyHuntSmartGUI.on_start st = (st, Returned tt).
Proof.
  cbv zeta. split; [reflexivity|].
  apply on_start_rejects_bad_configuration.
  right. right. right. left. exists Py.ValueError. reflexivity.
Defined.

(** X21.  [on_start] on a range whose end lies below its start builds a
    partition without blocks: the start finds no block, starts no search
    thread and leaves the session not running. *)
Theorem on_start_on_an_inverted_range_finds_nothing
  (st : KeyHuntSmartGUI.gui) (range_start_value range_end_value size : Z) :
  let w := KeyHuntSmartGUI.entries st in
  KeyHuntSmartGUI.is_running st = false ->
  Py.int16 (KeyHuntSmartGUI.range_start w) = Returned range_start_value ->
  Py.int16 (KeyHuntSmartGUI.range_end w) = Returned range_end_value ->
  Py.int16 (KeyHuntSmartGUI.block_size w) = Returned size ->
  1 <= size ->
  range_end_value < range_start_value ->
  0 <= KeyHuntSmartGUI.current_block_index st ->
  let started := fst (KeyHuntSmartGUI.on_start st) in
  (exists bm,
     KeyHuntSmartGUI.block_mgr started = Some bm /\
     BlockManager.total_blocks bm <= 0) /\
  KeyHuntSmartGUI.is_running started = false /\
  KeyHuntSmartGUI.effects started = KeyHuntSmartGUI.effects st /\
  KeyHuntSmartGUI.scan_db started = KeyHuntSmartGUI.scan_db st.
Proof.
  cbv zeta. intros Hrun Hs He Hb Hsize Hinv Hidx.
  rewrite (on_start_eq st _ _ _ Hrun Hs He Hb ltac:(lia)). cbn [fst].
  assert (Hdiv : (range_end_value - range_start_value) / size + 1 <= 0).
  { assert ((range_end_value - range_start_value) / size < 0)
      by (apply Z.div_lt_upper_bound; lia).
    lia. }
  set (bm := BlockManager.mk _ _ _ _).
  destruct (Py.truediv_raises size 226000000).
  - cbn. split; [exists bm; split; [reflexivity|exact Hdiv]|].
    split; [exact Hrun|]. split; reflexivity.
  - cbv zeta.
    rewrite find_next_block_exhausted
      by (cbn [KeyHuntSmartGUI.current_block_index KeyHuntSmartGUI.set_is_running
               KeyHuntSmartGUI.set_block_mgr BlockManager.total_blocks bm]; lia).
    cbn. split; [exists bm; split; [reflexivity|exact Hdiv]|].
    split; [reflexivity|]. split; reflexivity.
Qed.

Lemma on_start_on_an_inverted_range_finds_nothing_witness :
  let st :=
    KeyHuntSmartGUI.fresh
      (KeyHuntSmartGUI.mk_widgets (str "4FF") (str "400") (str "40")
         (str "./KeyHunt") (str "0") (str "1PWo3JeB9jrGwfHDNpdGK54CRas7fsVzXU")
         false false false)
      ScanDatabase.empty None in
  0x400 < 0x4FF /\
  KeyHuntSmartGUI.is_running (fst (KeyHuntSmartGUI.on_start st)) = false /\
  KeyHuntSmartGUI.effects (fst (KeyHuntSmartGUI.on_start st)) = [].
Proof.
  cbv zeta. split; [lia|].
  pose proof (on_start_on_an_inverted_range_finds_nothing
                (KeyHuntSmartGUI.fresh
                   (KeyHuntSmartGUI.mk_widgets (str "4FF") (str "400") (str "40")
                      (str "./KeyHunt") (str "0")
                      (str "1PWo3JeB9jrGwfHDNpdGK54CRas7fsVzXU")
                      false false false)
                   ScanDatabase.empty None)
                0x4FF 0x400 0x40 eq_refl eq_refl eq_refl eq_refl
                ltac:(lia) ltac:(lia) ltac:(cbn; lia)) as (_ & H2 & H3 & _).
  split; [exact H2|exact H3].
Defined.

(** X22.  When the keys counted for the current block do not fit the
    64-bit integer column of the ledger, [on_block_completed] ends with
    [OverflowError] before it has recorded the block: the ledger, the block
    index, the current block and [is_running] stay as they were, and no
    search thread is started. *)
Theorem block_completion_with_too_many_keys_is_lost
  (st : KeyHuntSmartGUI.gui) (block_start block_end : Z) :
  KeyHuntSmartGUI.current_block st = Some (block_start, block_end) ->
  2 ^ 63 <= KeyHuntSmartGUI.keys_checked st + KeyHuntSmartGUI.session_keys st ->
  KeyHuntSmartGUI.on_block_completed st
    = (KeyHuntSmartGUI.set_retry_count (Some 0) st, Raised Py.OverflowError).
Proof.
  intros Hb Hbig. unfold KeyHuntSmartGUI.on_block_completed.
  rewrite abind_modify, abind_get.
  cbn [KeyHuntSmartGUI.current_block KeyHuntSmartGUI.set_retry_count
       KeyHuntSmartGUI.keys_checked KeyHuntSmartGUI.session_keys
       KeyHuntSmartGUI.scan_db].
  rewrite Hb. rewrite abind_lift.
  unfold ScanDatabase.add_my_block.
  destruct (Z.ltb_spec (2 ^ 63 - 1)
              (KeyHuntSmartGUI.keys_checked st + KeyHuntSmartGUI.session_keys st));
    [|lia].
  now rewrite orb_true_r.
Qed.

Lemma block_completion_with_too_many_keys_is_lost_witness :
  let st := KeyHuntSmartGUI.set_session_keys (2 ^ 63) searching_block_0 in
  2 ^ 63 <= KeyHuntSmartGUI.keys_checked st + KeyHuntSmartGUI.session_keys st /\
  KeyHuntSmartGUI.on_block_completed st
    = (KeyHuntSmartGUI.set_retry_count (Some 0) st, Raised Py.OverflowError).
Proof.
  cbv zeta. split; [cbn; lia|].
  apply (block_completion_with_too_many_keys_is_lost _ 0x400 0x43F);
    [reflexivity|cbn; lia].
Defined.

(** ** Pool claims *)

Section PoolClaims.

Import KeyHuntSmartGUI.

Lemma existsb_block_In (blocks : list (Z * Z)) b :
  existsb (fun '(block_start, block_end) =>
             (block_start =? fst b) && (block_end =? snd b)) blocks = true
  <-> In b blocks.
Proof.
  rewrite existsb_exists. split.
  - intros ([s e] & Hin & H). apply andb_prop in H as [H1 H2].
    apply Z.eqb_eq in H1, H2. destruct b as [bs be]. cbn in H1, H2.
    now subst.
  - intros H. exists b. split; [exact H|]. destruct b as [bs be]. cbn.
    now rewrite !Z.eqb_refl.
Qed.

Lemma keys_on_record_nonneg rows :
  Forall (fun row => 0 <= snd (snd row)) rows -> 0 <= keys_on_record rows.
Proof.
  induction 1 as [|row rows Hrow _ IH]; cbn [keys_on_record fold_right]; [lia|].
  fold (keys_on_record rows). lia.
Qed.

Lemma sum_keys_checked_raises rows : forall sum e,
  ScanDatabase.sum_keys_checked sum rows = Raised e -> e = Py.OperationalError.
Proof.
  induction rows as [|[k [b c]] rows IH]; intros sum e; cbn; [discriminate|].
  destruct (_ || _); [now intros [= <-] | apply IH].
Qed.

(** With no negative count on record the partial sums grow: the sum
    fails exactly when the total leaves the 64-bit range. *)
Lemma sum_keys_checked_nonneg rows : forall sum,
  0 <= sum <= 2 ^ 63 - 1 ->
  Forall (fun row => 0 <= snd (snd row)) rows ->
  ScanDatabase.sum_keys_checked sum rows =
    if sum + keys_on_record rows <=? 2 ^ 63 - 1
    then Returned (sum + keys_on_record rows)
    else Raised Py.OperationalError.
Proof.
  induction rows as [|[k [e c]] rows IH]; intros sum Hsum Hpos.
  - cbn. rewrite Z.add_0_r. destruct (Z.leb_spec sum (2 ^ 63 - 1)); [reflexivity|lia].
  - apply Forall_cons_iff in Hpos as [Hc Hpos]. cbn [fst snd] in Hc.
    pose proof (keys_on_record_nonneg rows Hpos) as Hrest.
    cbn [ScanDatabase.sum_keys_checked keys_on_record fold_right snd].
    fold (keys_on_record rows).
    destruct (Z.ltb_spec (sum + c) (- 2 ^ 63)); [lia|].
    destruct (Z.ltb_spec (2 ^ 63 - 1) (sum + c)); cbn [orb].
    + destruct (Z.leb_spec (sum + (c + keys_on_record rows)) (2 ^ 63 - 1));
        [lia|reflexivity].
    + rewrite IH by (auto; lia). now rewrite Z.add_assoc.
Qed.

End PoolClaims.

(** X23.  [scrape_pool] writes every block it is given into the pool
    table and touches nothing else of the coordinator.  It queues the
    collision handler exactly when the session is running, the current
    block is among the blocks and the refresh of the status labels that
    follows the write does not fail; it queues nothing otherwise.  The
    refresh fails when the key counts on record cannot be summed in 64
    bits: with no negative count on record, exactly when they total [2^63]
    or more.  The blocks are then in the pool table all the same. *)
Theorem scrape_pool_queues_the_handler_on_collision_only
  (st : KeyHuntSmartGUI.gui) (scanned_blocks : list (Z * Z)) :
  let st' := KeyHuntSmartGUI.scrape_pool scanned_blocks st in
  let rows := ScanDatabase.my_scanned (KeyHuntSmartGUI.scan_db st) in
  ScanDatabase.pool_scanned (KeyHuntSmartGUI.scan_db st')
    = rows_written scanned_blocks
        (ScanDatabase.pool_scanned (KeyHuntSmartGUI.scan_db st)) /\
  ScanDatabase.my_scanned (KeyHuntSmartGUI.scan_db st') = rows /\
  KeyHuntSmartGUI.process st' = KeyHuntSmartGUI.process st /\
  KeyHuntSmartGUI.is_running st' = KeyHuntSmartGUI.is_running st /\
  KeyHuntSmartGUI.current_block st' = KeyHuntSmartGUI.current_block st /\
  KeyHuntSmartGUI.current_block_index st' = KeyHuntSmartGUI.current_block_index st /\
  KeyHuntSmartGUI.keys_checked st' = KeyHuntSmartGUI.keys_checked st /\
  (KeyHuntSmartGUI.queued st st' = [KeyHuntSmartGUI.cb_handle_block_collision] <->
   KeyHuntSmartGUI.is_running st = true /\
   (exists block, KeyHuntSmartGUI.current_block st = Some block /\
                  In block scanned_blocks) /\
   exists total, ScanDatabase.sum_keys_checked 0 rows = Returned total) /\
  (KeyHuntSmartGUI.queued st st' = [KeyHuntSmartGUI.cb_handle_block_collision] \/
   KeyHuntSmartGUI.queued st st' = []) /\
  (Forall (fun row => 0 <= snd (snd row)) rows ->
   ((exists total, ScanDatabase.sum_keys_checked 0 rows = Returned total) <->
    keys_on_record rows < 2 ^ 63)).
Proof.
  cbv zeta.
  assert (Hq1 : forall s,
            KeyHuntSmartGUI.effects s = KeyHuntSmartGUI.effects st ->
            KeyHuntSmartGUI.queued st s = []).
  { intros s E. unfold KeyHuntSmartGUI.queued. now rewrite E, skipn_all. }
  assert (Hq2 : forall s,
            KeyHuntSmartGUI.effects s = KeyHuntSmartGUI.effects st ->
            KeyHuntSmartGUI.queued st
              (KeyHuntSmartGUI.add_effect
                 (KeyHuntSmartGUI.IdleAdd KeyHuntSmartGUI.cb_handle_block_collision) s)
            = [KeyHuntSmartGUI.cb_handle_block_collision]).
  { intros s E. apply (queued_of_appended st _
                         [KeyHuntSmartGUI.IdleAdd
                            KeyHuntSmartGUI.cb_handle_block_collision]).
    cbn. now rewrite E. }
  assert (Hsum : Forall (fun row => 0 <= snd (snd row))
                   (ScanDatabase.my_scanned (KeyHuntSmartGUI.scan_db st)) ->
                 ((exists total,
                     ScanDatabase.sum_keys_checked 0
                       (ScanDatabase.my_scanned (KeyHuntSmartGUI.scan_db st))
                     = Returned total) <->
                  keys_on_record
                    (ScanDatabase.my_scanned (KeyHuntSmartGUI.scan_db st))
                  < 2 ^ 63)).
  { intros Hpos. rewrite (sum_keys_checked_nonneg _ 0) by (auto; lia).
    rewrite Z.add_0_l.
    destruct (Z.leb_spec
                (keys_on_record
                   (ScanDatabase.my_scanned (KeyHuntSmartGUI.scan_db st)))
                (2 ^ 63 - 1)); split.
    - intros _. lia.
    - intros _. eauto.
    - intros [total Ht]. discriminate Ht.
    - intros Hlt. lia. }
  destruct scanned_blocks as [|b0 l] eqn:El.
  { cbn [KeyHuntSmartGUI.scrape_pool]. rewrite (Hq1 st eq_refl).
    cbn [rows_written fold_left].
    do 7 (split; [reflexivity|]).
    split; [split; [discriminate | intros (_ & (block & _ & []) & _)] |].
    split; [now right | exact Hsum]. }
  assert (Hne : b0 :: l <> []) by discriminate.
  rewrite <- El in *. clear El b0 l.
  rewrite (scrape_pool_eq st scanned_blocks Hne). cbv zeta.
  destruct (add_pool_blocks_facts (KeyHuntSmartGUI.scan_db st) scanned_blocks)
    as (P & M & _).
  set (written :=
         KeyHuntSmartGUI.set_scan_db
           (fst (ScanDatabase.add_pool_blocks (KeyHuntSmartGUI.scan_db st)
                   scanned_blocks)) st).
  assert (Hw : KeyHuntSmartGUI.effects written = KeyHuntSmartGUI.effects st)
    by reflexivity.
  destruct (ScanDatabase.sum_keys_checked 0
              (ScanDatabase.my_scanned (KeyHuntSmartGUI.scan_db st)))
    as [total | e] eqn:Hs.
  2:{ rewrite (Hq1 written Hw). subst written. cbn. rewrite P, M.
      do 7 (split; [reflexivity|]).
      split; [split; [discriminate | intros (_ & _ & total & Ht); discriminate Ht] |].
      split; [now right | exact Hsum]. }
  destruct (KeyHuntSmartGUI.current_block st) as [[cs ce]|] eqn:Hb.
  2:{ rewrite (Hq1 written Hw). subst written. cbn. rewrite P, M, Hb.
      do 7 (split; [reflexivity|]).
      split; [split; [discriminate
                     | intros (_ & (block & Hn & _) & _); discriminate Hn] |].
      split; [now right | exact Hsum]. }
  pose proof (existsb_block_In scanned_blocks (cs, ce)) as Hin.
  cbn [fst snd] in Hin.
  destruct (KeyHuntSmartGUI.is_running st) eqn:Hrun; cbn [andb].
  2:{ rewrite (Hq1 written Hw). subst written. cbn. rewrite P, M, Hb, Hrun.
      do 7 (split; [reflexivity|]).
      split; [split; [discriminate | intros (Hr & _); discriminate Hr] |].
      split; [now right | exact Hsum]. }
  destruct (existsb _ scanned_blocks) eqn:Ex.
  - rewrite (Hq2 written Hw). subst written. cbn. rewrite P, M, Hb, Hrun.
    do 7 (split; [reflexivity|]).
    split; [split; [intros _ | reflexivity] |].
    + split; [reflexivity|]. split; [| now exists total].
      exists (cs, ce). split; [reflexivity|]. now apply Hin.
    + split; [now left | exact Hsum].
  - rewrite (Hq1 written Hw). subst written. cbn. rewrite P, M, Hb, Hrun.
    do 7 (split; [reflexivity|]).
    split; [split; [discriminate |] |].
    + intros (_ & (block & [= <-] & Hblock) & _).
      apply Hin in Hblock. discriminate Hblock.
    + split; [now right | exact Hsum].
Qed.

(** Two blocks on record with [2^62] keys each: their counts total [2^63],
    the refresh fails, and a collision on block 2 of the sample partition
    goes without its handler. *)
Lemma scrape_pool_queues_the_handler_on_collision_only_witness :
  let st :=
    KeyHuntSmartGUI.set_scan_db ledger_with_two_large_counts searching_block_2 in
  Forall (fun row => 0 <= snd (snd row))
    (ScanDatabase.my_scanned (KeyHuntSmartGUI.scan_db st)) /\
  keys_on_record (ScanDatabase.my_scanned (KeyHuntSmartGUI.scan_db st)) = 2 ^ 63 /\
  ~ (exists total,
       ScanDatabase.sum_keys_checked 0
         (ScanDatabase.my_scanned (KeyHuntSmartGUI.scan_db st)) = Returned total) /\
  KeyHuntSmartGUI.queued st
    (KeyHuntSmartGUI.scrape_pool [(0x480, 0x4BF)] st) = [].
Proof.
  cbv zeta.
  pose proof (scrape_pool_queues_the_handler_on_collision_only
                (KeyHuntSmartGUI.set_scan_db ledger_with_two_large_counts
                   searching_block_2)
                [(0x480, 0x4BF)]) as (_ & _ & _ & _ & _ & _ & _ & _ & _ & H).
  assert (Hpos : Forall (fun row => 0 <= snd (snd row))
                   (ScanDatabase.my_scanned
                      (KeyHuntSmartGUI.scan_db
                         (KeyHuntSmartGUI.set_scan_db ledger_with_two_large_counts
                            searching_block_2)))).
  { repeat constructor; cbn; lia. }
  split; [exact Hpos|]. split; [reflexivity|].
  split; [| reflexivity].
  intros Hex. apply (H Hpos) in Hex. vm_compute in Hex. discriminate Hex.
Defined.

(** ** The blocks of a scrape *)

Section ScrapedBlocks.

Import Py PoolScraper.

Lemma concat_map_length {A B} (f : A -> list B) (l : list A) (k : nat) :
  (forall a, In a l -> List.length (f a) = k) ->
  List.length (concat (map f l)) = (k * List.length l)%nat.
Proof.
  induction l as [|a l IH]; intros H; [cbn; lia|].
  cbn [map concat]. rewrite length_app.
  rewrite IH by (intros; apply H; now right).
  rewrite (H a) by now left.
  cbn [List.length]. lia.
Qed.

(** The decoding loops on codes of the shape the two patterns match. *)
Lemma expand_codes_eq unique_ranges unique_challenges :
  Forall (fun id => is_range_id id = true) unique_ranges ->
  Forall (fun p => is_challenge_prefix p = true) unique_challenges ->
  expand_codes unique_ranges unique_challenges =
    concat (map (fun id => range_blocks (firstn 2 id) (skipn 3 id)) unique_ranges)
    ++ concat (map challenge_blocks unique_challenges).
Proof.
  intros Hr Hc. unfold expand_codes.
  rewrite (for_each_map unique_ranges _decode_range_id
             (fun id => range_blocks (firstn 2 id) (skipn 3 id)))
    by (intros id Hid; apply decode_range_id_returns;
        now apply (proj1 (List.Forall_forall _ _) Hr)).
  rewrite (for_each_map unique_challenges _decode_challenge challenge_blocks)
    by (intros p Hp; apply decode_challenge_returns;
        now apply (proj1 (List.Forall_forall _ _) Hc)).
  reflexivity.
Qed.

Lemma decoded_start_offset b unique_ranges unique_challenges :
  In b (concat (map (fun id => range_blocks (firstn 2 id) (skipn 3 id))
                    unique_ranges)
        ++ concat (map challenge_blocks unique_challenges)) ->
  fst b mod 16 ^ 10 = 0x3000000000 /\ snd b = fst b + 0xFFFFFFFFF.
Proof.
  intros Hb. apply in_app_or in Hb as [Hb|Hb];
    apply in_concat in Hb as (row & Hrow & Hb);
    apply in_map_iff in Hrow as (code & <- & _).
  - apply in_map_iff in Hb as (x & <- & _). cbn [fst snd].
    destruct (range_values (firstn 2 code) x (skipn 3 code)) as [-> ->].
    rewrite Z.add_comm, Z.mod_add by lia. split; [reflexivity|lia].
  - apply in_concat in Hb as (row & Hrow & Hb).
    apply in_map_iff in Hrow as (x1 & <- & _).
    apply in_map_iff in Hb as (x2 & <- & _). cbn [fst snd].
    destruct (challenge_values code x1 x2) as [-> ->].
    rewrite Z.add_comm, Z.mod_add by lia. split; [reflexivity|lia].
Qed.

End ScrapedBlocks.

(** X24.  A scrape that found [n] compact range codes and [m] challenge
    prefixes, of the shapes the two patterns match, yields [16 n + 256 m]
    blocks: the sixteen blocks of every code followed by the 256 blocks
    of every challenge prefix. *)
Theorem expand_codes_yields_16_blocks_per_code
  (unique_ranges unique_challenges : list pystr) :
  Forall (fun id => PoolScraper.is_range_id id = true) unique_ranges ->
  Forall (fun p => PoolScraper.is_challenge_prefix p = true) unique_challenges ->
  PoolScraper.expand_codes unique_ranges unique_challenges =
    concat (map (fun id => range_blocks (firstn 2 id) (skipn 3 id)) unique_ranges)
    ++ concat (map challenge_blocks unique_challenges) /\
  List.length (PoolScraper.expand_codes unique_ranges unique_challenges) =
    (16 * List.length unique_ranges + 256 * List.length unique_challenges)%nat.
Proof.
  intros Hr Hc. rewrite (expand_codes_eq _ _ Hr Hc). split; [reflexivity|].
  rewrite length_app.
  rewrite (concat_map_length _ unique_ranges 16)
    by (intros; apply range_blocks_length).
  rewrite (concat_map_length _ unique_challenges 256)
    by (intros; apply challenge_blocks_length).
  reflexivity.
Qed.

Lemma expand_codes_yields_16_blocks_per_code_witness :
  List.length
    (PoolScraper.expand_codes [str "41XA26C0"; str "50XA1EC"] [str "7F"])
  = (16 * 2 + 256 * 1)%nat.
Proof.
  refine (proj2 (expand_codes_yields_16_blocks_per_code
                   [str "41XA26C0"; str "50XA1EC"] [str "7F"] _ _)).
  - repeat constructor.
  - repeat constructor.
Defined.

(** X25.  Every block of a scrape starts [0x3000000000] keys after a
    multiple of [16^10] and holds [0x1000000000] keys.  In a partition with
    blocks of that size whose range starts at a multiple of [16^10], a block
    that the pool claims therefore has an index that is 3 modulo 16: the
    pool's claims never exclude any other block. *)
Theorem scraped_blocks_are_every_sixteenth_block
  (unique_ranges unique_challenges : list pystr) (b : Z * Z) :
  Forall (fun id => PoolScraper.is_range_id id = true) unique_ranges ->
  Forall (fun p => PoolScraper.is_challenge_prefix p = true) unique_challenges ->
  In b (PoolScraper.expand_codes unique_ranges unique_challenges) ->
  fst b mod 16 ^ 10 = 0x3000000000 /\
  snd b = fst b + 0xFFFFFFFFF /\
  forall bm i,
    BlockManager.block_size bm = 0x1000000000 ->
    BlockManager.range_start bm mod 16 ^ 10 = 0 ->
    fst (BlockManager.get_block bm i) = fst b ->
    i mod 16 = 3.
Proof.
  intros Hr Hc Hb. rewrite (expand_codes_eq _ _ Hr Hc) in Hb.
  destruct (decoded_start_offset b _ _ Hb) as [Hmod Hend].
  split; [exact Hmod|]. split; [exact Hend|].
  intros bm i Hsize Hstart Hi.
  unfold BlockManager.get_block in Hi. cbn [fst] in Hi.
  rewrite Hsize in Hi. rewrite <- Hi in Hmod.
  apply Z.mod_divide in Hstart as [k Hk]; [|lia].
  rewrite Hk in Hmod.
  pose proof (Z.div_mod i 16 ltac:(lia)) as Ei.
  pose proof (Z.mod_pos_bound i 16 ltac:(lia)) as Bi.
  replace (k * 16 ^ 10 + i * 0x1000000000)
    with ((i mod 16) * 0x1000000000 + (k + i / 16) * 16 ^ 10) in Hmod
    by (rewrite Ei at 3; change (16 ^ 10) with 1099511627776; ring).
  rewrite Z.mod_add in Hmod by lia.
  rewrite Z.mod_small in Hmod
    by (change (16 ^ 10) with 1099511627776; lia).
  lia.
Qed.

Lemma scraped_blocks_are_every_sixteenth_block_witness :
  In (0x400000003000000000, 0x400000003FFFFFFFFF)
     (PoolScraper.expand_codes [str "40X00000"] []) /\
  forall i,
    fst (BlockManager.get_block puzzle_71_partition i) = 0x400000003000000000 ->
    i mod 16 = 3.
Proof.
  assert (H : In (0x400000003000000000, 0x400000003FFFFFFFFF)
                 (PoolScraper.expand_codes [str "40X00000"] []))
    by (left; reflexivity).
  split; [exact H|].
  intros i Hi.
  refine (proj2 (proj2 (scraped_blocks_are_every_sixteenth_block
                          [str "40X00000"] [] _ _ _ H))
            puzzle_71_partition i _ _ Hi).
  - repeat constructor.
  - constructor.
  - reflexivity.
  - reflexivity.
Defined.

Section ScrapedAndSelected.

Import KeyHuntSmartGUI.

Lemma scrape_pool_ledger scanned_blocks st :
  scanned_blocks <> [] ->
  scan_db (scrape_pool scanned_blocks st)
    = fst (ScanDatabase.add_pool_blocks (scan_db st) scanned_blocks) /\
  entries (scrape_pool scanned_blocks st) = entries st.
Proof.
  intros Hne. rewrite (scrape_pool_eq st scanned_blocks Hne). cbv zeta.
  destruct (ScanDatabase.sum_keys_checked _ _); [| split; reflexivity].
  match goal with
  | |- context [if ?c then _ else _] => destruct c
  end; split; reflexivity.
Qed.

End ScrapedAndSelected.

(** X26.  Every block of a scrape is, once [scrape_pool] has written the
    scrape into the ledger, reported by [is_block_scanned] as scanned by the
    pool, and is therefore passed over by the block selection. *)
Theorem scraped_blocks_are_passed_over
  (unique_ranges unique_challenges : list pystr) (st : KeyHuntSmartGUI.gui)
  (b : Z * Z) :
  Forall (fun id => PoolScraper.is_range_id id = true) unique_ranges ->
  Forall (fun p => PoolScraper.is_challenge_prefix p = true) unique_challenges ->
  In b (PoolScraper.expand_codes unique_ranges unique_challenges) ->
  let st' :=
    KeyHuntSmartGUI.scrape_pool
      (PoolScraper.expand_codes unique_ranges unique_challenges) st in
  ScanDatabase.is_block_scanned (KeyHuntSmartGUI.scan_db st') (fst b) (snd b)
    = (true, Some ScanDatabase.Pool) /\
  passes_over st' b = true.
Proof.
  intros Hr Hc Hb. cbv zeta.
  set (blocks := PoolScraper.expand_codes unique_ranges unique_challenges) in *.
  assert (Hne : blocks <> []) by (intros E; rewrite E in Hb; destruct Hb).
  destruct (scrape_pool_ledger blocks st Hne) as [Hdb _].
  destruct (add_pool_blocks_facts (KeyHuntSmartGUI.scan_db st) blocks) as (P & _).
  assert (Hscanned :
    ScanDatabase.is_block_scanned
      (KeyHuntSmartGUI.scan_db (KeyHuntSmartGUI.scrape_pool blocks st))
      (fst b) (snd b) = (true, Some ScanDatabase.Pool)).
  { unfold ScanDatabase.is_block_scanned. rewrite Hdb, P.
    rewrite (rows_written_functional blocks _ b); [|
      |exact Hb].
    - now rewrite bool_decide_eq_true_2.
    - intros b1 b2 H1 H2 E. subst blocks.
      rewrite (expand_codes_eq _ _ Hr Hc) in H1, H2.
      destruct (decoded_start_offset b1 _ _ H1) as [_ E1].
      destruct (decoded_start_offset b2 _ _ H2) as [_ E2]. lia. }
  split; [exact Hscanned|].
  unfold passes_over. now rewrite Hscanned.
Qed.

Lemma scraped_blocks_are_passed_over_witness :
  In (0x400000003000000000, 0x400000003FFFFFFFFF)
     (PoolScraper.expand_codes [str "40X00000"] []) /\
  passes_over
    (KeyHuntSmartGUI.scrape_pool (PoolScraper.expand_codes [str "40X00000"] [])
       searching_block_0)
    (0x400000003000000000, 0x400000003FFFFFFFFF) = true.
Proof.
  assert (H : In (0x400000003000000000, 0x400000003FFFFFFFFF)
                 (PoolScraper.expand_codes [str "40X00000"] []))
    by (left; reflexivity).
  split; [exact H|].
  refine (proj2 (scraped_blocks_are_passed_over [str "40X00000"] []
                   searching_block_0 _ _ _ H)).
  - repeat constructor.
  - constructor.
Defined.

(** ** Ranges entered by hand *)

Section ManualRanges.

Import Py KeyHuntSmartGUI.

Lemma parse_manual_line_ordered line range :
  parse_manual_line line = Some range -> fst range <= snd range.
Proof.
  unfold parse_manual_line.
  destruct (strip line) as [|c r]; [discriminate|].
  destruct (startswith _ _); [discriminate|].
  match goal with
  | |- match ?parts with _ => _ end = _ -> _ => destruct parts as [[|first [|second [|]]]|]
  end; try discriminate.
  destruct (int16 (strip first)) as [start|]; [|discriminate].
  destruct (int16 (strip second)) as [end_|]; [|discriminate].
  destruct (Z.ltb_spec end_ start); [discriminate|].
  intros [= <-]. exact H.
Qed.

(** The loop of [on_add_manual_my_ranges] never raises: a count of 0
    always fits the column. *)
Lemma add_my_ranges_eq ranges : forall st,
  add_my_ranges ranges st =
    (set_scan_db
       (ScanDatabase.mk
          (ScanDatabase.pool_scanned (scan_db st))
          (fold_left
             (fun m r => <[hex_text (fst r) := (hex_text (snd r), 0)]> m)
             ranges (ScanDatabase.my_scanned (scan_db st))))
       st, Returned tt).
Proof.
  induction ranges as [|[s e] l IH]; intros st.
  - cbn. now destruct st as [? [] ? ? ? ? ? ? ? ? ? ? ? ?].
  - cbn [add_my_ranges]. rewrite abind_get, abind_lift.
    change (ScanDatabase.add_my_block (scan_db st) s e 0)
      with (Returned (ScanDatabase.mk (ScanDatabase.pool_scanned (scan_db st))
                        (<[hex_text s := (hex_text e, 0)]>
                           (ScanDatabase.my_scanned (scan_db st))))).
    cbv beta iota. rewrite abind_modify, IH. reflexivity.
Qed.

Lemma zero_count_rows ranges : forall (m : ScanDatabase.my_rows) k,
  (exists e, m !! k = Some (e, 0)) \/
  (exists r, In r ranges /\ hex_text (fst r) = k) ->
  exists e,
    fold_left (fun m r => <[hex_text (fst r) := (hex_text (snd r), 0)]> m) ranges m
      !! k = Some (e, 0).
Proof.
  induction ranges as [|r0 l IH]; intros m k H.
  - destruct H as [H|(r & [] & _)]. exact H.
  - cbn [fold_left]. apply IH.
    destruct (decide (hex_text (fst r0) = k)) as [E|Hne].
    + left. exists (hex_text (snd r0)). rewrite <- E. apply my_rows_lookup_insert_eq.
    + destruct H as [(e & He)|(r & [<-|Hin] & Hk)].
      * left. exists e. now rewrite my_rows_lookup_insert_ne.
      * contradiction.
      * right. eauto.
Qed.

End ManualRanges.

(** X27.  Every range that [parse_manual_ranges] returns has its start at
    or below its end, and the list has at most one range per line of the
    text. *)
Theorem parse_manual_ranges_are_ordered (text : pystr) :
  Forall (fun range => fst range <= snd range)
         (KeyHuntSmartGUI.parse_manual_ranges text) /\
  (List.length (KeyHuntSmartGUI.parse_manual_ranges text)
   <= List.length (Py.split "010" (Py.strip text)))%nat.
Proof.
  unfold KeyHuntSmartGUI.parse_manual_ranges. split.
  - apply List.Forall_forall. intros range Hin.
    apply in_flat_map in Hin as (line & _ & Hin).
    destruct (KeyHuntSmartGUI.parse_manual_line line) as [r|] eqn:E;
      [|destruct Hin].
    destruct Hin as [<-|[]]. now apply (parse_manual_line_ordered line).
  - induction (Py.split "010" (Py.strip text)) as [|line l IH]; [cbn; lia|].
    cbn [flat_map]. rewrite length_app. cbn [List.length].
    destruct (KeyHuntSmartGUI.parse_manual_line line); cbn [List.length]; lia.
Qed.

(** X28.  [on_add_manual_my_ranges] leaves the pool table alone and puts
    every range of the text on record as searched locally with a key count
    of 0, whatever count its start had on record before; these writes
    never fail, a count of 0 fits the column.  With at least one range in the
    text the handler then refreshes the status labels: it ends with
    [OperationalError], the ranges being on record, when the key counts on
    record cannot be summed in 64 bits, and returns otherwise. *)
Theorem manual_my_ranges_are_recorded_with_no_keys
  (text : pystr) (st : KeyHuntSmartGUI.gui) :
  let run := KeyHuntSmartGUI.on_add_manual_my_ranges text st in
  let ranges := KeyHuntSmartGUI.parse_manual_ranges text in
  let recorded :=
    fold_left
      (fun rows range =>
         <[Py.hex_text (fst range) := (Py.hex_text (snd range), 0)]> rows)
      ranges (ScanDatabase.my_scanned (KeyHuntSmartGUI.scan_db st)) in
  ScanDatabase.my_scanned (KeyHuntSmartGUI.scan_db (fst run)) = recorded /\
  ScanDatabase.pool_scanned (KeyHuntSmartGUI.scan_db (fst run))
    = ScanDatabase.pool_scanned (KeyHuntSmartGUI.scan_db st) /\
  KeyHuntSmartGUI.effects (fst run) = KeyHuntSmartGUI.effects st /\
  KeyHuntSmartGUI.keys_checked (fst run) = KeyHuntSmartGUI.keys_checked st /\
  (forall range,
     In range ranges ->
     exists block_end_hex,
       ScanDatabase.my_scanned (KeyHuntSmartGUI.scan_db (fst run))
         !! Py.hex_text (fst range) = Some (block_end_hex, 0)) /\
  snd run =
    match ranges with
    | [] => Returned tt
    | _ =>
        match ScanDatabase.sum_keys_checked 0 recorded with
        | Returned _ => Returned tt
        | Raised _ => Raised Py.OperationalError
        end
    end.
Proof.
  cbv zeta. unfold KeyHuntSmartGUI.on_add_manual_my_ranges.
  destruct (Py.strip text) as [|c r] eqn:Es.
  - assert (Ep : KeyHuntSmartGUI.parse_manual_ranges text = [])
      by (unfold KeyHuntSmartGUI.parse_manual_ranges; now rewrite Es).
    rewrite Ep. cbn. repeat split; try reflexivity. intros range [].
  - destruct (KeyHuntSmartGUI.parse_manual_ranges text) as [|r0 l] eqn:Ep.
    + cbn. repeat split; try reflexivity. intros range [].
    + rewrite (abind_returned _ _ _ _ _ (add_my_ranges_eq (r0 :: l) st)).
      rewrite update_smart_status_eq. cbn [fst snd].
      cbn [KeyHuntSmartGUI.scan_db KeyHuntSmartGUI.set_scan_db
           KeyHuntSmartGUI.effects KeyHuntSmartGUI.keys_checked
           ScanDatabase.pool_scanned ScanDatabase.my_scanned].
      do 4 (split; [reflexivity|]).
      split; [intros range Hin; apply zero_count_rows; right; eauto |].
      destruct (ScanDatabase.sum_keys_checked 0 _) as [total | e] eqn:Hs;
        [reflexivity |].
      now rewrite (sum_keys_checked_raises _ _ _ Hs).
Qed.

Section ManualLine.

Import Py KeyHuntSmartGUI.

Lemma split_plain sep s :
  forallb (fun c => negb (Ascii.eqb c sep)) s = true -> split sep s = [s].
Proof.
  induction s as [|c r IH]; intros H; [reflexivity|].
  cbn in H. apply andb_prop in H as [Hc Hr]. cbn [split].
  apply negb_true_iff in Hc. now rewrite Hc, IH.
Qed.

Lemma split_at sep a b :
  forallb (fun c => negb (Ascii.eqb c sep)) a = true ->
  split sep (a ++ sep :: b) = a :: split sep b.
Proof.
  induction a as [|c r IH]; intros H.
  - cbn [List.app split]. now rewrite Ascii.eqb_refl.
  - cbn in H. apply andb_prop in H as [Hc Hr]. cbn [List.app split].
    apply negb_true_iff in Hc. now rewrite Hc, IH.
Qed.

Lemma contains_char c s : contains [c] s = existsb (Ascii.eqb c) s.
Proof.
  induction s as [|d r IH]; [reflexivity|].
  cbn [contains startswith existsb]. now rewrite IH, andb_true_r.
Qed.

Lemma split_whitespace_loop_word s : forall word,
  forallb (fun c => negb (isspace c)) s = true ->
  split_whitespace_loop word s =
    match rev word ++ s with
    | [] => []
    | w => [w]
    end.
Proof.
  induction s as [|c r IH]; intros word H.
  - cbn [split_whitespace_loop]. rewrite app_nil_r.
    destruct word as [|d word]; [reflexivity|].
    cbn [rev]. now destruct (rev word ++ [d]) eqn:E; [destruct (rev word)|].
  - cbn in H. apply andb_prop in H as [Hc Hr]. apply negb_true_iff in Hc.
    cbn [split_whitespace_loop]. rewrite Hc, IH by exact Hr.
    cbn [rev]. now rewrite <- app_assoc.
Qed.

Lemma split_whitespace_loop_at a sp b : forall word,
  forallb (fun c => negb (isspace c)) a = true ->
  isspace sp = true ->
  rev word ++ a <> [] ->
  split_whitespace_loop word (a ++ sp :: b) =
    (rev word ++ a) :: split_whitespace_loop [] b.
Proof.
  induction a as [|c r IH]; intros word Ha Hsp Hne.
  - cbn [List.app split_whitespace_loop]. rewrite Hsp.
    rewrite app_nil_r in *. destruct word; [contradiction|reflexivity].
  - cbn in Ha. apply andb_prop in Ha as [Hc Hr]. apply negb_true_iff in Hc.
    cbn [List.app split_whitespace_loop]. rewrite Hc, IH; try assumption.
    + cbn [rev]. now rewrite <- app_assoc.
    + cbn [rev]. rewrite <- app_assoc. now destruct (rev word).
Qed.

Lemma strip_with_bracket p c mid d :
  p c = false -> p d = false ->
  strip_with p (c :: mid ++ [d]) = c :: mid ++ [d].
Proof.
  intros Hc Hd. unfold strip_with. cbn [dropwhile]. rewrite Hc.
  change (c :: mid ++ [d]) with ((c :: mid) ++ [d]).
  rewrite rev_app_distr. cbn [rev List.app dropwhile]. rewrite Hd.
  change (d :: rev mid ++ [c]) with ([d] ++ rev (c :: mid)).
  rewrite rev_app_distr, rev_involutive. reflexivity.
Qed.

Lemma hex_char_marks c :
  is_hex c = true ->
  isspace c = false /\ Ascii.eqb c ":" = false /\ Ascii.eqb c "-" = false /\
  Ascii.eqb c " " = false /\ Ascii.eqb c "#" = false /\
  Ascii.eqb c "010" = false /\
  Ascii.eqb ":" c = false /\ Ascii.eqb "-" c = false /\ Ascii.eqb " " c = false /\
  Ascii.eqb "#" c = false.
Proof.
  destruct c as [[] [] [] [] [] [] [] []]; intros H;
    solve [discriminate H | repeat split; reflexivity].
Qed.

Lemma hex_text_ends n :
  0 <= n ->
  (exists c r, hex_text n = c :: r /\ is_hex c = true) /\
  (exists r d, hex_text n = r ++ [d] /\ is_hex d = true).
Proof.
  intros Hn. pose proof (hex_text_is_hex n Hn) as H.
  pose proof (hex_text_not_empty n) as Hne.
  split.
  - destruct (hex_text n) as [|c r]; [contradiction|].
    cbn in H. apply andb_prop in H as [Hc _]. eauto.
  - destruct (exists_last Hne) as (r & d & E). rewrite E in H.
    rewrite forallb_app in H. apply andb_prop in H as [_ Hd].
    cbn in Hd. rewrite andb_true_r in Hd. eauto.
Qed.

(** A line that holds two boundaries as the ledger writes them. *)
Lemma parse_manual_line_pair a b sep :
  0 <= a <= b -> In sep [":"%char; "-"%char; " "%char] ->
  strip (hex_text a ++ [sep] ++ hex_text b) = hex_text a ++ [sep] ++ hex_text b /\
  split "010" (hex_text a ++ [sep] ++ hex_text b)
    = [hex_text a ++ [sep] ++ hex_text b] /\
  parse_manual_line (hex_text a ++ [sep] ++ hex_text b) = Some (a, b).
Proof.
  intros Hab Hsep.
  pose proof (hex_text_is_hex a ltac:(lia)) as Ha.
  pose proof (hex_text_is_hex b ltac:(lia)) as Hb.
  destruct (hex_text_ends a ltac:(lia)) as ((ca & ra & Ea & Hca) & _).
  destruct (hex_text_ends b ltac:(lia)) as (_ & (rb & db & Eb & Hdb)).
  assert (Hplain : forall (p : ascii -> bool) s,
            forallb is_hex s = true ->
            (forall c, is_hex c = true -> p c = false) ->
            forallb (fun c => negb (p c)) s = true).
  { intros p s Hs Hp. apply forallb_forall. intros c Hc.
    rewrite forallb_forall in Hs. now rewrite Hp by auto. }
  assert (Hstrip : strip (hex_text a ++ [sep] ++ hex_text b)
                   = hex_text a ++ [sep] ++ hex_text b).
  { rewrite Ea, Eb.
    change ((ca :: ra) ++ [sep] ++ rb ++ [db])
      with (ca :: (ra ++ [sep] ++ rb ++ [db])).
    replace (ra ++ [sep] ++ rb ++ [db]) with ((ra ++ [sep] ++ rb) ++ [db])
      by now rewrite <- !app_assoc.
    apply strip_with_bracket.
    - apply (hex_char_marks ca Hca).
    - apply (hex_char_marks db Hdb). }
  split; [exact Hstrip|]. split.
  - apply split_plain. rewrite !forallb_app. cbn [forallb].
    rewrite (Hplain (fun c => Ascii.eqb c "010") _ Ha)
      by (intros c Hc; apply (hex_char_marks c Hc)).
    rewrite (Hplain (fun c => Ascii.eqb c "010") _ Hb)
      by (intros c Hc; apply (hex_char_marks c Hc)).
    cbn in Hsep. now destruct Hsep as [<-|[<-|[<-|[]]]].
  - unfold parse_manual_line. rewrite Hstrip.
    assert (Hhead : hex_text a ++ [sep] ++ hex_text b
                    = ca :: (ra ++ [sep] ++ hex_text b))
      by now rewrite Ea.
    assert (Hstart : startswith (str "#") (hex_text a ++ [sep] ++ hex_text b)
                     = false).
    { rewrite Hhead. change (str "#") with ["#"%char]. cbn [startswith].
      now rewrite (proj2 (proj2 (proj2 (proj2 (proj2 (proj2
                 (proj2 (proj2 (proj2 (hex_char_marks ca Hca)))))))))). }
    assert (Hno : forall m,
              (forall c, is_hex c = true -> Ascii.eqb m c = false) ->
              Ascii.eqb m sep = false ->
              contains [m] (hex_text a ++ [sep] ++ hex_text b) = false).
    { intros m Hm Hms. rewrite contains_char, !existsb_app. cbn [existsb].
      rewrite Hms.
      assert (E : forall s, forallb is_hex s = true ->
                            existsb (Ascii.eqb m) s = false).
      { intros s Hs. apply not_true_is_false. intros Ex.
        apply existsb_exists in Ex as (c & Hc & Hmc).
        rewrite forallb_forall in Hs. now rewrite Hm in Hmc by auto. }
      now rewrite (E _ Ha), (E _ Hb). }
    assert (Hyes : contains [sep] (hex_text a ++ [sep] ++ hex_text b) = true).
    { rewrite contains_char, !existsb_app. cbn [existsb].
      now rewrite Ascii.eqb_refl, orb_true_r. }
    assert (Hvals : int16 (strip (hex_text a)) = Returned a /\
                    int16 (strip (hex_text b)) = Returned b).
    { rewrite !strip_hex_text by assumption.
      split; apply int16_hex_text; lia. }
    destruct Hvals as [Va Vb].
    assert (Hend : (b <? a) = false) by (apply Z.ltb_ge; lia).
    rewrite Hhead at 1. rewrite Hstart.
    change (str ":") with [":"%char]. change (str "-") with ["-"%char].
    change (str " ") with [" "%char].
    cbn in Hsep. destruct Hsep as [<-|[<-|[<-|[]]]].
    + rewrite Hyes.
      change (hex_text a ++ [":"%char] ++ hex_text b)
        with (hex_text a ++ ":"%char :: hex_text b).
      rewrite split_at, split_plain
        by (apply Hplain; [assumption|intros c Hc; apply (hex_char_marks c Hc)]).
      now rewrite Va, Vb, Hend.
    + rewrite (Hno ":"%char)
        by (try reflexivity; intros c Hc; apply (hex_char_marks c Hc)).
      rewrite Hyes.
      change (hex_text a ++ ["-"%char] ++ hex_text b)
        with (hex_text a ++ "-"%char :: hex_text b).
      rewrite split_at, split_plain
        by (apply Hplain; [assumption|intros c Hc; apply (hex_char_marks c Hc)]).
      now rewrite Va, Vb, Hend.
    + rewrite (Hno ":"%char), (Hno "-"%char)
        by (try reflexivity; intros c Hc; apply (hex_char_marks c Hc)).
      rewrite Hyes.
      change (hex_text a ++ [" "%char] ++ hex_text b)
        with (hex_text a ++ " "%char :: hex_text b).
      unfold split_whitespace.
      rewrite split_whitespace_loop_at;
        [ | apply Hplain; [assumption|intros c Hc; apply (hex_char_marks c Hc)]
          | reflexivity
          | cbn; apply hex_text_not_empty ].
      rewrite split_whitespace_loop_word
        by (apply Hplain; [assumption|intros c Hc; apply (hex_char_marks c Hc)]).
      cbn [rev List.app].
      pose proof (hex_text_not_empty b) as Hne.
      destruct (hex_text b) as [|c0 l0]; [contradiction|].
      cbv beta iota. now rewrite Va, Vb, Hend.
Qed.

End ManualLine.

(** X29.  [parse_manual_ranges] reads back a pair of boundaries written
    as the ledger writes them, [hex(n)[2:].upper()], with any of the three
    separators it knows between them. *)
Theorem parse_manual_ranges_reads_ledger_texts (a b : Z) (sep : ascii) :
  0 <= a <= b ->
  In sep [":"%char; "-"%char; " "%char] ->
  KeyHuntSmartGUI.parse_manual_ranges (Py.hex_text a ++ [sep] ++ Py.hex_text b)
    = [(a, b)].
Proof.
  intros Hab Hsep.
  destruct (parse_manual_line_pair a b sep Hab Hsep) as (Hstrip & Hsplit & Hline).
  unfold KeyHuntSmartGUI.parse_manual_ranges.
  rewrite Hstrip, Hsplit. cbn [flat_map]. now rewrite Hline.
Qed.

Lemma parse_manual_ranges_reads_ledger_texts_witness :
  0 <= 0x480 <= 0x4BF /\
  KeyHuntSmartGUI.parse_manual_ranges (str "480-4BF") = [(0x480, 0x4BF)].
Proof.
  split; [lia|].
  apply (parse_manual_ranges_reads_ledger_texts 0x480 0x4BF "-"); [lia|].
  right. left. reflexivity.
Defined.

(** ** The range handed to the worker *)

Section WorkerRange.

Import Py KeyHuntSmartGUI.

Lemma raw_digits_are_hex d :
  forallb is_hex (str (NilEmpty.string_of_uint d)) = true.
Proof. induction d; cbn; auto. Qed.

Lemma raw_digits_fold d : forall acc,
  fold_left (fun a c => 16 * a + default 0 (hex_digit_value c))
    (str (NilEmpty.string_of_uint d)) acc
  = fold_left (fun a c => 16 * a + default 0 (hex_digit_value c))
      (uint_text d) acc.
Proof.
  induction d; intros acc; try reflexivity;
    unfold uint_text;
    cbn [NilEmpty.string_of_uint str list_ascii_of_string map fold_left];
    fold (uint_text d); apply IHd.
Qed.

Lemma hex_tail_nonneg n :
  0 <= n -> hex_tail n = str (NilEmpty.string_of_uint (N.to_hex_uint (Z.to_N n))).
Proof.
  intros H. unfold hex_tail. destruct (Z.ltb_spec n 0); [lia|].
  f_equal. unfold NilZero.string_of_uint.
  pose proof (to_hex_uint_not_nil (Z.to_N n)) as Hn.
  destruct (N.to_hex_uint (Z.to_N n)); congruence.
Qed.

(** [int(hex(n)[2:], 16)] is [n] for a number that is not negative. *)
Lemma int16_hex_tail n :
  0 <= n ->
  forallb is_hex (hex_tail n) = true /\ int16 (hex_tail n) = Returned n.
Proof.
  intros H. rewrite hex_tail_nonneg by exact H.
  split; [apply raw_digits_are_hex|].
  rewrite int16_hex.
  - f_equal. unfold hex_value. rewrite raw_digits_fold.
    fold (hex_value (uint_text (N.to_hex_uint (Z.to_N n)))).
    rewrite <- hex_text_nonneg by exact H. now apply hex_text_value.
  - pose proof (to_hex_uint_not_nil (Z.to_N n)) as Hn.
    destruct (N.to_hex_uint (Z.to_N n)); try congruence; discriminate.
  - apply raw_digits_are_hex.
Qed.

End WorkerRange.

(** X30.  The range that [build_keyhunt_command] hands to the worker
    lies inside the block: it starts [keys_checked] keys after the start of
    the block when that count is positive, at the last key of the block when
    the count exceeds the block, and at the start of the block otherwise; it
    ends at the end of the block.  The argument after [--range] is the two
    boundaries in hexadecimal with a colon between them.  The command is
    returned exactly when the number of keys left in the block is below
    [2^1024 - 2^970]; from there on the call ends with [OverflowError] and
    returns no command. *)
Theorem worker_range_stays_in_the_block
  (st : KeyHuntSmartGUI.gui) (block_start block_end : Z) :
  0 <= block_start <= block_end ->
  let first := KeyHuntSmartGUI.actual_start st block_start block_end in
  let keys_to_search := block_end - first + 1 in
  let command := KeyHuntSmartGUI.build_keyhunt_command st block_start block_end in
  block_start <= first <= block_end /\
  first = block_start + Z.max 0
            (Z.min (KeyHuntSmartGUI.keys_checked st) (block_end - block_start)) /\
  (keys_to_search < 2 ^ 1024 - 2 ^ 970 ->
   exists cmd,
     command = Returned cmd /\
     nth 12 cmd [] = str "--range" /\
     map Py.int16 (Py.split ":" (nth 13 cmd []))
       = [Returned first; Returned block_end]) /\
  (2 ^ 1024 - 2 ^ 970 <= keys_to_search -> command = Raised Py.OverflowError).
Proof.
  intros Hb. cbv zeta.
  assert (Hfirst :
    block_start <= KeyHuntSmartGUI.actual_start st block_start block_end
      <= block_end /\
    KeyHuntSmartGUI.actual_start st block_start block_end
      = block_start + Z.max 0
          (Z.min (KeyHuntSmartGUI.keys_checked st) (block_end - block_start))).
  { unfold KeyHuntSmartGUI.actual_start.
    destruct (Z.ltb_spec 0 (KeyHuntSmartGUI.keys_checked st));
      [destruct (Z.ltb_spec block_end
                   (block_start + KeyHuntSmartGUI.keys_checked st))|]; lia. }
  destruct Hfirst as [Hin Heq].
  split; [exact Hin|]. split; [exact Heq|].
  assert (Hraises :
    Py.float_of_int_raises
      (block_end - KeyHuntSmartGUI.actual_start st block_start block_end + 1)
    = (2 ^ 1024 - 2 ^ 970
       <=? block_end - KeyHuntSmartGUI.actual_start st block_start block_end + 1)).
  { unfold Py.float_of_int_raises. now rewrite Z.abs_eq by lia. }
  destruct (build_keyhunt_command_cases st block_start block_end)
    as [[Hs (cmd & Hcmd & _ & H12 & H13)] | [Hs Hcmd]];
    cbv zeta in Hs; rewrite Hraises in Hs.
  - apply Z.leb_gt in Hs. split; [| intros Hbig; lia].
    intros _. exists cmd. split; [exact Hcmd|]. split; [exact H12|].
    rewrite H13.
    destruct (int16_hex_tail
                (KeyHuntSmartGUI.actual_start st block_start block_end)
                ltac:(lia)) as [Ha Va].
    destruct (int16_hex_tail block_end ltac:(lia)) as [He Ve].
    change (str ":") with [":"%char].
    change (?a ++ [":"%char] ++ ?b) with (a ++ ":"%char :: b).
    assert (Hplain : forall s, forallb is_hex s = true ->
              forallb (fun c => negb (Ascii.eqb c ":")) s = true).
    { intros s Hs'. apply forallb_forall. intros c Hc.
      rewrite forallb_forall in Hs'.
      now rewrite (proj1 (proj2 (hex_char_marks c (Hs' c Hc)))). }
    rewrite split_at, split_plain by auto.
    cbn [map]. now rewrite Va, Ve.
  - apply Z.leb_le in Hs. split; [intros Hsmall; lia | intros _; exact Hcmd].
Qed.

Lemma worker_range_stays_in_the_block_witness :
  let st := KeyHuntSmartGUI.set_keys_checked 16 searching_block_2 in
  0 <= 0x480 <= 0x4BF /\
  KeyHuntSmartGUI.actual_start st 0x480 0x4BF = 0x490 /\
  exists cmd,
    KeyHuntSmartGUI.build_keyhunt_command st 0x480 0x4BF = Returned cmd /\
    map Py.int16 (Py.split ":" (nth 13 cmd []))
    = [Returned 0x490; Returned 0x4BF].
Proof.
  cbv zeta. split; [lia|]. split; [reflexivity|].
  pose proof (worker_range_stays_in_the_block
                (KeyHuntSmartGUI.set_keys_checked 16 searching_block_2)
                0x480 0x4BF ltac:(lia)) as (_ & _ & H & _).
  destruct H as (cmd & H1 & _ & H3).
  - apply Z.ltb_lt. reflexivity.
  - exists cmd. split; [exact H1 | exact H3].
Defined.
